(** * On-screen-keyboard detector: a shallow embedding and its properties

    The repository has three source files:

    - [lib/index.js]: the public entry point and the heuristic detector for
      browsers without a usable visual viewport.  It is written as a pipeline of
      [@most/core] streams over DOM events.
    - the iOS detector (required by [index.js] as [./ios.js]): one listener
      on [visualViewport] and a duplicate filter.
    - a stand-alone focus based emitter.

    The embedding keeps that shape.  [Most] gives the stream combinators a
    denotational reading (a stream is the finite list of its timed events),
    [Ramda] the few helpers taken from ramda, [Dom] the part of the browser
    the code reads, and [Ios], [Emitter] and [Detector] follow the three
    source files definition by definition. *)

From Stdlib Require Import ZArith QArith Lqa String List Lia.
From stdpp Require Import base option list gmap strings.

#[local] Open Scope string_scope.
#[local] Open Scope list_scope.
#[local] Open Scope Z_scope.

(** ** JavaScript numbers

    Window and screen dimensions are integers (CSSOM declares them [long]); the
    height of the visual viewport is a [double] and may be fractional.  The
    arithmetic of the detectors is a subtraction, a product with [0.1] or
    [0.9] and one division.  Finite values are idealised as exact rationals
    (the comparisons made are between such a value and an integer, or with
    [0.1]; for pixel counts of the size of a screen they come out the same in
    double precision); the division keeps IEEE's special results, which
    [x / 0] produces. *)
Module JsNum.

Inductive num : Type :=
| Fin (q : Q)
| PosInf
| NegInf
| NaN.

Definition sub (a b : Q) : Q := (a - b)%Q.

(** [a / b] for finite operands. *)
Definition div (a b : Q) : num :=
  match Qcompare b 0 with
  | Eq =>
      match Qcompare a 0 with
      | Eq => NaN
      | Gt => PosInf
      | Lt => NegInf
      end
  | _ => Fin (a / b)%Q
  end.

(** [x > c] for a finite constant [c]: false on [NaN]. *)
Definition gt (x : num) (c : Q) : bool :=
  match x with
  | Fin q => if Qlt_le_dec c q then true else false
  | PosInf => true
  | NegInf => false
  | NaN => false
  end.

(** Comparisons of finite values. *)
Definition ltb (a b : Q) : bool := if Qlt_le_dec a b then true else false.
Definition gtb (a b : Q) : bool := ltb b a.

End JsNum.

(** ** The stream library

    [@most/core] is a dependency of the repository, not part of it; the
    combinators the code uses are given the meaning its documentation gives
    them.  A stream is the list of its events in the order in which they are
    delivered, each with the instant (in milliseconds since [subscribe]) at
    which it is delivered.  Callbacks that read the browser ([window],
    [screen], [document]) receive the instant at which they run.

    Two events of one millisecond are ordered by their position in the list.
    Where the library leaves the order of simultaneous events to the
    scheduler, the model fixes it: a DOM event is handled before a timer that
    is due in the same millisecond ([debounce], [switchLatest]), [merge]
    delivers its first argument first, [snapshot] sees a value published in
    the same millisecond, and [until] cuts at the end signal's instant. *)
Module Most.

Definition Time : Type := Z.
Definition Stream (A : Type) : Type := list (Time * A).

(** [empty()], [at(t, x)] and [now(x)]. *)
Definition empty {A} : Stream A := [].
Definition at_ {A} (t : Time) (x : A) : Stream A := [(t, x)].
Definition now {A} (x : A) : Stream A := at_ 0 x.

(** [startWith(x, s)]: [x] at subscription, then [s]. *)
Definition startWith {A} (x : A) (s : Stream A) : Stream A := now x ++ s.

Definition map {A B} (f : Time -> A -> B) (s : Stream A) : Stream B :=
  List.map (fun e => (e.1, f e.1 e.2)) s.

Definition filter {A} (p : A -> bool) (s : Stream A) : Stream A :=
  List.filter (fun e => p e.2) s.

Definition delay {A} (d : Time) (s : Stream A) : Stream A :=
  List.map (fun e => (e.1 + d, e.2)) s.

(** [merge(s1, s2)]: interleaving by time, [s1] first on a tie. *)
Fixpoint merge {A} (s1 : Stream A) : Stream A -> Stream A :=
  fix merge_aux (s2 : Stream A) : Stream A :=
    match s1, s2 with
    | [], _ => s2
    | _, [] => s1
    | e1 :: s1', e2 :: s2' =>
        if e1.1 <=? e2.1 then e1 :: merge s1' s2 else e2 :: merge_aux s2'
    end.

Definition mergeArray {A} (ss : list (Stream A)) : Stream A :=
  foldr merge [] ss.

(** A timer due at [t] fires when no later event of [rest] arrives at or
    before [t]. *)
Definition firesBefore {A} (t : Time) (rest : Stream A) : bool :=
  match rest with
  | [] => true
  | e :: _ => t <? e.1
  end.

(** [debounce(d, s)]: an event is delivered [d] later, unless the next event
    arrives before that. *)
Fixpoint debounce {A} (d : Time) (s : Stream A) : Stream A :=
  match s with
  | [] => []
  | e :: rest =>
      if firesBefore (e.1 + d) rest
      then (e.1 + d, e.2) :: debounce d rest
      else debounce d rest
  end.

(** [switchLatest(s)]: each event of [s] is a stream, started when the event
    arrives and disposed of when the next one arrives.  What an inner stream
    delivers at its very start ([now]) runs in the same turn and is always
    delivered. *)
Fixpoint switchLatest {A} (s : Stream (Stream A)) : Stream A :=
  match s with
  | [] => []
  | e :: rest =>
      List.filter (fun x => (x.1 =? e.1) || firesBefore x.1 rest) (delay e.1 e.2)
        ++ switchLatest rest
  end.

(** [join(s)]: every inner stream is started when it arrives and runs to its
    end. *)
Definition join {A} (s : Stream (Stream A)) : Stream A :=
  foldr (fun e acc => merge (delay e.1 e.2) acc) [] s.

(** The most recent value of [values] at instant [t], if it has one. *)
Definition latest {A} (values : Stream A) (t : Time) : option A :=
  snd <$> last (List.filter (fun e => e.1 <=? t) values).

(** [snapshot(f, values, sampler)]: each event of [sampler] is combined with
    the most recent value of [values]; it is dropped while [values] has
    none. *)
Definition snapshot {A B C} (f : Time -> A -> B -> C)
    (values : Stream A) (sampler : Stream B) : Stream C :=
  omap (fun e => v ← latest values e.1; Some (e.1, f e.1 v e.2)) sampler.

(** [scan(f, seed, s)]: the seed at subscription, then the running results. *)
Fixpoint scanFrom {A B} (f : B -> A -> B) (acc : B) (s : Stream A) : Stream B :=
  match s with
  | [] => []
  | e :: rest => let acc' := f acc e.2 in (e.1, acc') :: scanFrom f acc' rest
  end.

Definition scan {A B} (f : B -> A -> B) (seed : B) (s : Stream A) : Stream B :=
  now seed ++ scanFrom f seed s.

(** [skipRepeats(s)]: an event equal to the last delivered one is dropped. *)
Fixpoint skipRepeatsFrom {A} `{EqDecision A} (prev : option A) (s : Stream A)
    : Stream A :=
  match s with
  | [] => []
  | e :: rest =>
      if bool_decide (prev = Some e.2)
      then skipRepeatsFrom prev rest
      else e :: skipRepeatsFrom (Some e.2) rest
  end.

Definition skipRepeats {A} `{EqDecision A} (s : Stream A) : Stream A :=
  skipRepeatsFrom None s.

(** [skipAfter(p, s)]: [s] up to and including the first event that satisfies
    [p]. *)
Fixpoint skipAfter {A} (p : A -> bool) (s : Stream A) : Stream A :=
  match s with
  | [] => []
  | e :: rest => if p e.2 then [e] else e :: skipAfter p rest
  end.

(** [until(endSignal, s)]: [s] until the first event of [endSignal]. *)
Definition until {A B} (endSignal : Stream B) (s : Stream A) : Stream A :=
  match endSignal with
  | [] => s
  | e :: _ => List.filter (fun x => x.1 <? e.1) s
  end.

(** [runEffects(tap(callback, s))]: the calls made to [callback], in order. *)
Definition runEffects {A} (s : Stream A) : list A := s.*2.

End Most.

(** ** Helpers from ramda (a dependency, like [@most/core]) *)
Module Ramda.

Definition always {A B} (x : A) (_ : B) : A := x.

Definition identical {A} `{EqDecision A} (a b : A) : bool := bool_decide (a = b).

Definition equals {A} `{EqDecision A} (a b : A) : bool := bool_decide (a = b).

(** [assoc(k, v, obj)]: a copy of [obj] with property [k] set to [v]. *)
Definition assoc {V} (k : string) (v : V) (obj : gmap string V) : gmap string V :=
  <[k := v]> obj.

(** [keys(obj)]: the own property names. *)
Definition keys {V} (obj : gmap string V) : list string := (map_to_list obj).*1.

(** [difference(l1, l2)]: the elements of [l1] that are not in [l2], without
    duplicates. *)
Definition difference (l1 l2 : list string) : list string :=
  remove_dups (list_difference l1 l2).

(** [propEq(name, val, obj)]: [obj[name] === val]; the property is given by
    its projection.  The argument order is the one the call
    [propEq('isJustHeightResize', true)] is written for (name first, as in
    ramda before 0.29). *)
Definition propEq {A B} `{EqDecision B} (prop : A -> B) (val : B) (obj : A) : bool :=
  bool_decide (prop obj = val).

Definition isEmpty {A} (l : list A) : bool :=
  match l with
  | [] => true
  | _ :: _ => false
  end.

End Ramda.

(** ** The browser, as far as the detectors read it *)
Module Dom.

Inductive Element : Type :=
| body
| element (id : nat).

#[global] Instance Element_eq_dec : EqDecision Element.
Proof. solve_decision. Defined.

(** What a callback can read of [navigator], [window], [screen] and
    [document] when it runs. *)
Record Platform : Type := {
  userAgent : string;                (* navigator.userAgent *)
  ontouchend : bool;                 (* 'ontouchend' in document *)
  visualViewport : bool;             (* 'visualViewport' in window *)
  innerWidth : Z;                    (* window.innerWidth *)
  innerHeight : Z;                   (* window.innerHeight *)
  availHeight : Z;                   (* screen.availHeight *)
  orientationType : string;          (* screen.orientation.type *)
  visibilityState : string;          (* document.visibilityState *)
  activeElement : option Element     (* document.activeElement *)
}.

(** A focus event as the handlers read it: [evt.type], and of [evt.target]
    its [tagName] and [type]. *)
Record FocusEvent : Type := {
  type : string;
  targetTagName : string;
  targetType : string
}.

(** A [resize] event of the visual viewport: [evt.target.height]. *)
Record ViewportEvent : Type := {
  targetHeight : Q
}.

(** [s.startsWith(prefix)]. *)
Definition startsWith (prefix s : string) : bool := String.prefix prefix s.

(** [sub] occurs in [s]. *)
Fixpoint includes (sub s : string) : bool :=
  String.prefix sub s ||
  match s with
  | EmptyString => false
  | String _ s' => includes sub s'
  end.

End Dom.

(** ** The iOS detector

    One [resize] listener on [visualViewport]; the viewport's height is
    compared with the window's, and the result goes through
    [skipDuplicates]. *)
Module Ios.
Import Dom.

Definition isVisualViewportSupported (w : Platform) : bool := visualViewport w.

Definition isSupported (w : Platform) : bool := isVisualViewportSupported w.

(** [skipDuplicates(whenDifferent)] returns a closure over [previous].
    [initialPrevious] is the value [previous] starts with; [skipDuplicatesStep]
    is one call of the closure: the new [previous] and the calls it makes to
    [whenDifferent]. *)
Definition initialPrevious : string := "_one_time_initial_".

Definition skipDuplicatesStep (previous next : string) : string * list string :=
  if bool_decide (next <> previous) then (next, [next]) else (previous, []).

(** A call either returns or throws. *)
Inductive Outcome (A : Type) : Type :=
| returned (a : A)
| thrown (error : string).
Arguments returned {A} a.
Arguments thrown {A} error.

(** What one [subscribe] leaves behind and what happens to it afterwards:
    the texts passed to [console.warn], the listener on [visualViewport]
    ([Some previous] when [onResize] is registered, with the current value of
    its closure variable), and the arguments of the calls to [callback]. *)
Record State : Type := {
  warnings : list string;
  listener : option string;
  calls : list string
}.

(** The two functions [subscribe] can return. *)
Inductive Unsubscribe : Type :=
| trivial                 (* () => undefined *)
| removeResizeListener.   (* function () { visualViewport.removeEventListener(...); } *)

Definition relativeDifferenceBetweenInnerHeightAndViewportHeight
    (w : Platform) (evt : ViewportEvent) : JsNum.num :=
  JsNum.div (JsNum.sub (inject_Z (innerHeight w)) (targetHeight evt))
            (inject_Z (innerHeight w)).

(** The argument [onResize] passes to [nonRepeatingCallback]. *)
Definition onResizeState (w : Platform) (evt : ViewportEvent) : string :=
  if JsNum.gt (relativeDifferenceBetweenInnerHeightAndViewportHeight w evt) (1 # 10)
  then "visible"
  else "hidden".

Definition onResize (w : Platform) (evt : ViewportEvent) (previous : string)
    : string * list string :=
  skipDuplicatesStep previous (onResizeState w evt).

(** [visualViewport.addEventListener]: a [ReferenceError] when the page has no
    [visualViewport]. *)
Definition addEventListener (w : Platform) : Outcome unit :=
  if visualViewport w then returned ()
  else thrown "ReferenceError: visualViewport is not defined".

Definition warningText : string :=
  "On-Screen-Keyboard detection not supported on this version of iOS".

Definition subscribe (w : Platform) : Outcome (State * Unsubscribe) :=
  if negb (isSupported w)
  then returned ({| warnings := [warningText]; listener := None; calls := [] |},
                 trivial)
  else
    match addEventListener w with
    | returned _ =>
        returned ({| warnings := []; listener := Some initialPrevious; calls := [] |},
                  removeResizeListener)
    | thrown e => thrown e
    end.

(** A [resize] event of the visual viewport, handled with the window as it is
    at that moment. *)
Definition dispatch (st : State) (x : Platform * ViewportEvent) : State :=
  match listener st with
  | None => st
  | Some previous =>
      let r := onResize x.1 x.2 previous in
      {| warnings := warnings st; listener := Some r.1; calls := calls st ++ r.2 |}
  end.

Definition run (st : State) (events : list (Platform * ViewportEvent)) : State :=
  fold_left dispatch events st.

(** Calling the function [subscribe] returned. *)
Definition unsubscribe (u : Unsubscribe) (st : State) : State :=
  match u with
  | trivial => st
  | removeResizeListener =>
      {| warnings := warnings st; listener := None; calls := calls st |}
  end.

End Ios.

(** ** The stand-alone focus emitter

    The emitter is a Node [EventEmitter] with two extra properties.  Its
    listeners are the consumer's and outside the model: [emit] is recorded,
    and a listener is taken to return normally. *)
Module Emitter.
Import Dom.

(** The emitter object: its [visible] and [hidden] properties ([None] while
    they are not set) and the names of the events emitted so far. *)
Record State : Type := {
  visible : option bool;
  hidden : option bool;
  emitted : list string
}.

Definition eventEmitter : State :=
  {| visible := None; hidden := None; emitted := [] |}.

Definition isTextInput (event : FocusEvent) : bool :=
  bool_decide (targetTagName event = "INPUT") && bool_decide (targetType event = "text").

Definition onFocusin (event : FocusEvent) (st : State) : State :=
  if isTextInput event
  then {| visible := Some true; hidden := Some false;
          emitted := emitted st ++ ["change"; "show"] |}
  else st.

Definition onFocusout (event : FocusEvent) (st : State) : State :=
  if isTextInput event
  then {| visible := Some false; hidden := Some true;
          emitted := emitted st ++ ["change"; "hide"] |}
  else st.

(** The document dispatches an event to the listener registered for its
    type. *)
Definition dispatch (st : State) (event : FocusEvent) : State :=
  if bool_decide (type event = "focusin") then onFocusin event st
  else if bool_decide (type event = "focusout") then onFocusout event st
  else st.

Definition run (st : State) (events : list FocusEvent) : State :=
  fold_left dispatch events st.

(** What a listener called by [emit] can read: the name of the event and the
    emitter's [visible] and [hidden] at the moment of the call ([emit] calls
    the listeners before it returns). *)
Record Emission : Type := {
  eventName : string;
  visibleThen : option bool;
  hiddenThen : option bool
}.

Definition emit (eventName : string) (st : State) : Emission :=
  {| eventName := eventName; visibleThen := visible st; hiddenThen := hidden st |}.

(** The listener calls one event leads to: both handlers emit first and
    assign [visible] and [hidden] afterwards. *)
Definition emissions (st : State) (event : FocusEvent) : list Emission :=
  if bool_decide (type event = "focusin")
  then if isTextInput event then [emit "change" st; emit "show" st] else []
  else if bool_decide (type event = "focusout")
  then if isTextInput event then [emit "change" st; emit "hide" st] else []
  else [].

Fixpoint listenerCalls (st : State) (events : list FocusEvent) : list Emission :=
  match events with
  | [] => []
  | event :: rest => emissions st event ++ listenerCalls (dispatch st event) rest
  end.

End Emitter.

(** ** The entry point and the heuristic detector ([lib/index.js]) *)
Module Detector.
Import Dom.

(** The two regular expressions look for a word that contains [Macintosh]
    (or [iPhone], [Mobile]); such a word exists exactly when the text occurs
    in the user agent. *)
Definition isTouchable (w : Platform) : bool := ontouchend w.

Definition isIPad (w : Platform) : bool :=
  includes "Macintosh" (userAgent w) && isTouchable w.

Definition isIPhone (w : Platform) : bool :=
  includes "iPhone" (userAgent w) && includes "Mobile" (userAgent w) && isTouchable w.

Definition isIOS (w : Platform) : bool := isIPad w || isIPhone w.

Definition getScreenOrientationType (w : Platform) : string :=
  if startsWith "portrait" (orientationType w) then "portrait" else "landscape".

(** [rejectCapture(valve, s)]: the events of [s] that arrive while the most
    recent value of [valve] is [false]. *)
Definition rejectCapture {A} (valve : Most.Stream bool) (s : Most.Stream A)
    : Most.Stream A :=
  Most.join
    (Most.snapshot
       (fun _ (valveValue : bool) event => if valveValue then Most.empty else Most.now event)
       valve s).

Definition isAnyElementActive (w : Platform) : bool :=
  match activeElement w with
  | None => false
  | Some e => bool_decide (e <> body)
  end.

Definition isSupported (w : Platform) : bool :=
  if isIOS w then Ios.isSupported w else isTouchable w.

(** [{ screenOrientation, height }]: a candidate for the layout height
    without keyboard. *)
Module Layout.
Record t : Type := { screenOrientation : string; height : Z }.
End Layout.

(** [{ width, height }] *)
Module Size.
Record t : Type := { width : Z; height : Z }.
End Size.

(** [{ width, height, isJustHeightResize, dH }] *)
Module Sample.
Record t : Type := { width : Z; height : Z; isJustHeightResize : bool; dH : Z }.
End Sample.

(** One run of the page from [subscribe] (instant [0]) on: the browser as a
    callback running at instant [t] reads it, and the DOM events.  [focus] is
    [merge(focusin(documentElement), focusout(documentElement))], in the
    order of dispatch; [userUnsubscription] are the calls of the function
    that [subscribe] returned. *)
Record Trace : Type := {
  env : Most.Time -> Platform;
  focus : Most.Stream FocusEvent;
  visibilitychange : Most.Stream unit;
  orientationchange : Most.Stream unit;
  resize : Most.Stream unit;
  userUnsubscription : Most.Stream unit
}.

Definition INPUT_ELEMENT_FOCUS_JUMP_DELAY : Z := 700.
Definition SCREEN_ORIENTATION_TO_WINDOW_RESIZE_DELAY : Z := 700.
Definition RESIZE_QUIET_PERIOD : Z := 500.
Definition LAYOUT_RESIZE_TO_LAYOUT_HEIGHT_FIX_DELAY : Z :=
  Z.max INPUT_ELEMENT_FOCUS_JUMP_DELAY SCREEN_ORIENTATION_TO_WINDOW_RESIZE_DELAY
    - RESIZE_QUIET_PERIOD + 200.

(** [!v] for a property that is a number or missing. *)
Definition not_ (v : option Z) : bool :=
  match v with
  | None => true
  | Some n => n =? 0
  end.

(** The function [osk] passes to [snapshot], run with the browser [w]. *)
Definition classify (w : Platform) (layoutHeightByOrientation : gmap string Z)
    (s : Sample.t) : Most.Stream string :=
  let height := Sample.height s in
  let dH := Sample.dH s in
  let nonOSKLayoutHeight := layoutHeightByOrientation !! getScreenOrientationType w in
  if not_ nonOSKLayoutHeight
  then
    if JsNum.gtb (inject_Z dH) ((1 # 10) * inject_Z (availHeight w))
    then Most.now "hidden"
    else if JsNum.ltb (inject_Z dH) (- (1 # 10) * inject_Z (availHeight w))
    then Most.now "visible"
    else Most.empty
  else
    let n := default 0 nonOSKLayoutHeight in
    if JsNum.ltb (inject_Z height) ((9 # 10) * inject_Z n) && (dH <? 0)
    then Most.now "visible"
    else if (height =? n) && (dH >? 0)
    then Most.now "hidden"
    else Most.empty.

Section InitWithCallback.
Variable tr : Trace.

(* assumes initially hidden OSK *)
Definition initialLayoutHeight : Z := innerHeight (env tr 0).
(* assumes initially hidden OSK *)
Definition approximateBrowserToolbarHeight : Z :=
  availHeight (env tr 0) - innerHeight (env tr 0).

Definition documentVisibility : Most.Stream string :=
  Most.startWith (visibilityState (env tr 0))
    (Most.map (fun t _ => visibilityState (env tr t)) (visibilitychange tr)).

(** [isUnfocused] up to [switchLatest], and up to [startWith]. *)
Definition focusSwitched : Most.Stream bool :=
  Most.switchLatest
    (Most.map
       (fun _ evt =>
          if bool_decide (type evt = "focusin")
          then Most.now false
          else Most.at_ INPUT_ELEMENT_FOCUS_JUMP_DELAY true)
       (focus tr)).

Definition isUnfocusedBeforeSkipRepeats : Most.Stream bool :=
  Most.startWith (negb (isAnyElementActive (env tr 0))) focusSwitched.

Definition isUnfocused : Most.Stream bool :=
  Most.skipRepeats isUnfocusedBeforeSkipRepeats.

Definition layoutHeightOnOSKFreeOrientationChange : Most.Stream Layout.t :=
  Most.map
    (fun t (isOSKFree : bool) =>
       {| Layout.screenOrientation := getScreenOrientationType (env tr t);
          Layout.height :=
            if isOSKFree then innerHeight (env tr t)
            else availHeight (env tr t) - approximateBrowserToolbarHeight |})
    (Most.debounce SCREEN_ORIENTATION_TO_WINDOW_RESIZE_DELAY
       (* The 'change' event hits very early BEFORE window.innerHeight is updated *)
       (Most.snapshot
          (fun t (unfocused : bool) (_ : unit) =>
             unfocused || (innerHeight (env tr t) =? initialLayoutHeight))
          isUnfocused
          (orientationchange tr))).

Definition layoutHeightOnUnfocus : Most.Stream Layout.t :=
  Most.map
    (fun t _ =>
       {| Layout.screenOrientation := getScreenOrientationType (env tr t);
          Layout.height := innerHeight (env tr t) |})
    (Most.filter (Ramda.identical true) isUnfocused).

(** The baseline candidates, before the delay and the gate. *)
Definition layoutHeightCandidates : Most.Stream Layout.t :=
  Most.mergeArray [layoutHeightOnUnfocus; layoutHeightOnOSKFreeOrientationChange].

(** The candidates that pass the gate.
    Ignores source streams while documentVisibility is 'hidden' *)
Definition gatedLayoutHeightCandidates : Most.Stream Layout.t :=
  rejectCapture (Most.map (fun _ => Ramda.equals "hidden") documentVisibility)
    (Most.delay 1000 layoutHeightCandidates).

(** [layoutHeights] up to [scan]. *)
Definition layoutHeightsBeforeSkipAfter : Most.Stream (gmap string Z) :=
  Most.scan
    (fun accHeights c =>
       Ramda.assoc (Layout.screenOrientation c) (Layout.height c) accHeights)
    {[ getScreenOrientationType (env tr 0) := innerHeight (env tr 0) ]}
    gatedLayoutHeightCandidates.

Definition layoutHeights : Most.Stream (gmap string Z) :=
  Most.skipAfter
    (fun m => Ramda.isEmpty (Ramda.difference ["portrait"; "landscape"] (Ramda.keys m)))
    layoutHeightsBeforeSkipAfter.

Definition layoutHeightOnVerticalResize : Most.Stream Sample.t :=
  Most.filter (Ramda.propEq Sample.isJustHeightResize true)
    (Most.scan
       (fun prev size =>
          {| Sample.width := Size.width size;
             Sample.height := Size.height size;
             Sample.isJustHeightResize := Sample.width prev =? Size.width size;
             Sample.dH := Size.height size - Sample.height prev |})
       {| Sample.width := innerWidth (env tr 0);
          Sample.height := innerHeight (env tr 0);
          Sample.isJustHeightResize := false;
          Sample.dH := 0 |}
       (Most.map
          (fun t _ =>
             {| Size.width := innerWidth (env tr t); Size.height := innerHeight (env tr t) |})
          (Most.debounce RESIZE_QUIET_PERIOD (resize tr)))).

(** The classifier's part of [osk]: the delayed samples, each combined with
    the latest [layoutHeights]. *)
Definition oskFromResize : Most.Stream string :=
  Most.join
    (Most.snapshot
       (fun t layoutHeightByOrientation s =>
          classify (env tr t) layoutHeightByOrientation s)
       layoutHeights
       (Most.delay LAYOUT_RESIZE_TO_LAYOUT_HEIGHT_FIX_DELAY layoutHeightOnVerticalResize)).

(** The other part: ['hidden'] whenever [isUnfocused] becomes true. *)
Definition oskFromUnfocus : Most.Stream string :=
  Most.map (fun _ => Ramda.always "hidden")
    (Most.filter (Ramda.identical true) isUnfocused).

(** What reaches the final [skipRepeats]. *)
Definition oskBeforeSkipRepeats : Most.Stream string :=
  Most.until (userUnsubscription tr) (Most.merge oskFromUnfocus oskFromResize).

Definition osk : Most.Stream string := Most.skipRepeats oskBeforeSkipRepeats.

(** [runEffects(tap(userCallback, osk), scheduler)]: the arguments of the
    calls to [userCallback], in order. *)
Definition userCallbackCalls : list string := Most.runEffects osk.

End InitWithCallback.

(** What [initWithCallback] sets up: on iOS the outcome of [ios.subscribe],
    elsewhere the stream pipeline, given here by the calls it makes to
    [userCallback]. *)
Inductive Subscription : Type :=
| viaIos (r : Ios.Outcome (Ios.State * Ios.Unsubscribe))
| viaStreams (calls : Most.Stream string).

Definition initWithCallback (tr : Trace) : Subscription :=
  if isIOS (env tr 0) then viaIos (Ios.subscribe (env tr 0))
  else viaStreams (osk tr).

End Detector.

(** ** Concrete runs *)
Module Scenario.
Import Dom Detector.

(** A touch device that is not an iOS device. *)
Definition android (width height avail : Z) (orientation visibility : string)
    (active : option Element) : Platform :=
  {| userAgent := "Mozilla/5.0 (Linux; Android 10) Mobile";
     ontouchend := true; visualViewport := false;
     innerWidth := width; innerHeight := height; availHeight := avail;
     orientationType := orientation; visibilityState := visibility;
     activeElement := active |}.

Definition focusinEvent : FocusEvent :=
  {| type := "focusin"; targetTagName := "INPUT"; targetType := "text" |}.

Definition focusoutEvent : FocusEvent :=
  {| type := "focusout"; targetTagName := "INPUT"; targetType := "text" |}.

(** Portrait, 700 pixels high and nothing focused at [subscribe]; the window
    shrinks to 600 at 1000 ms and grows back to 700 at 5000 ms. *)
Definition keyboardShowsAndHides : Trace :=
  {| env := fun t =>
       if t <? 1000 then android 400 700 800 "portrait-primary" "visible" None
       else if t <? 5000 then android 400 600 800 "portrait-primary" "visible" None
       else android 400 700 800 "portrait-primary" "visible" None;
     focus := [];
     visibilitychange := [];
     orientationchange := [];
     resize := [(1000, ()); (5000, ())];
     userUnsubscription := [] |}.


(** A rotation with the keyboard up: portrait and 700 pixels high at
    [subscribe] with an input focused; the keyboard leaves 400 pixels from
    3000 ms on; the device is rotated at 5000 ms and the window is 400 pixels
    high before and after. *)
Definition rotatesWithKeyboard : Trace :=
  {| env := fun t =>
       if t <? 3000
       then android 400 700 800 "portrait-primary" "visible" (Some (element 1))
       else if t <? 5000
       then android 400 400 800 "portrait-primary" "visible" (Some (element 1))
       else if t <? 5100
       then android 400 400 800 "landscape-primary" "visible" (Some (element 1))
       else android 800 400 450 "landscape-primary" "visible" (Some (element 1));
     focus := [];
     visibilitychange := [];
     orientationchange := [(5000, ())];
     resize := [(3000, ()); (5100, ())];
     userUnsubscription := [] |}.

(** A rotation without keyboard: an input is focused, the window is 700
    pixels high until the rotation at 5000 ms and 320 pixels from 5100 ms
    on. *)
Definition rotatesWhileFocused : Trace :=
  {| env := fun t =>
       if t <? 5000
       then android 400 700 800 "portrait-primary" "visible" (Some (element 1))
       else if t <? 5100
       then android 400 700 800 "landscape-primary" "visible" (Some (element 1))
       else android 800 320 400 "landscape-primary" "visible" (Some (element 1));
     focus := [];
     visibilitychange := [];
     orientationchange := [(5000, ())];
     resize := [(5100, ())];
     userUnsubscription := [] |}.

(** Focus is lost twice: an input is focused at [subscribe], loses focus at
    1000 ms, is focused again at 3000 ms and loses focus at 4000 ms; at
    6000 ms the window shrinks from 700 to 600 pixels. *)
Definition losesFocusTwice : Trace :=
  {| env := fun t =>
       if t <? 6000
       then android 400 700 800 "portrait-primary" "visible" (Some (element 1))
       else android 400 600 800 "portrait-primary" "visible" (Some (element 1));
     focus := [(1000, focusoutEvent); (3000, focusinEvent); (4000, focusoutEvent)];
     visibilitychange := [];
     orientationchange := [];
     resize := [(6000, ())];
     userUnsubscription := [] |}.

(** Focus jumps from one input to the next at 1000 ms. *)
Definition focusJumps : Trace :=
  {| env := fun _ => android 400 700 800 "portrait-primary" "visible" (Some (element 1));
     focus := [(1000, focusoutEvent); (1000, focusinEvent)];
     visibilitychange := [];
     orientationchange := [];
     resize := [];
     userUnsubscription := [] |}.

(** The document is hidden from [subscribe] on; the window shrinks from 700
    to 600 pixels at 1000 ms. *)
Definition backgrounded : Trace :=
  {| env := fun t =>
       if t <? 1000
       then android 400 700 800 "portrait-primary" "hidden" (Some (element 1))
       else android 400 600 800 "portrait-primary" "hidden" (Some (element 1));
     focus := [];
     visibilitychange := [];
     orientationchange := [];
     resize := [(1000, ())];
     userUnsubscription := [] |}.

(** The device is rotated at 5000 ms while the document is hidden; the
    document becomes visible at 5500 ms. *)
Definition rotatesInBackground : Trace :=
  {| env := fun t =>
       if t <? 5000
       then android 400 700 800 "portrait-primary" "hidden" (Some (element 1))
       else if t <? 5100
       then android 400 700 800 "landscape-primary" "hidden" (Some (element 1))
       else if t <? 5500
       then android 800 320 400 "landscape-primary" "hidden" (Some (element 1))
       else android 800 320 400 "landscape-primary" "visible" (Some (element 1));
     focus := [];
     visibilitychange := [(5500, ())];
     orientationchange := [(5000, ())];
     resize := [(5100, ())];
     userUnsubscription := [] |}.

(** The window shrinks from 700 to 650 pixels at 1000 ms (the browser shows
    its toolbar); the focused input loses focus at 2000 ms. *)
Definition toolbarShowsThenUnfocus : Trace :=
  {| env := fun t =>
       if t <? 1000
       then android 400 700 800 "portrait-primary" "visible" (Some (element 1))
       else android 400 650 800 "portrait-primary" "visible" (Some (element 1));
     focus := [(2000, focusoutEvent)];
     visibilitychange := [];
     orientationchange := [];
     resize := [(1000, ())];
     userUnsubscription := [] |}.

(** A usual session: nothing is focused at [subscribe]; an input is focused
    at 1000 ms and the keyboard takes 300 of the 700 pixels at 1300 ms; the
    input loses focus at 5000 ms and the window is back at 700 pixels at
    5300 ms. *)
Definition typicalSession : Trace :=
  {| env := fun t =>
       if t <? 1300 then android 400 700 800 "portrait-primary" "visible" None
       else if t <? 5300
       then android 400 400 800 "portrait-primary" "visible" (Some (element 1))
       else android 400 700 800 "portrait-primary" "visible" None;
     focus := [(1000, focusinEvent); (5000, focusoutEvent)];
     visibilitychange := [];
     orientationchange := [];
     resize := [(1300, ()); (5300, ())];
     userUnsubscription := [] |}.

(** The window shrinks from 700 to 650 pixels at 1000 ms (the browser shows
    its toolbar) and nothing else happens. *)
Definition toolbarShows : Trace :=
  {| env := env toolbarShowsThenUnfocus;
     focus := [];
     visibilitychange := [];
     orientationchange := [];
     resize := [(1000, ())];
     userUnsubscription := [] |}.

(** The usual session, unsubscribed at 3000 ms. *)
Definition unsubscribesEarly : Trace :=
  {| env := env typicalSession;
     focus := focus typicalSession;
     visibilitychange := visibilitychange typicalSession;
     orientationchange := orientationchange typicalSession;
     resize := resize typicalSession;
     userUnsubscription := [(3000, ())] |}.

(** An iPhone with a visual viewport; its window is [height] pixels high. *)
Definition iphone (height : Z) : Platform :=
  {| userAgent := "Mozilla/5.0 (iPhone; CPU iPhone OS 13_0 like Mac OS X) Mobile/15E148";
     ontouchend := true; visualViewport := true;
     innerWidth := 375; innerHeight := height; availHeight := 667;
     orientationType := "portrait-primary"; visibilityState := "visible";
     activeElement := None |}.

End Scenario.

(** ** Vocabulary of the statements *)

(** No value occurs twice in a row. *)
Definition NeverTwiceInARow {A} (l : list A) : Prop :=
  forall (i : nat) (x y : A), l !! i = Some x -> l !! S i = Some y -> x <> y.

(** The latest value of [isUnfocused] at instant [t]. *)
Definition unfocusedAt (tr : Detector.Trace) (t : Most.Time) : bool :=
  default false (Most.latest (Detector.isUnfocused tr) t).

(** The focus debounce in the words of its description: a [focusin] at [t]
    gives [false] at [t]; any other focus event ([focusout]) at [t] gives
    [true] at [t + 700], unless the next focus event arrives before the timer
    fires. *)
Fixpoint focusDebounce (events : Most.Stream Dom.FocusEvent) : Most.Stream bool :=
  match events with
  | [] => []
  | e :: later =>
      (if decide (Dom.type e.2 = "focusin") then [(e.1, false)]
       else if Most.firesBefore (e.1 + 700) later then [(e.1 + 700, true)]
       else [])
      ++ focusDebounce later
  end.

(** The closure variable [previous] of a registered [onResize] is the last
    value passed to [callback], or the initial text before the first call. *)
Definition PreviousIsLastCall (st : Ios.State) : Prop :=
  Ios.listener st = Some (default Ios.initialPrevious (last (Ios.calls st))).

(** What every value of [layoutHeights] satisfies. *)
Definition BaselinesWellFormed (m : gmap string Z) : Prop :=
  dom m ⊆ ({[ "portrait"; "landscape" ]} : gset string) /\ m <> ∅.

(** [s] is in time order and has no event before [from]. *)
Fixpoint InTimeOrder {A} (from : Most.Time) (s : Most.Stream A) : Prop :=
  match s with
  | [] => True
  | e :: rest => from <= e.1 /\ InTimeOrder e.1 rest
  end.

(** The DOM events of a run are in time order and start at [subscribe]. *)
Definition WellFormed (tr : Detector.Trace) : Prop :=
  InTimeOrder 0 (Detector.focus tr) /\
  InTimeOrder 0 (Detector.visibilitychange tr) /\
  InTimeOrder 0 (Detector.orientationchange tr) /\
  InTimeOrder 0 (Detector.resize tr).

(** [tr] when the function that [subscribe] returned is never called. *)
Definition withoutUnsubscription (tr : Detector.Trace) : Detector.Trace :=
  {| Detector.env := Detector.env tr;
     Detector.focus := Detector.focus tr;
     Detector.visibilitychange := Detector.visibilitychange tr;
     Detector.orientationchange := Detector.orientationchange tr;
     Detector.resize := Detector.resize tr;
     Detector.userUnsubscription := [] |}.

(** The resize sample of instant [t] when the measurement before it was
    taken at [tprev]. *)
Definition sampleBetween (tr : Detector.Trace) (tprev t : Most.Time) : Detector.Sample.t :=
  {| Detector.Sample.width := Dom.innerWidth (Detector.env tr t);
     Detector.Sample.height := Dom.innerHeight (Detector.env tr t);
     Detector.Sample.isJustHeightResize :=
       Dom.innerWidth (Detector.env tr tprev) =? Dom.innerWidth (Detector.env tr t);
     Detector.Sample.dH :=
       Dom.innerHeight (Detector.env tr t) - Dom.innerHeight (Detector.env tr tprev) |}.

(** The samples of the measurements taken at [times], the one before them
    taken at [tprev]. *)
Fixpoint samplesFrom (tr : Detector.Trace) (tprev : Most.Time) (times : list Most.Time)
    : Most.Stream Detector.Sample.t :=
  match times with
  | [] => []
  | t :: later => (t, sampleBetween tr tprev t) :: samplesFrom tr t later
  end.

(** The focus events the stand-alone emitter reacts to. *)
Definition handledByEmitter (event : Dom.FocusEvent) : bool :=
  Emitter.isTextInput event
  && (bool_decide (Dom.type event = "focusin") || bool_decide (Dom.type event = "focusout")).

(** [sub] occurs in [s]. *)
Definition Occurs (sub s : string) : Prop :=
  exists pre post : string, s = (pre ++ sub ++ post)%string.

(** Linear arithmetic over instants. *)
Ltac time_lia := unfold Most.Time in *; simpl in *; lia.

(** * Properties *)

(** ** Lists without immediate repetition *)

Lemma never_twice_nil {A} : NeverTwiceInARow (@nil A).
Proof. intros i x y H; rewrite lookup_nil in H; discriminate. Qed.

Lemma never_twice_cons {A} (x : A) (l : list A) :
  NeverTwiceInARow (x :: l) <->
  (forall y, head l = Some y -> x <> y) /\ NeverTwiceInARow l.
Proof.
  split.
  - intros H; split.
    + intros y Hy. apply (H 0%nat); [reflexivity|]. destruct l; simpl in *; congruence.
    + intros i a b Ha Hb. exact (H (S i) a b Ha Hb).
  - intros [Hh Ht] [|i] a b Ha Hb; simpl in *.
    + injection Ha as <-. apply Hh. destruct l; simpl in *; congruence.
    + exact (Ht i a b Ha Hb).
Qed.

Lemma never_twice_snoc {A} (l : list A) (x : A) :
  NeverTwiceInARow l -> (forall y, last l = Some y -> y <> x) ->
  NeverTwiceInARow (l ++ [x]).
Proof.
  induction l as [|a l IH]; intros Hl Hlast.
  - simpl. apply never_twice_cons; split; [intros y Hy; discriminate | apply never_twice_nil].
  - apply never_twice_cons in Hl as [Hh Ht]. simpl. apply never_twice_cons; split.
    + intros y Hy. destruct l as [|b l]; simpl in *.
      * injection Hy as <-. apply Hlast. reflexivity.
      * apply Hh. exact Hy.
    + apply IH; [exact Ht|]. intros y Hy. apply Hlast.
      destruct l; [discriminate | exact Hy].
Qed.

(** ** The iOS detector: ratio and threshold *)

Lemma gt_Fin (q c : Q) : JsNum.gt (JsNum.Fin q) c = true <-> (c < q)%Q.
Proof.
  unfold JsNum.gt. destruct (Qlt_le_dec c q) as [H|H]; split; intros H'; try done.
  exfalso. exact (Qlt_not_le _ _ H' H).
Qed.

Lemma div_nonzero (a b : Q) : ~ (b == 0)%Q -> JsNum.div a b = JsNum.Fin (a / b)%Q.
Proof.
  intros Hb. unfold JsNum.div. destruct (Qcompare b 0) eqn:E; try reflexivity.
  apply Qeq_alt in E. contradiction.
Qed.

Lemma onResizeState_cases (w : Dom.Platform) (evt : Dom.ViewportEvent) :
  Ios.onResizeState w evt = "visible" \/ Ios.onResizeState w evt = "hidden".
Proof. unfold Ios.onResizeState. destruct (JsNum.gt _ _); auto. Qed.

(** C2.  On every [resize] event of the visual viewport the handler computes
    [ratio = (window.innerHeight - evt.target.height) / window.innerHeight]
    and passes ['visible'] on (to the duplicate filter) exactly when
    [ratio > 0.1], and ['hidden'] otherwise.  For a window that has a height
    the ratio is the rational quotient.  With [window.innerHeight = 800] the
    viewport heights 800, 600 and 790 give ['hidden'], ['visible'] and
    ['hidden']. *)
Theorem onResize_ratio_threshold :
  (forall (w : Dom.Platform) (evt : Dom.ViewportEvent) (previous : string),
      let ratio :=
        JsNum.div (inject_Z (Dom.innerHeight w) - Dom.targetHeight evt)
                  (inject_Z (Dom.innerHeight w)) in
      (Ios.onResizeState w evt = "visible" <-> JsNum.gt ratio (1 # 10) = true) /\
      (Ios.onResizeState w evt = "hidden" <-> JsNum.gt ratio (1 # 10) = false) /\
      Ios.onResize w evt previous
        = Ios.skipDuplicatesStep previous (Ios.onResizeState w evt)) /\
  (forall (w : Dom.Platform) (evt : Dom.ViewportEvent),
      Dom.innerHeight w <> 0 ->
      (Ios.onResizeState w evt = "visible" <->
       (1 # 10 < (inject_Z (Dom.innerHeight w) - Dom.targetHeight evt)
                   / inject_Z (Dom.innerHeight w))%Q) /\
      (Ios.onResizeState w evt = "hidden" <->
       ((inject_Z (Dom.innerHeight w) - Dom.targetHeight evt)
          / inject_Z (Dom.innerHeight w) <= 1 # 10)%Q)) /\
  (forall (w : Dom.Platform),
      Dom.innerHeight w = 800 ->
      Ios.onResizeState w {| Dom.targetHeight := 800 |} = "hidden" /\
      Ios.onResizeState w {| Dom.targetHeight := 600 |} = "visible" /\
      Ios.onResizeState w {| Dom.targetHeight := 790 |} = "hidden").
Proof.
  split; [|split].
  - intros w evt previous ratio. split; [|split]; [| |reflexivity].
    all: unfold Ios.onResizeState.
    all: change (Ios.relativeDifferenceBetweenInnerHeightAndViewportHeight w evt) with ratio.
    all: destruct (JsNum.gt ratio (1 # 10)); split; intros; try reflexivity; discriminate.
  - intros w evt Hh.
    assert (Hnz : ~ (inject_Z (Dom.innerHeight w) == 0)%Q).
    { intros E. apply Hh. unfold Qeq in E. simpl in E. lia. }
    unfold Ios.onResizeState, Ios.relativeDifferenceBetweenInnerHeightAndViewportHeight,
      JsNum.sub.
    rewrite (div_nonzero _ _ Hnz).
    pose proof (gt_Fin ((inject_Z (Dom.innerHeight w) - Dom.targetHeight evt)
                          / inject_Z (Dom.innerHeight w)) (1 # 10)) as G.
    destruct (JsNum.gt _ _) eqn:E; split; split; intros H; try congruence.
    + apply G. reflexivity.
    + exfalso. apply (Qlt_not_le _ _ (proj1 G eq_refl) H).
    + exfalso. apply G in H. congruence.
    + apply Qnot_lt_le. intros C. apply G in C. congruence.
  - intros w Hw. unfold Ios.onResizeState,
      Ios.relativeDifferenceBetweenInnerHeightAndViewportHeight. rewrite Hw.
    repeat split; vm_compute; reflexivity.
Qed.

(** The hypotheses of [onResize_ratio_threshold] at a window of 800 pixels. *)
Lemma onResize_ratio_threshold_witness :
  let w := {| Dom.userAgent := "iPhone Mobile"; Dom.ontouchend := true;
              Dom.visualViewport := true; Dom.innerWidth := 400;
              Dom.innerHeight := 800; Dom.availHeight := 800;
              Dom.orientationType := "portrait-primary";
              Dom.visibilityState := "visible"; Dom.activeElement := None |} in
  Ios.onResizeState w {| Dom.targetHeight := 600 |} = "visible" /\
  (1 # 10 < (inject_Z 800 - 600) / inject_Z 800)%Q /\
  Ios.onResizeState w {| Dom.targetHeight := 790 |} = "hidden".
Proof.
  intros w.
  pose proof (proj1 (proj2 onResize_ratio_threshold) w {| Dom.targetHeight := 600 |}) as H.
  pose proof (proj2 (proj2 onResize_ratio_threshold) w) as H3.
  split; [|split].
  - apply H3. reflexivity.
  - apply H; [simpl; lia | apply H3; reflexivity].
  - apply H3. reflexivity.
Defined.

(** ** The focus emitter *)

Lemma emitter_dispatch_flags (st : Emitter.State) (event : Dom.FocusEvent) :
  Emitter.dispatch st event = st \/
  exists b : bool,
    Emitter.visible (Emitter.dispatch st event) = Some b /\
    Emitter.hidden (Emitter.dispatch st event) = Some (negb b).
Proof.
  unfold Emitter.dispatch, Emitter.onFocusin, Emitter.onFocusout.
  destruct (Emitter.isTextInput event); repeat case_bool_decide; auto.
  - right. exists true. auto.
  - right. exists false. auto.
Qed.

(** C10.  A [focusin] or [focusout] event whose target is not an [INPUT] of
    type [text] emits nothing and leaves [visible] and [hidden] as they are.
    A handled [focusin] emits [change] and [show] and sets [visible = true],
    [hidden = false]; a handled [focusout] emits [change] and [hide] and sets
    [visible = false], [hidden = true]; so after every handled event
    [visible] is the negation of [hidden], and this stays so whatever events
    follow. *)
Theorem emitter_flags :
  (forall (st : Emitter.State) (event : Dom.FocusEvent),
      Dom.type event = "focusin" \/ Dom.type event = "focusout" ->
      (~ (Dom.targetTagName event = "INPUT" /\ Dom.targetType event = "text") ->
         Emitter.dispatch st event = st) /\
      (Dom.targetTagName event = "INPUT" /\ Dom.targetType event = "text" ->
         let st' := Emitter.dispatch st event in
         (Dom.type event = "focusin" ->
            Emitter.visible st' = Some true /\ Emitter.hidden st' = Some false /\
            Emitter.emitted st' = Emitter.emitted st ++ ["change"; "show"]) /\
         (Dom.type event = "focusout" ->
            Emitter.visible st' = Some false /\ Emitter.hidden st' = Some true /\
            Emitter.emitted st' = Emitter.emitted st ++ ["change"; "hide"]) /\
         Emitter.visible st' = negb <$> Emitter.hidden st')) /\
  (forall events : list Dom.FocusEvent,
      let st := Emitter.run Emitter.eventEmitter events in
      st = Emitter.eventEmitter \/
      exists b : bool, Emitter.visible st = Some b /\ Emitter.hidden st = Some (negb b)).
Proof.
  split.
  - intros st event Hty. unfold Emitter.dispatch, Emitter.onFocusin, Emitter.onFocusout,
      Emitter.isTextInput.
    split.
    + intros Hno.
      assert (E : bool_decide (Dom.targetTagName event = "INPUT")
                  && bool_decide (Dom.targetType event = "text") = false).
      { apply andb_false_iff.
        destruct (decide (Dom.targetTagName event = "INPUT")) as [H1|H1];
          [right|left]; apply bool_decide_eq_false; [|exact H1].
        intros H2. apply Hno. split; assumption. }
      rewrite E. repeat case_bool_decide; reflexivity.
    + intros [H1 H2].
      rewrite (bool_decide_eq_true_2 _ H1), (bool_decide_eq_true_2 _ H2).
      simpl. destruct Hty as [Hin|Hout].
      * rewrite (bool_decide_eq_true_2 _ Hin). simpl.
        repeat split; try reflexivity; exfalso; rewrite Hin in *; discriminate.
      * assert (Hn : Dom.type event <> "focusin") by (rewrite Hout; discriminate).
        rewrite (bool_decide_eq_false_2 _ Hn), (bool_decide_eq_true_2 _ Hout). simpl.
        repeat split; try reflexivity; exfalso; rewrite Hout in *; discriminate.
  - intros events. unfold Emitter.run.
    assert (Hgen : forall st0 : Emitter.State,
               (st0 = Emitter.eventEmitter \/
                exists b, Emitter.visible st0 = Some b /\ Emitter.hidden st0 = Some (negb b)) ->
               fold_left Emitter.dispatch events st0 = Emitter.eventEmitter \/
               exists b, Emitter.visible (fold_left Emitter.dispatch events st0) = Some b /\
                         Emitter.hidden (fold_left Emitter.dispatch events st0)
                         = Some (negb b)).
    { induction events as [|event events IH]; intros st0 H0; [exact H0|].
      simpl. apply IH.
      destruct (emitter_dispatch_flags st0 event) as [E | Hset]; [|right; exact Hset].
      rewrite E. exact H0. }
    apply Hgen. left. reflexivity.
Qed.

(** [emitter_flags] at a [focusin] on a text input, from the initial
    emitter. *)
Lemma emitter_flags_witness :
  Emitter.visible
    (Emitter.dispatch Emitter.eventEmitter
       {| Dom.type := "focusin"; Dom.targetTagName := "INPUT"; Dom.targetType := "text" |})
  = Some true.
Proof.
  pose proof (proj1 emitter_flags Emitter.eventEmitter
    {| Dom.type := "focusin"; Dom.targetTagName := "INPUT"; Dom.targetType := "text" |}
    (or_introl eq_refl)) as [_ H].
  destruct (H (conj eq_refl eq_refl)) as [Hin _].
  exact (proj1 (Hin eq_refl)).
Defined.

(** ** Unsupported platforms *)

Lemma ios_run_without_listener (st : Ios.State) (events : list (Dom.Platform * Dom.ViewportEvent)) :
  Ios.listener st = None -> Ios.run st events = st.
Proof.
  intros Hl. unfold Ios.run. induction events as [|x events IH]; [reflexivity|].
  simpl. unfold Ios.dispatch at 2. rewrite Hl. exact IH.
Qed.

(** C9.  On a platform that needs the visual viewport (iOS) and has none,
    [isSupported()] is [false]; [subscribe(cb)] returns (it does not throw),
    has passed one warning to [console.warn], has registered no listener, so
    that no event ever leads to a call of [cb], and the function it returns
    does nothing. *)
Theorem unsupported_degrades_safely (tr : Detector.Trace) :
  Detector.isIOS (Detector.env tr 0) = true ->
  Dom.visualViewport (Detector.env tr 0) = false ->
  Detector.isSupported (Detector.env tr 0) = false /\
  exists st : Ios.State,
    Detector.initWithCallback tr = Detector.viaIos (Ios.returned (st, Ios.trivial)) /\
    Ios.warnings st = [Ios.warningText] /\
    Ios.listener st = None /\
    Ios.calls st = [] /\
    (forall events, Ios.calls (Ios.run st events) = []) /\
    (forall st', Ios.unsubscribe Ios.trivial st' = st').
Proof.
  intros Hios Hvv. split.
  - unfold Detector.isSupported, Ios.isSupported, Ios.isVisualViewportSupported.
    rewrite Hios. exact Hvv.
  - eexists. unfold Detector.initWithCallback, Ios.subscribe, Ios.isSupported,
      Ios.isVisualViewportSupported. rewrite Hios, Hvv. simpl.
    split; [reflexivity|]. split; [reflexivity|]. split; [reflexivity|].
    split; [reflexivity|]. split; [|reflexivity].
    intros events. rewrite ios_run_without_listener; reflexivity.
Qed.

(** [ios.subscribe] throws on no platform: the listener is only registered
    where [visualViewport] exists. *)
Lemma ios_subscribe_returns (w : Dom.Platform) :
  exists r : Ios.State * Ios.Unsubscribe, Ios.subscribe w = Ios.returned r.
Proof.
  unfold Ios.subscribe, Ios.isSupported, Ios.isVisualViewportSupported,
    Ios.addEventListener.
  destruct (Dom.visualViewport w); simpl; eauto.
Qed.

(** [unsupported_degrades_safely] on an iPhone without visual viewport. *)
Lemma unsupported_degrades_safely_witness :
  Detector.isSupported
    {| Dom.userAgent := "Mozilla/5.0 (iPhone; CPU iPhone OS 12_0 like Mac OS X) Mobile/15E148";
       Dom.ontouchend := true; Dom.visualViewport := false;
       Dom.innerWidth := 375; Dom.innerHeight := 600; Dom.availHeight := 667;
       Dom.orientationType := "portrait-primary"; Dom.visibilityState := "visible";
       Dom.activeElement := None |} = false.
Proof.
  exact (proj1 (unsupported_degrades_safely
    {| Detector.env := fun _ =>
         {| Dom.userAgent := "Mozilla/5.0 (iPhone; CPU iPhone OS 12_0 like Mac OS X) Mobile/15E148";
            Dom.ontouchend := true; Dom.visualViewport := false;
            Dom.innerWidth := 375; Dom.innerHeight := 600; Dom.availHeight := 667;
            Dom.orientationType := "portrait-primary"; Dom.visibilityState := "visible";
            Dom.activeElement := None |};
       Detector.focus := []; Detector.visibilitychange := [];
       Detector.orientationchange := []; Detector.resize := [];
       Detector.userUnsubscription := [] |} eq_refl eq_refl)).
Defined.

(** ** Duplicate suppression *)

Lemma skipRepeatsFrom_never_twice {A} `{EqDecision A} (s : Most.Stream A) :
  forall prev : option A,
    NeverTwiceInARow (Most.skipRepeatsFrom prev s).*2 /\
    (forall x, head (Most.skipRepeatsFrom prev s).*2 = Some x -> prev <> Some x).
Proof.
  induction s as [|e s IH]; intros prev; simpl.
  - split; [apply never_twice_nil | intros x Hx; discriminate].
  - case_bool_decide as Hp.
    + exact (IH prev).
    + destruct (IH (Some e.2)) as [IH1 IH2]. simpl. split.
      * apply never_twice_cons. split; [|exact IH1].
        intros y Hy E. apply (IH2 y Hy). congruence.
      * intros x Hx. injection Hx as <-. exact Hp.
Qed.

Lemma skipRepeats_never_twice {A} `{EqDecision A} (s : Most.Stream A) :
  NeverTwiceInARow (Most.runEffects (Most.skipRepeats s)).
Proof. exact (proj1 (skipRepeatsFrom_never_twice s None)). Qed.

Lemma ios_dispatch_invariant (st : Ios.State) (x : Dom.Platform * Dom.ViewportEvent) :
  PreviousIsLastCall st -> NeverTwiceInARow (Ios.calls st) ->
  PreviousIsLastCall (Ios.dispatch st x) /\ NeverTwiceInARow (Ios.calls (Ios.dispatch st x)).
Proof.
  unfold PreviousIsLastCall. intros Hp Hn. unfold Ios.dispatch. rewrite Hp.
  unfold Ios.onResize, Ios.skipDuplicatesStep. case_bool_decide as Hd; simpl.
  - rewrite last_snoc. simpl. split; [reflexivity|].
    apply never_twice_snoc; [exact Hn|].
    intros y Hy E. apply Hd. rewrite Hy. simpl. congruence.
  - rewrite app_nil_r. split; [reflexivity | exact Hn].
Qed.

Lemma ios_run_invariant (events : list (Dom.Platform * Dom.ViewportEvent)) :
  forall st : Ios.State,
    PreviousIsLastCall st -> NeverTwiceInARow (Ios.calls st) ->
    PreviousIsLastCall (Ios.run st events) /\ NeverTwiceInARow (Ios.calls (Ios.run st events)).
Proof.
  unfold Ios.run. induction events as [|x events IH]; intros st Hp Hn; simpl.
  - split; assumption.
  - destruct (ios_dispatch_invariant st x Hp Hn) as [Hp' Hn']. exact (IH _ Hp' Hn').
Qed.

(** C8.  The consumer's callback is never called twice in a row with the same
    value, by either detector.  The iOS filter keeps the last forwarded value
    in [previous], which starts as a text different from ['visible'] and
    ['hidden'], and forwards a value exactly when it differs from [previous];
    the stream pipeline ends in [skipRepeats], which forwards the first value
    and drops repetitions. *)
Theorem no_duplicate_emissions :
  (Ios.initialPrevious <> "visible" /\ Ios.initialPrevious <> "hidden") /\
  (forall previous next : string,
      Ios.skipDuplicatesStep previous next
        = if decide (next = previous) then (previous, []) else (next, [next])) /\
  (forall (w : Dom.Platform) (events : list (Dom.Platform * Dom.ViewportEvent)),
      exists (st : Ios.State) (u : Ios.Unsubscribe),
        Ios.subscribe w = Ios.returned (st, u) /\
        NeverTwiceInARow (Ios.calls (Ios.run st events)) /\
        (Dom.visualViewport w = true ->
           PreviousIsLastCall (Ios.run st events) /\
           forall x, Ios.calls (Ios.run st [x]) = [Ios.onResizeState x.1 x.2])) /\
  (forall tr : Detector.Trace,
      NeverTwiceInARow (Detector.userCallbackCalls tr) /\
      head (Detector.osk tr) = head (Detector.oskBeforeSkipRepeats tr)).
Proof.
  split; [split; discriminate|]. split; [|split].
  - intros previous next. unfold Ios.skipDuplicatesStep.
    case_bool_decide; case_decide; try reflexivity; contradiction.
  - intros w events.
    unfold Ios.subscribe, Ios.isSupported, Ios.isVisualViewportSupported,
      Ios.addEventListener.
    destruct (Dom.visualViewport w) eqn:Hvv; simpl.
    + set (st0 := {| Ios.warnings := []; Ios.listener := Some Ios.initialPrevious;
                     Ios.calls := [] |}).
      exists st0, Ios.removeResizeListener. split; [reflexivity|].
      assert (H0 : PreviousIsLastCall st0) by reflexivity.
      destruct (ios_run_invariant events st0 H0 never_twice_nil) as [Hp Hn].
      split; [exact Hn|]. intros _. split; [exact Hp|].
      intros x. unfold Ios.run, st0. simpl. unfold Ios.dispatch. simpl.
      unfold Ios.onResize, Ios.skipDuplicatesStep.
      destruct (onResizeState_cases x.1 x.2) as [-> | ->]; reflexivity.
    + eexists. exists Ios.trivial. split; [reflexivity|].
      split; [|intros; discriminate].
      rewrite ios_run_without_listener by reflexivity. apply never_twice_nil.
  - intros tr. split.
    + unfold Detector.userCallbackCalls, Detector.osk. apply skipRepeats_never_twice.
    + unfold Detector.osk. destruct (Detector.oskBeforeSkipRepeats tr); reflexivity.
Qed.

(** [no_duplicate_emissions] on a supported iPhone: three events that
    classify as hidden, hidden, visible lead to two calls. *)
Lemma no_duplicate_emissions_witness :
  let w := {| Dom.userAgent := "iPhone Mobile"; Dom.ontouchend := true;
              Dom.visualViewport := true; Dom.innerWidth := 400;
              Dom.innerHeight := 800; Dom.availHeight := 800;
              Dom.orientationType := "portrait-primary";
              Dom.visibilityState := "visible"; Dom.activeElement := None |} in
  let st := {| Ios.warnings := []; Ios.listener := Some Ios.initialPrevious;
               Ios.calls := [] |} in
  let events := [(w, {| Dom.targetHeight := 800 |}); (w, {| Dom.targetHeight := 790 |});
                 (w, {| Dom.targetHeight := 600 |})] in
  Ios.calls (Ios.run st events) = ["hidden"; "visible"] /\
  NeverTwiceInARow (Ios.calls (Ios.run st events)).
Proof.
  intros w st events. split; [vm_compute; reflexivity|].
  destruct (proj1 (proj2 (proj2 no_duplicate_emissions)) w events)
    as (st' & u & Hsub & Hn & _).
  injection Hsub as <- <-. exact Hn.
Defined.

(** ** The resize classifier *)

Lemma ltb_true (a b : Q) : JsNum.ltb a b = true <-> (a < b)%Q.
Proof.
  unfold JsNum.ltb. destruct (Qlt_le_dec a b) as [H|H]; split; intros H'; try done.
  exfalso. exact (Qlt_not_le _ _ H' H).
Qed.

(** The comparisons of [classify], over the integers. *)
Lemma above_ten_percent (dH A : Z) :
  JsNum.gtb (inject_Z dH) ((1 # 10) * inject_Z A) = true <-> A < 10 * dH.
Proof.
  unfold JsNum.gtb. rewrite ltb_true. unfold Qlt. simpl. lia.
Qed.

Lemma below_minus_ten_percent (dH A : Z) :
  JsNum.ltb (inject_Z dH) (- (1 # 10) * inject_Z A) = true <-> 10 * dH < - A.
Proof.
  rewrite ltb_true. unfold Qlt. simpl. lia.
Qed.

Lemma below_ninety_percent (h n : Z) :
  JsNum.ltb (inject_Z h) ((9 # 10) * inject_Z n) = true <-> 10 * h < 9 * n.
Proof.
  rewrite ltb_true. unfold Qlt. simpl. lia.
Qed.

Lemma bool_as_decide (b : bool) (P : Prop) `{Decision P} :
  (b = true <-> P) -> b = bool_decide P.
Proof.
  intros HbP. destruct b; symmetry.
  - apply bool_decide_eq_true. apply HbP. reflexivity.
  - apply bool_decide_eq_false. intros HP. apply HbP in HP. discriminate.
Qed.

(** [classify] over the integers: the four comparisons decide the result. *)
Lemma classify_integers (w : Dom.Platform) (m : gmap string Z) (s : Detector.Sample.t) :
  let height := Detector.Sample.height s in
  let dH := Detector.Sample.dH s in
  let A := Dom.availHeight w in
  Detector.classify w m s =
    match m !! Detector.getScreenOrientationType w with
    | Some n =>
        if decide (n = 0) then
          if decide (A < 10 * dH) then Most.now "hidden"
          else if decide (10 * dH < - A) then Most.now "visible"
          else Most.empty
        else
          if decide (10 * height < 9 * n /\ dH < 0) then Most.now "visible"
          else if decide (height = n /\ 0 < dH) then Most.now "hidden"
          else Most.empty
    | None =>
        if decide (A < 10 * dH) then Most.now "hidden"
        else if decide (10 * dH < - A) then Most.now "visible"
        else Most.empty
    end.
Proof.
  intros height dH A. unfold Detector.classify. fold height dH A.
  rewrite (bool_as_decide _ _ (above_ten_percent dH A)).
  rewrite (bool_as_decide _ _ (below_minus_ten_percent dH A)).
  destruct (m !! Detector.getScreenOrientationType w) as [n|]; simpl.
  - rewrite (bool_as_decide _ _ (below_ninety_percent height n)).
    rewrite (bool_as_decide _ _ (Z.eqb_eq n 0)).
    rewrite (bool_as_decide _ _ (Z.eqb_eq height n)).
    rewrite (bool_as_decide _ _ (Z.ltb_lt dH 0)).
    rewrite Z.gtb_ltb, (bool_as_decide _ _ (Z.ltb_lt 0 dH)).
    repeat case_bool_decide; simpl; repeat case_decide; try reflexivity;
      exfalso; tauto.
  - repeat case_bool_decide; repeat case_decide; try reflexivity; exfalso; tauto.
Qed.

(** ** Which events a combinator delivers *)

Lemma in_merge {A} (x : Most.Time * A) (s1 s2 : Most.Stream A) :
  In x (Most.merge s1 s2) <-> In x s1 \/ In x s2.
Proof.
  revert s2. induction s1 as [|e1 s1 IH1]; intros s2.
  - destruct s2; simpl; tauto.
  - induction s2 as [|e2 s2 IH2].
    + simpl; tauto.
    + change (Most.merge (e1 :: s1) (e2 :: s2))
        with (if e1.1 <=? e2.1 then e1 :: Most.merge s1 (e2 :: s2)
              else e2 :: Most.merge (e1 :: s1) s2).
      destruct (e1.1 <=? e2.1).
      * simpl. rewrite IH1. simpl. tauto.
      * simpl. rewrite IH2. simpl. tauto.
Qed.

Lemma in_delay {A} (t d : Most.Time) (x : A) (s : Most.Stream A) :
  In (t, x) (Most.delay d s) <-> In (t - d, x) s.
Proof.
  unfold Most.delay. rewrite in_map_iff. split.
  - intros [[u y] [E H]]. simpl in E. injection E as <- <-.
    replace (u + d - d) with u by lia. exact H.
  - intros H. exists (t - d, x). split; [simpl; f_equal; lia | exact H].
Qed.

Lemma in_map {A B} (f : Most.Time -> A -> B) (t : Most.Time) (y : B) (s : Most.Stream A) :
  In (t, y) (Most.map f s) <-> exists x, In (t, x) s /\ y = f t x.
Proof.
  unfold Most.map. rewrite in_map_iff. split.
  - intros [[u x] [E H]]. simpl in E. injection E as <- <-. exists x. auto.
  - intros [x [H ->]]. exists (t, x). auto.
Qed.

Lemma in_filter {A} (p : A -> bool) (e : Most.Time * A) (s : Most.Stream A) :
  In e (Most.filter p s) <-> In e s /\ p e.2 = true.
Proof. unfold Most.filter. apply filter_In. Qed.

Lemma in_join {A} (x : Most.Time * A) (s : Most.Stream (Most.Stream A)) :
  In x (Most.join s) <->
  exists (e : Most.Time * Most.Stream A) (y : Most.Time * A),
    In e s /\ In y e.2 /\ x = (y.1 + e.1, y.2).
Proof.
  unfold Most.join. induction s as [|e s IH]; simpl.
  - split; [tauto | intros (e & y & [] & _)].
  - rewrite in_merge, IH. split.
    + intros [H | (e' & y & He & Hy & ->)].
      * destruct x as [t a]. apply in_delay in H.
        exists e, (t - e.1, a). split; [left; reflexivity|]. split; [exact H|].
        simpl. f_equal. lia.
      * exists e', y. split; [right; exact He|]. split; [exact Hy | reflexivity].
    + intros (e' & y & [<- | He] & Hy & ->).
      * left. destruct y as [u a]. apply in_delay. simpl.
        replace (u + e.1 - e.1) with u by lia. exact Hy.
      * right. exists e', y. split; [exact He|]. split; [exact Hy | reflexivity].
Qed.

Lemma in_snapshot {A B C} (f : Most.Time -> A -> B -> C) (values : Most.Stream A)
    (sampler : Most.Stream B) (t : Most.Time) (c : C) :
  In (t, c) (Most.snapshot f values sampler) <->
  exists (b : B) (a : A),
    In (t, b) sampler /\ Most.latest values t = Some a /\ c = f t a b.
Proof.
  unfold Most.snapshot. rewrite <- list_elem_of_In, list_elem_of_omap. split.
  - intros ([u b] & Hin & Hs). simpl in Hs.
    destruct (Most.latest values u) as [a|] eqn:El; simpl in Hs; [|discriminate].
    injection Hs as <- <-. exists b, a. rewrite <- list_elem_of_In. auto.
  - intros (b & a & Hin & Hl & ->). exists (t, b).
    rewrite list_elem_of_In. split; [exact Hin|]. simpl. rewrite Hl. reflexivity.
Qed.

Lemma in_skipAfter {A} (p : A -> bool) (x : Most.Time * A) (s : Most.Stream A) :
  In x (Most.skipAfter p s) -> In x s.
Proof.
  induction s as [|e s IH]; simpl; [tauto|].
  destruct (p e.2); simpl; tauto.
Qed.

Lemma in_scanFrom_intro {A B} (f : B -> A -> B) (s : Most.Stream A) :
  forall (acc : B) (t : Most.Time) (a : A),
    In (t, a) s -> exists acc' : B, In (t, f acc' a) (Most.scanFrom f acc s).
Proof.
  induction s as [|e s IH]; intros acc t a; simpl; [tauto|].
  intros [-> | H].
  - exists acc. left. reflexivity.
  - destruct (IH (f acc e.2) t a H) as [acc' Hin]. exists acc'. right. exact Hin.
Qed.

Lemma in_skipAfter_intro {A} (p : A -> bool) (l1 l2 : Most.Stream A) (x : Most.Time * A) :
  (forall y, In y l1 -> p y.2 = false) -> In x (Most.skipAfter p (l1 ++ x :: l2)).
Proof.
  induction l1 as [|e l1 IH]; intros Hp; simpl.
  - destruct (p x.2); left; reflexivity.
  - rewrite (Hp e) by (left; reflexivity). right. apply IH.
    intros y Hy. apply Hp. right. exact Hy.
Qed.

Lemma in_until {A B} (endSignal : Most.Stream B) (x : Most.Time * A) (s : Most.Stream A) :
  In x (Most.until endSignal s) <->
  In x s /\ forall e, head endSignal = Some e -> x.1 < e.1.
Proof.
  unfold Most.until. destruct endSignal as [|e rest]; simpl.
  - split; [intros H; split; [exact H | intros e He; discriminate] | tauto].
  - rewrite filter_In. rewrite Z.ltb_lt. split.
    + intros [H1 H2]. split; [exact H1|]. intros e' He'. injection He' as <-. exact H2.
    + intros [H1 H2]. split; [exact H1 | apply H2; reflexivity].
Qed.

Lemma classify_cases (w : Dom.Platform) (m : gmap string Z) (s : Detector.Sample.t) :
  Detector.classify w m s = Most.now "visible" \/
  Detector.classify w m s = Most.now "hidden" \/
  Detector.classify w m s = Most.empty.
Proof.
  rewrite classify_integers. repeat (case_match; try case_decide); auto.
Qed.

(** The classifier's events are the results of [classify] on the samples,
    400 ms after each sample, with the latest baselines and the browser of
    that moment. *)
Lemma oskFromResize_classified (tr : Detector.Trace) (t : Most.Time) (x : string) :
  In (t, x) (Detector.oskFromResize tr) <->
  exists (s : Detector.Sample.t) (m : gmap string Z),
    In (t - Detector.LAYOUT_RESIZE_TO_LAYOUT_HEIGHT_FIX_DELAY, s)
       (Detector.layoutHeightOnVerticalResize tr) /\
    Most.latest (Detector.layoutHeights tr) t = Some m /\
    Detector.classify (Detector.env tr t) m s = Most.now x.
Proof.
  unfold Detector.oskFromResize. rewrite in_join. split.
  - intros ([u inner] & [d y] & Hs & Hy & E). simpl in *. injection E as -> ->.
    apply in_snapshot in Hs as (s & m & Hs & Hm & ->).
    apply in_delay in Hs.
    assert (Hd : d = 0 /\ Detector.classify (Detector.env tr u) m s = Most.now y).
    { destruct (classify_cases (Detector.env tr u) m s) as [E | [E | E]];
        rewrite E in Hy |- *; simpl in Hy; intuition congruence. }
    destruct Hd as [-> Hc]. replace (0 + u) with u by lia. exists s, m. auto.
  - intros (s & m & Hs & Hm & Hc).
    exists (t, Detector.classify (Detector.env tr t) m s), (0, x). simpl.
    split; [|split; [rewrite Hc; left; reflexivity | f_equal; lia]].
    apply in_snapshot. exists s, m. split; [apply in_delay; exact Hs | auto].
Qed.



(** The same two resizes through the whole pipeline: ['hidden'] at
    [subscribe] (nothing is focused), ['visible'] 900 ms after the window
    shrank, ['hidden'] 900 ms after it grew back. *)
Example keyboardShowsAndHides_osk :
  Detector.osk Scenario.keyboardShowsAndHides
  = [(0, "hidden"); (1900, "visible"); (5900, "hidden")].
Proof. vm_compute. reflexivity. Qed.

(** A usual session: the keyboard is reported 900 ms after the window
    shrank, and its disappearance as soon as the loss of focus is confirmed;
    the classification of the second resize, ['hidden'] at 6200 ms, is a
    repetition and is dropped. *)
Example typicalSession_osk :
  Detector.oskBeforeSkipRepeats Scenario.typicalSession
  = [(0, "hidden"); (2200, "visible"); (5700, "hidden"); (6200, "hidden")] /\
  Detector.osk Scenario.typicalSession
  = [(0, "hidden"); (2200, "visible"); (5700, "hidden")].
Proof. split; vm_compute; reflexivity. Qed.


(** ** The visibility gate *)

Lemma latest_map {A B} (g : A -> B) (values : Most.Stream A) (t : Most.Time) :
  Most.latest (Most.map (fun _ => g) values) t = g <$> Most.latest values t.
Proof.
  unfold Most.latest, Most.map, Most.Stream, Most.Time in *. cbv beta.
  assert (E : List.filter (fun e : Z * B => e.1 <=? t)
                (List.map (fun e : Z * A => (e.1, g e.2)) values)
              = (fun e : Z * A => (e.1, g e.2))
                  <$> List.filter (fun e : Z * A => e.1 <=? t) values).
  { induction values as [|e values IH]; [reflexivity|]. simpl.
    destruct (e.1 <=? t); simpl; rewrite IH; reflexivity. }
  rewrite E, fmap_last. destruct (last _) as [[u a]|]; reflexivity.
Qed.

Lemma in_rejectCapture {A} (valve : Most.Stream bool) (s : Most.Stream A)
    (t : Most.Time) (x : A) :
  In (t, x) (Detector.rejectCapture valve s) <->
  In (t, x) s /\ Most.latest valve t = Some false.
Proof.
  unfold Detector.rejectCapture. rewrite in_join. split.
  - intros ([u inner] & [d y] & Hs & Hy & E). simpl in *. injection E as -> ->.
    apply in_snapshot in Hs as (b & v & Hs & Hv & ->).
    destruct v; simpl in Hy; [contradiction|].
    destruct Hy as [E|[]]. injection E as <- <-.
    replace (0 + u) with u by lia. auto.
  - intros [Hs Hv]. exists (t, Most.now x), (0, x). simpl.
    split; [|split; [left; reflexivity | f_equal; lia]].
    apply in_snapshot. exists x, false. auto.
Qed.

(** A candidate passes the gate, 1000 ms after it was produced, exactly when
    the latest value of [documentVisibility] is not ['hidden']. *)
Lemma in_gatedLayoutHeightCandidates (tr : Detector.Trace) (t : Most.Time)
    (c : Detector.Layout.t) :
  In (t, c) (Detector.gatedLayoutHeightCandidates tr) <->
  In (t - 1000, c) (Detector.layoutHeightCandidates tr) /\
  exists v : string,
    Most.latest (Detector.documentVisibility tr) t = Some v /\ v <> "hidden".
Proof.
  unfold Detector.gatedLayoutHeightCandidates.
  rewrite in_rejectCapture, in_delay, latest_map.
  unfold Ramda.equals. split; intros [Hc Hv]; (split; [exact Hc|]).
  - destruct (Most.latest (Detector.documentVisibility tr) t) as [v|];
      simpl in Hv; [|discriminate].
    exists v. split; [reflexivity|]. injection Hv as Hv.
    apply bool_decide_eq_false in Hv. congruence.
  - destruct Hv as (v & -> & Hv). simpl. f_equal.
    apply bool_decide_eq_false. congruence.
Qed.

(** ** The baselines *)

Lemma getScreenOrientationType_cases (w : Dom.Platform) :
  Detector.getScreenOrientationType w = "portrait" \/
  Detector.getScreenOrientationType w = "landscape".
Proof. unfold Detector.getScreenOrientationType. destruct (Dom.startsWith _ _); auto. Qed.

(** A candidate carries the orientation of the moment it is produced. *)
Lemma candidate_orientation (tr : Detector.Trace) (t : Most.Time) (c : Detector.Layout.t) :
  In (t, c) (Detector.layoutHeightCandidates tr) ->
  Detector.Layout.screenOrientation c
  = Detector.getScreenOrientationType (Detector.env tr t).
Proof.
  unfold Detector.layoutHeightCandidates, Most.mergeArray. simpl.
  rewrite !in_merge. intros [H | [H | []]].
  - unfold Detector.layoutHeightOnUnfocus in H.
    apply in_map in H as (x & _ & ->). reflexivity.
  - unfold Detector.layoutHeightOnOSKFreeOrientationChange in H.
    apply in_map in H as (x & _ & ->). reflexivity.
Qed.

(** [skipAfter]'s test in [layoutHeights]: both orientations are recorded. *)
Lemma both_recorded (m : gmap string Z) :
  Ramda.isEmpty (Ramda.difference ["portrait"; "landscape"] (Ramda.keys m)) = true <->
  is_Some (m !! "portrait") /\ is_Some (m !! "landscape").
Proof.
  assert (Hk : forall k, k ∈ Ramda.keys m <-> is_Some (m !! k)).
  { intros k. unfold Ramda.keys. rewrite list_elem_of_fmap. split.
    - intros ([k' v] & -> & H). apply elem_of_map_to_list in H. simpl. eauto.
    - intros [v H]. exists (k, v). split; [reflexivity|].
      apply elem_of_map_to_list. exact H. }
  assert (Hd : forall k, k ∈ Ramda.difference ["portrait"; "landscape"] (Ramda.keys m)
                 <-> (k = "portrait" \/ k = "landscape") /\ ~ is_Some (m !! k)).
  { intros k. unfold Ramda.difference.
    rewrite elem_of_remove_dups, list_elem_of_difference, Hk.
    rewrite !elem_of_cons, elem_of_nil. tauto. }
  split.
  - intros He.
    assert (Hnil : Ramda.difference ["portrait"; "landscape"] (Ramda.keys m) = [])
      by (destruct (Ramda.difference _ _); [reflexivity | discriminate]).
    split.
    + destruct (m !! "portrait") as [v|] eqn:E; [eauto|]. exfalso.
      assert (H : "portrait" ∈ Ramda.difference ["portrait"; "landscape"] (Ramda.keys m)).
      { apply Hd. split; [auto|]. rewrite E. intros [? ?]; discriminate. }
      rewrite Hnil in H. inversion H.
    + destruct (m !! "landscape") as [v|] eqn:E; [eauto|]. exfalso.
      assert (H : "landscape" ∈ Ramda.difference ["portrait"; "landscape"] (Ramda.keys m)).
      { apply Hd. split; [auto|]. rewrite E. intros [? ?]; discriminate. }
      rewrite Hnil in H. inversion H.
  - intros [Hp Hl].
    destruct (Ramda.difference ["portrait"; "landscape"] (Ramda.keys m)) as [|k l] eqn:E;
      [reflexivity|]. exfalso.
    assert (H : k ∈ k :: l) by left.
    apply Hd in H as [[-> | ->] Hno]; contradiction.
Qed.

Lemma scanFrom_invariant {A B} (P : B -> Prop) (f : B -> A -> B) (g : Most.Stream A) :
  (forall b e, P b -> In e g -> P (f b e.2)) ->
  forall acc, P acc -> forall x, In x (Most.scanFrom f acc g) -> P x.2.
Proof.
  induction g as [|e g IH]; intros Hstep acc Hacc x; simpl; [tauto|].
  intros [<- | H].
  - simpl. apply Hstep; [exact Hacc | left; reflexivity].
  - refine (IH _ (f acc e.2) _ x H).
    + intros b e' Hb He'. apply Hstep; [exact Hb | right; exact He'].
    + apply Hstep; [exact Hacc | left; reflexivity].
Qed.

(** Two consecutive events of [skipAfter(p, scan(f, seed, g))]: the first does
    not satisfy [p], and the second is one step of [f] from it. *)
Lemma skipAfter_scanFrom_step {A B} (p : B -> bool) (f : B -> A -> B) (g : Most.Stream A) :
  forall (t0 : Most.Time) (acc : B) (i : nat) (t t' : Most.Time) (m m' : B),
    Most.skipAfter p ((t0, acc) :: Most.scanFrom f acc g) !! i = Some (t, m) ->
    Most.skipAfter p ((t0, acc) :: Most.scanFrom f acc g) !! S i = Some (t', m') ->
    p m = false /\ exists a, In (t', a) g /\ m' = f m a.
Proof.
  induction g as [|e g IH]; intros t0 acc i t t' m m' Hi HSi.
  - simpl in *. destruct (p acc); destruct i; simpl in *; discriminate.
  - cbn [Most.scanFrom Most.skipAfter] in Hi, HSi. simpl in Hi, HSi.
    destruct (p acc) eqn:Hp.
    + destruct i; simpl in *; discriminate.
    + destruct i as [|j].
      * simpl in Hi. injection Hi as <- <-.
        simpl in HSi.
        assert (E : (e.1, f acc e.2) = (t', m'))
          by (destruct (p (f acc e.2)); simpl in HSi; congruence).
        injection E as <- <-.
        split; [exact Hp|]. exists e.2. split; [left; destruct e; reflexivity | reflexivity].
      * simpl in Hi, HSi.
        destruct (IH e.1 (f acc e.2) j t t' m m' Hi HSi) as (Hpm & a & Ha & ->).
        split; [exact Hpm|]. exists a. split; [right; exact Ha | reflexivity].
Qed.

Lemma latest_of_last {A} (s : Most.Stream A) (t t' : Most.Time) (a : A) :
  last s = Some (t, a) -> t <= t' -> Most.latest s t' = Some a.
Proof.
  intros Hl Ht. apply last_Some in Hl as [l ->].
  unfold Most.latest. rewrite List.filter_app. simpl.
  rewrite (proj2 (Z.leb_le t t') Ht). rewrite last_snoc. reflexivity.
Qed.

Lemma last_by_lookup {A} (l : list A) (i : nat) (x : A) :
  l !! i = Some x -> l !! S i = None -> last l = Some x.
Proof.
  intros Hi HSi. apply lookup_lt_Some in Hi as Hlt. apply lookup_ge_None in HSi.
  rewrite last_lookup. replace (Nat.pred (length l)) with i by lia. exact Hi.
Qed.

Lemma gated_orientation (tr : Detector.Trace) (e : Most.Time * Detector.Layout.t) :
  In e (Detector.gatedLayoutHeightCandidates tr) ->
  Detector.Layout.screenOrientation e.2 = "portrait" \/
  Detector.Layout.screenOrientation e.2 = "landscape".
Proof.
  destruct e as [t c]. intros H. apply in_gatedLayoutHeightCandidates in H as [Hc _].
  simpl. rewrite (candidate_orientation _ _ _ Hc). apply getScreenOrientationType_cases.
Qed.

Lemma assoc_well_formed (o : string) (h : Z) (m : gmap string Z) :
  o = "portrait" \/ o = "landscape" ->
  BaselinesWellFormed m -> BaselinesWellFormed (Ramda.assoc o h m).
Proof.
  intros Ho [Hd Hne]. unfold Ramda.assoc. split.
  - rewrite dom_insert. apply union_subseteq. split; [|exact Hd].
    apply singleton_subseteq_l.
    destruct Ho as [-> | ->]; rewrite elem_of_union, !elem_of_singleton; auto.
  - apply insert_non_empty.
Qed.

Lemma layoutHeights_well_formed (tr : Detector.Trace) (x : Most.Time * gmap string Z) :
  In x (Detector.layoutHeights tr) -> BaselinesWellFormed x.2.
Proof.
  unfold Detector.layoutHeights. intros H. apply in_skipAfter in H.
  unfold Detector.layoutHeightsBeforeSkipAfter, Most.scan, Most.now, Most.at_ in H.
  simpl in H. destruct H as [<- | H].
  - simpl. split.
    + rewrite dom_singleton.
      destruct (getScreenOrientationType_cases (Detector.env tr 0)) as [-> | ->];
        set_solver.
    + apply map_non_empty_singleton.
  - revert x H. apply scanFrom_invariant.
    + intros b e Hb He. apply assoc_well_formed; [|exact Hb].
      exact (gated_orientation tr e He).
    + split.
      * rewrite dom_singleton.
        destruct (getScreenOrientationType_cases (Detector.env tr 0)) as [-> | ->];
          set_solver.
      * apply map_non_empty_singleton.
Qed.

Lemma well_formed_size (m : gmap string Z) :
  BaselinesWellFormed m -> (1 <= size m <= 2)%nat.
Proof.
  intros [Hd Hne]. split.
  - destruct (size m) eqn:E; [|lia]. apply map_size_empty_iff in E. contradiction.
  - rewrite <- size_dom. apply subseteq_size in Hd.
    assert (E : size ({[ "portrait"; "landscape" ]} : gset string) = 2%nat)
      by (vm_compute; reflexivity).
    lia.
Qed.

(** C3 (as the code has it).  The baselines start as the one-entry map that
    holds the window height at [subscribe] for the orientation at
    [subscribe].  Every value has one or two entries, for ['portrait'] or
    ['landscape'] only; every update sets one orientation's entry and keeps
    the others, so the recorded orientations never shrink; and once both
    orientations are recorded no further update follows: that map stays the
    latest value for ever. *)
Theorem layoutHeights_grow_and_freeze (tr : Detector.Trace) :
  let seed : gmap string Z :=
    {[ Detector.getScreenOrientationType (Detector.env tr 0)
         := Dom.innerHeight (Detector.env tr 0) ]} in
  head (Detector.layoutHeights tr) = Some (0, seed) /\
  forall (i : nat) (t : Most.Time) (m : gmap string Z),
    Detector.layoutHeights tr !! i = Some (t, m) ->
    dom m ⊆ ({[ "portrait"; "landscape" ]} : gset string) /\
    (1 <= size m <= 2)%nat /\
    (forall (t' : Most.Time) (m' : gmap string Z),
        Detector.layoutHeights tr !! S i = Some (t', m') ->
        exists (o : string) (h : Z),
          (o = "portrait" \/ o = "landscape") /\ m' = <[o := h]> m /\ dom m ⊆ dom m') /\
    (is_Some (m !! "portrait") -> is_Some (m !! "landscape") ->
       Detector.layoutHeights tr !! S i = None /\
       forall t' : Most.Time, t <= t' -> Most.latest (Detector.layoutHeights tr) t' = Some m).
Proof.
  intros seed. split.
  - unfold Detector.layoutHeights, Detector.layoutHeightsBeforeSkipAfter, Most.scan,
      Most.now, Most.at_. simpl.
    fold seed. destruct (Ramda.isEmpty _); reflexivity.
  - intros i t m Hi.
    assert (Hwf : BaselinesWellFormed m).
    { apply (layoutHeights_well_formed tr (t, m)).
      apply list_elem_of_In. eapply list_elem_of_lookup_2. exact Hi. }
    assert (Hstep : forall t' m', Detector.layoutHeights tr !! S i = Some (t', m') ->
              Ramda.isEmpty (Ramda.difference ["portrait"; "landscape"] (Ramda.keys m))
                = false /\
              exists c, In (t', c) (Detector.gatedLayoutHeightCandidates tr) /\
                m' = Ramda.assoc (Detector.Layout.screenOrientation c)
                       (Detector.Layout.height c) m).
    { intros t' m' HSi.
      unfold Detector.layoutHeights, Detector.layoutHeightsBeforeSkipAfter, Most.scan,
        Most.now, Most.at_ in Hi, HSi.
      simpl in Hi, HSi. fold seed in Hi, HSi.
      exact (skipAfter_scanFrom_step _ _ _ 0 seed i t t' m m' Hi HSi). }
    split; [exact (proj1 Hwf)|]. split; [exact (well_formed_size m Hwf)|]. split.
    + intros t' m' HSi. destruct (Hstep t' m' HSi) as (_ & c & Hc & ->).
      exists (Detector.Layout.screenOrientation c), (Detector.Layout.height c).
      split; [exact (gated_orientation tr (t', c) Hc)|]. split; [reflexivity|].
      unfold Ramda.assoc. rewrite dom_insert. apply union_subseteq_r.
    + intros Hp Hl.
      assert (HNone : Detector.layoutHeights tr !! S i = None).
      { destruct (Detector.layoutHeights tr !! S i) as [[t' m']|] eqn:HSi; [|reflexivity].
        destruct (Hstep t' m' eq_refl) as [Hfalse _].
        rewrite (proj2 (both_recorded m) (conj Hp Hl)) in Hfalse. discriminate. }
      split; [exact HNone|]. intros t' Ht.
      exact (latest_of_last _ _ _ _ (last_by_lookup _ _ _ Hi HNone) Ht).
Qed.

(** ** Timers: [debounce] and [switchLatest] *)

Lemma in_debounce {A} (d : Most.Time) (s : Most.Stream A) (u : Most.Time) (x : A) :
  In (u, x) (Most.debounce d s) <->
  exists before after : Most.Stream A,
    s = before ++ (u - d, x) :: after /\ Most.firesBefore u after = true.
Proof.
  induction s as [|e rest IH].
  - simpl. split; [tauto|]. intros (before & after & E & _).
    destruct before; discriminate.
  - simpl. split.
    + intros H.
      assert (Hcases : (u, x) = (e.1 + d, e.2) /\ Most.firesBefore (e.1 + d) rest = true
                       \/ In (u, x) (Most.debounce d rest)).
      { destruct (Most.firesBefore (e.1 + d) rest); [|auto].
        simpl in H. destruct H as [E | H]; [left | right]; auto. }
      destruct Hcases as [[E Hf] | Hin].
      * injection E as -> ->. exists [], rest. split; [|exact Hf].
        simpl. f_equal. destruct e; simpl; f_equal; lia.
      * apply IH in Hin as (before & after & -> & Hf).
        exists (e :: before), after. auto.
    + intros (before & after & E & Hf). destruct before as [|b before]; simpl in E.
      * injection E as -> ->. simpl. replace (u - d + d) with u by lia.
        rewrite Hf. left. reflexivity.
      * injection E as -> ->.
        assert (Hin : In (u, x) (Most.debounce d (before ++ (u - d, x) :: after)))
          by (apply IH; eauto).
        match goal with |- In _ (if ?c then _ else _) => destruct c end;
          [right|]; exact Hin.
Qed.

Lemma firesBefore_map {A B} (h : Most.Time * A -> B) (t : Most.Time) (s : Most.Stream A) :
  Most.firesBefore t (List.map (fun e => (e.1, h e)) s) = Most.firesBefore t s.
Proof. destruct s; reflexivity. Qed.

(** [debounce] keeps the values and moves the instants. *)
Lemma debounce_map {A B} (k : Most.Time -> A -> B) (d : Most.Time) (s : Most.Stream A) :
  Most.debounce d (List.map (fun e => (e.1, k e.1 e.2)) s)
  = List.map (fun e => (e.1, k (e.1 - d) e.2)) (Most.debounce d s).
Proof.
  induction s as [|e rest IH]; [reflexivity|]. simpl.
  rewrite (firesBefore_map (fun e => k e.1 e.2)).
  destruct (Most.firesBefore (e.1 + d) rest); simpl; rewrite IH; [|reflexivity].
  replace (e.1 + d - d) with e.1 by lia. reflexivity.
Qed.

Lemma latest_with_initial {A} (v0 : A) (rest : Most.Stream A) (t : Most.Time) :
  0 <= t -> is_Some (Most.latest ((0, v0) :: rest) t).
Proof.
  intros Ht. unfold Most.latest. simpl. rewrite (proj2 (Z.leb_le 0 t) Ht).
  match goal with |- is_Some (snd <$> last ?l) => destruct (last l) as [x|] eqn:E end;
    [simpl; eauto|].
  apply last_None in E. discriminate.
Qed.

(** A [snapshot] of values that start at [subscribe] drops no event. *)
Lemma snapshot_with_initial {A B C} (f : Most.Time -> A -> B -> C) (v0 : A)
    (rest : Most.Stream A) (sampler : Most.Stream B) :
  (forall e, In e sampler -> 0 <= e.1) ->
  Most.snapshot f ((0, v0) :: rest) sampler
  = List.map
      (fun e => (e.1, f e.1 (default v0 (Most.latest ((0, v0) :: rest) e.1)) e.2))
      sampler.
Proof.
  unfold Most.snapshot. induction sampler as [|e sampler IH]; intros Hpos; [reflexivity|].
  simpl. destruct (latest_with_initial v0 rest e.1) as [v Hv];
    [apply Hpos; left; reflexivity|].
  rewrite Hv. simpl. f_equal. apply IH. intros e' He'. apply Hpos. right. exact He'.
Qed.

Lemma isUnfocused_initial (tr : Detector.Trace) :
  Detector.isUnfocused tr
  = (0, negb (Detector.isAnyElementActive (Detector.env tr 0)))
      :: Most.skipRepeatsFrom
           (Some (negb (Detector.isAnyElementActive (Detector.env tr 0))))
           (Detector.focusSwitched tr).
Proof. reflexivity. Qed.

(** ** Baseline candidates from orientation changes *)

Lemma unfocusedAt_latest (tr : Detector.Trace) (t : Most.Time) :
  0 <= t -> Most.latest (Detector.isUnfocused tr) t = Some (unfocusedAt tr t).
Proof.
  intros Ht. unfold unfocusedAt. rewrite isUnfocused_initial.
  destruct (latest_with_initial
              (negb (Detector.isAnyElementActive (Detector.env tr 0)))
              (Most.skipRepeatsFrom
                 (Some (negb (Detector.isAnyElementActive (Detector.env tr 0))))
                 (Detector.focusSwitched tr)) t Ht) as [v Hv].
  rewrite Hv. reflexivity.
Qed.

Lemma layoutHeightOnOSKFreeOrientationChange_eq (tr : Detector.Trace) :
  (forall e, In e (Detector.orientationchange tr) -> 0 <= e.1) ->
  Detector.layoutHeightOnOSKFreeOrientationChange tr
  = Most.map
      (fun u _ =>
         let t := u - Detector.SCREEN_ORIENTATION_TO_WINDOW_RESIZE_DELAY in
         {| Detector.Layout.screenOrientation :=
              Detector.getScreenOrientationType (Detector.env tr u);
            Detector.Layout.height :=
              if unfocusedAt tr t
                 || (Dom.innerHeight (Detector.env tr t)
                       =? Dom.innerHeight (Detector.env tr 0))
              then Dom.innerHeight (Detector.env tr u)
              else Dom.availHeight (Detector.env tr u)
                   - (Dom.availHeight (Detector.env tr 0)
                        - Dom.innerHeight (Detector.env tr 0)) |})
      (Most.debounce Detector.SCREEN_ORIENTATION_TO_WINDOW_RESIZE_DELAY
         (Detector.orientationchange tr)).
Proof.
  intros Hpos. unfold Detector.layoutHeightOnOSKFreeOrientationChange.
  rewrite isUnfocused_initial, (snapshot_with_initial _ _ _ _ Hpos).
  rewrite <- isUnfocused_initial.
  rewrite (debounce_map
             (fun t (_ : unit) =>
                default (negb (Detector.isAnyElementActive (Detector.env tr 0)))
                  (Most.latest (Detector.isUnfocused tr) t)
                || (Dom.innerHeight (Detector.env tr t) =? Detector.initialLayoutHeight tr))).
  unfold Most.map. rewrite List.map_map. apply List.map_ext_in.
  intros [u []] Hin. simpl. f_equal.
  assert (Hu : 0 <= u - Detector.SCREEN_ORIENTATION_TO_WINDOW_RESIZE_DELAY).
  { apply in_debounce in Hin as (before & after & E & _).
    apply (Hpos (u - Detector.SCREEN_ORIENTATION_TO_WINDOW_RESIZE_DELAY, ())).
    rewrite E. apply in_elt. }
  rewrite (unfocusedAt_latest tr _ Hu). reflexivity.
Qed.

(** C4 (as the code has it).  An orientation change that is not followed by
    another one within the settle delay of 700 ms produces, 700 ms after the
    event, a baseline candidate for the orientation of that moment, and
    nothing else produces one.  If at the time of the event itself the device
    was unfocused or the window still had its initial height (that of
    [subscribe]), the candidate is the window height after the delay;
    otherwise it is [screen.availHeight] after the delay minus the toolbar
    estimate, which is [screen.availHeight] minus the window height at
    [subscribe].  A further 1000 ms later the candidate is written into the
    baselines, if the document is not hidden then; the baselines deliver the
    result unless they had both orientations before. *)
Theorem orientation_change_candidate (tr : Detector.Trace) :
  (forall e, In e (Detector.orientationchange tr) -> 0 <= e.1) ->
  let toolbarHeightEstimate :=
    Dom.availHeight (Detector.env tr 0) - Dom.innerHeight (Detector.env tr 0) in
  let candidate (u : Most.Time) : Detector.Layout.t :=
    let t := u - 700 in
    {| Detector.Layout.screenOrientation :=
         Detector.getScreenOrientationType (Detector.env tr u);
       Detector.Layout.height :=
         if unfocusedAt tr t
            || (Dom.innerHeight (Detector.env tr t) =? Dom.innerHeight (Detector.env tr 0))
         then Dom.innerHeight (Detector.env tr u)
         else Dom.availHeight (Detector.env tr u) - toolbarHeightEstimate |} in
  Detector.approximateBrowserToolbarHeight tr = toolbarHeightEstimate /\
  (forall (u : Most.Time) (c : Detector.Layout.t),
      In (u, c) (Detector.layoutHeightOnOSKFreeOrientationChange tr) <->
      c = candidate u /\
      exists before after : Most.Stream unit,
        Detector.orientationchange tr = before ++ (u - 700, ()) :: after /\
        forall e, head after = Some e -> u < e.1) /\
  (forall (u : Most.Time) (c : Detector.Layout.t),
      In (u, c) (Detector.layoutHeightOnOSKFreeOrientationChange tr) ->
      (exists v : string,
          Most.latest (Detector.documentVisibility tr) (u + 1000) = Some v /\
          v <> "hidden") ->
      exists (earlier : Most.Stream (gmap string Z)) (m : gmap string Z)
             (later : Most.Stream (gmap string Z)),
        Detector.layoutHeightsBeforeSkipAfter tr = earlier ++ (u + 1000, m) :: later /\
        m !! Detector.Layout.screenOrientation c = Some (Detector.Layout.height c) /\
        ((forall y, In y earlier ->
            ~ (is_Some (y.2 !! "portrait") /\ is_Some (y.2 !! "landscape"))) ->
         In (u + 1000, m) (Detector.layoutHeights tr))).
Proof.
  intros Hpos toolbarHeightEstimate candidate. split; [reflexivity|]. split.
  - intros u c. rewrite (layoutHeightOnOSKFreeOrientationChange_eq tr Hpos).
    rewrite in_map. split.
    + intros ([] & Hin & ->). split; [reflexivity|].
      apply in_debounce in Hin as (before & after & E & Hf).
      exists before, after. split; [exact E|].
      intros e He. destruct after as [|e' after]; [discriminate|].
      injection He as <-. simpl in Hf. lia.
    + intros (-> & before & after & E & Hf). exists (). split; [|reflexivity].
      apply in_debounce. exists before, after. split; [exact E|].
      destruct after as [|e' after]; [reflexivity|].
      simpl. apply Z.ltb_lt. apply Hf. reflexivity.
  - intros u c Hin Hvis.
    assert (Hg : In (u + 1000, c) (Detector.gatedLayoutHeightCandidates tr)).
    { apply in_gatedLayoutHeightCandidates. split; [|exact Hvis].
      replace (u + 1000 - 1000) with u by lia.
      unfold Detector.layoutHeightCandidates, Most.mergeArray. simpl.
      rewrite !in_merge. right. left. exact Hin. }
    destruct (in_scanFrom_intro
                (fun accHeights c =>
                   Ramda.assoc (Detector.Layout.screenOrientation c)
                     (Detector.Layout.height c) accHeights)
                _ {[ Detector.getScreenOrientationType (Detector.env tr 0)
                       := Dom.innerHeight (Detector.env tr 0) ]} _ _ Hg)
      as [acc' Hs].
    assert (Hscan : In (u + 1000,
                        Ramda.assoc (Detector.Layout.screenOrientation c)
                          (Detector.Layout.height c) acc')
                       (Detector.layoutHeightsBeforeSkipAfter tr)).
    { unfold Detector.layoutHeightsBeforeSkipAfter, Most.scan. apply in_app_iff.
      right. exact Hs. }
    apply in_split in Hscan as (earlier & later & E).
    exists earlier, (Ramda.assoc (Detector.Layout.screenOrientation c)
                       (Detector.Layout.height c) acc'), later.
    split; [exact E|]. split; [apply lookup_insert_eq|].
    intros Hnot. unfold Detector.layoutHeights. rewrite E.
    apply in_skipAfter_intro. intros y Hy.
    destruct (Ramda.isEmpty _) eqn:Hp; [|reflexivity].
    exfalso. apply (Hnot y Hy). apply both_recorded. exact Hp.
Qed.

(** [orientation_change_candidate] on the rotation without keyboard: the
    window had its initial height when the event arrived, so the candidate is
    the window height 700 ms later. *)
Lemma orientation_change_candidate_witness :
  In (5700, {| Detector.Layout.screenOrientation := "landscape";
               Detector.Layout.height := 320 |})
     (Detector.layoutHeightOnOSKFreeOrientationChange Scenario.rotatesWhileFocused).
Proof.
  assert (Hpos : forall e, In e (Detector.orientationchange Scenario.rotatesWhileFocused)
                   -> 0 <= e.1).
  { intros e [<- | []]. simpl. lia. }
  apply (proj1 (proj2 (orientation_change_candidate Scenario.rotatesWhileFocused Hpos))).
  split; [vm_compute; reflexivity|].
  exists [], []. split; [reflexivity|]. intros e He. discriminate.
Defined.

(** C4 as stated fails.  In the first run the device is focused all along
    and the window is as high after the rotation as before it (400), so the
    claim makes the new baseline the current window height, 400; the code
    compares the height at the event with the height at [subscribe] (700),
    finds a keyboard, and records 800 - 700 less than [screen.availHeight],
    350.  In the second run the device is focused and the window height
    changes with the rotation (700 to 320), so the claim makes the baseline
    [screen.availHeight] minus the toolbar estimate, 300; the code tests the
    height at the event, before the delay, finds it unchanged since
    [subscribe], and records the current height, 320. *)
Lemma orientation_baseline_counterexample :
  (Detector.layoutHeightOnOSKFreeOrientationChange Scenario.rotatesWithKeyboard
   = [(5700, {| Detector.Layout.screenOrientation := "landscape";
                Detector.Layout.height := 350 |})] /\
   unfocusedAt Scenario.rotatesWithKeyboard 5000 = false /\
   unfocusedAt Scenario.rotatesWithKeyboard 5700 = false /\
   Dom.innerHeight (Detector.env Scenario.rotatesWithKeyboard 5700)
   = Dom.innerHeight (Detector.env Scenario.rotatesWithKeyboard 4999) /\
   Dom.innerHeight (Detector.env Scenario.rotatesWithKeyboard 5700) = 400 /\
   Most.latest (Detector.layoutHeights Scenario.rotatesWithKeyboard) 6700
   = Some (<["landscape" := 350]> {[ "portrait" := 700 ]})) /\
  (Detector.layoutHeightOnOSKFreeOrientationChange Scenario.rotatesWhileFocused
   = [(5700, {| Detector.Layout.screenOrientation := "landscape";
                Detector.Layout.height := 320 |})] /\
   unfocusedAt Scenario.rotatesWhileFocused 5700 = false /\
   Dom.innerHeight (Detector.env Scenario.rotatesWhileFocused 5700)
   <> Dom.innerHeight (Detector.env Scenario.rotatesWhileFocused 4999) /\
   Dom.availHeight (Detector.env Scenario.rotatesWhileFocused 5700)
   - Detector.approximateBrowserToolbarHeight Scenario.rotatesWhileFocused = 300 /\
   Most.latest (Detector.layoutHeights Scenario.rotatesWhileFocused) 6700
   = Some (<["landscape" := 320]> {[ "portrait" := 700 ]})).
Proof.
  split; repeat split; try (vm_compute; reflexivity).
  vm_compute. discriminate.
Qed.

(** ** The focus debounce *)

Lemma focusSwitched_eq (tr : Detector.Trace) :
  Detector.focusSwitched tr = focusDebounce (Detector.focus tr).
Proof.
  unfold Detector.focusSwitched. induction (Detector.focus tr) as [|e later IH];
    [reflexivity|].
  cbn [Most.map List.map Most.switchLatest focusDebounce].
  unfold Most.map in IH. rewrite IH. f_equal. cbn [fst snd].
  case_bool_decide as Hty; case_decide; try contradiction;
    cbn [Most.delay Most.now Most.at_ List.map List.filter fst snd].
  - replace (0 + e.1) with e.1 by lia. rewrite Z.eqb_refl. reflexivity.
  - unfold Detector.INPUT_ELEMENT_FOCUS_JUMP_DELAY.
    replace (700 + e.1 =? e.1) with false by (symmetry; apply Z.eqb_neq; lia).
    replace (700 + e.1) with (e.1 + 700) by lia.
    rewrite (firesBefore_map
               (fun e : Most.Time * Dom.FocusEvent =>
                  if bool_decide (Dom.type e.2 = "focusin")
                  then Most.now false
                  else Most.at_ 700 true)).
    destruct (Most.firesBefore (e.1 + 700) later); reflexivity.
Qed.

Lemma in_focusDebounce (events : Most.Stream Dom.FocusEvent) (u : Most.Time) (b : bool) :
  In (u, b) (focusDebounce events) <->
  exists (before : Most.Stream Dom.FocusEvent) (t : Most.Time) (evt : Dom.FocusEvent)
         (after : Most.Stream Dom.FocusEvent),
    events = before ++ (t, evt) :: after /\
    (Dom.type evt = "focusin" /\ u = t /\ b = false
     \/ Dom.type evt <> "focusin" /\ u = t + 700 /\ b = true /\
        forall e, head after = Some e -> t + 700 < e.1).
Proof.
  induction events as [|e later IH].
  - simpl. split; [tauto|]. intros (before & t & evt & after & E & _).
    destruct before; discriminate.
  - simpl. rewrite in_app_iff, IH. split.
    + intros [H | (before & t & evt & after & -> & H)].
      * exists [], e.1, e.2, later. split; [destruct e; reflexivity|].
        case_decide as Hty.
        -- destruct H as [E | []]. injection E as <- <-. auto.
        -- destruct (Most.firesBefore (e.1 + 700) later) eqn:Hf; [|contradiction].
           destruct H as [E | []]. injection E as <- <-. right.
           repeat split; try assumption; try reflexivity.
           intros e' He'. destruct later as [|e'' later]; [discriminate|].
           injection He' as <-. simpl in Hf. lia.
      * exists (e :: before), t, evt, after. split; [reflexivity | exact H].
    + intros (before & t & evt & after & E & H).
      destruct before as [|b0 before]; simpl in E.
      * injection E as -> ->. left. simpl.
        destruct H as [(Hty & -> & ->) | (Hty & -> & -> & Hf)].
        -- rewrite decide_True by exact Hty. left. reflexivity.
        -- rewrite decide_False by exact Hty.
           assert (Hfb : Most.firesBefore (t + 700) after = true).
           { destruct after as [|e' after]; [reflexivity|]. simpl.
             apply Z.ltb_lt. apply Hf. reflexivity. }
           rewrite Hfb. left. reflexivity.
      * injection E as -> ->. right. exists before, t, evt, after. auto.
Qed.


Example focusJumps_isUnfocused :
  Detector.isUnfocused Scenario.focusJumps = [(0, false)].
Proof. vm_compute. reflexivity. Qed.

Example losesFocusTwice_isUnfocused :
  Detector.isUnfocused Scenario.losesFocusTwice
  = [(0, false); (1700, true); (3000, false); (4700, true)].
Proof. vm_compute. reflexivity. Qed.

(** ** Time order

    In a well-formed run every stream of the pipeline is in time order, so
    that "the latest value" and "the next event" mean what they say. *)

Lemma in_time_order_weaken {A} (s : Most.Stream A) (from from' : Most.Time) :
  from' <= from -> InTimeOrder from s -> InTimeOrder from' s.
Proof. destruct s; simpl; [tauto|]. intros Hle [H1 H2]. split; [time_lia | exact H2]. Qed.

Lemma in_time_order_tail {A} (e : Most.Time * A) (s : Most.Stream A) (from : Most.Time) :
  InTimeOrder from (e :: s) -> InTimeOrder from s.
Proof. simpl. intros [H1 H2]. exact (in_time_order_weaken s e.1 from H1 H2). Qed.

Lemma in_time_order_lower {A} (s : Most.Stream A) :
  forall from e, InTimeOrder from s -> In e s -> from <= e.1.
Proof.
  induction s as [|e0 s IH]; intros from e; simpl; [tauto|].
  intros [H1 H2] [<- | Hin]; [exact H1|].
  pose proof (IH _ _ H2 Hin). time_lia.
Qed.

Lemma in_time_order_split {A} (l1 l2 : Most.Stream A) (x : Most.Time * A) :
  forall from, InTimeOrder from (l1 ++ x :: l2) ->
    (forall e, In e l1 -> e.1 <= x.1) /\ (forall e, In e l2 -> x.1 <= e.1).
Proof.
  induction l1 as [|e1 l1 IH]; intros from H; simpl in H.
  - split; [intros e []|]. intros e He.
    exact (in_time_order_lower l2 x.1 e (proj2 H) He).
  - destruct H as [H1 H2]. destruct (IH _ H2) as [Hb Ha]. split; [|exact Ha].
    intros e [<- | He]; [|exact (Hb e He)].
    apply (in_time_order_lower (l1 ++ x :: l2) e1.1 x H2). apply in_elt.
Qed.

Lemma in_time_order_map {A B} (f : Most.Time -> A -> B) (s : Most.Stream A) :
  forall from, InTimeOrder from s -> InTimeOrder from (Most.map f s).
Proof.
  induction s as [|e s IH]; intros from; simpl; [tauto|].
  intros [H1 H2]. split; [exact H1 | exact (IH _ H2)].
Qed.

Lemma in_time_order_filter {A} (p : Most.Time * A -> bool) (s : Most.Stream A) :
  forall from, InTimeOrder from s -> InTimeOrder from (List.filter p s).
Proof.
  induction s as [|e s IH]; intros from H; simpl; [exact I|].
  destruct (p e).
  - simpl. split; [exact (proj1 H) | exact (IH _ (proj2 H))].
  - exact (IH _ (in_time_order_tail e s from H)).
Qed.

Lemma in_time_order_delay {A} (d : Most.Time) (s : Most.Stream A) :
  forall from, InTimeOrder from s -> InTimeOrder (from + d) (Most.delay d s).
Proof.
  induction s as [|e s IH]; intros from; simpl; [tauto|].
  intros [H1 H2]. split; [time_lia | exact (IH _ H2)].
Qed.

Lemma in_time_order_merge {A} (s1 s2 : Most.Stream A) :
  forall from, InTimeOrder from s1 -> InTimeOrder from s2 ->
               InTimeOrder from (Most.merge s1 s2).
Proof.
  revert s2. induction s1 as [|e1 s1 IH1]; intros s2.
  - destruct s2; simpl; tauto.
  - induction s2 as [|e2 s2 IH2]; intros from H1 H2.
    + exact H1.
    + change (Most.merge (e1 :: s1) (e2 :: s2))
        with (if e1.1 <=? e2.1 then e1 :: Most.merge s1 (e2 :: s2)
              else e2 :: Most.merge (e1 :: s1) s2).
      destruct (e1.1 <=? e2.1) eqn:E.
      * apply Z.leb_le in E. split; [exact (proj1 H1)|].
        apply IH1; [exact (proj2 H1)|]. split; [exact E | exact (proj2 H2)].
      * apply Z.leb_gt in E. split; [exact (proj1 H2)|].
        apply IH2; [|exact (proj2 H2)]. split; [time_lia | exact (proj2 H1)].
Qed.

Lemma in_time_order_debounce {A} (d : Most.Time) (s : Most.Stream A) :
  0 <= d -> forall from, InTimeOrder from s -> InTimeOrder from (Most.debounce d s).
Proof.
  intros Hd. induction s as [|e s IH]; intros from H; simpl; [exact I|].
  destruct H as [H1 H2]. destruct (Most.firesBefore (e.1 + d) s) eqn:Hf.
  - split; [time_lia|]. simpl. destruct s as [|e' s']; [exact I|].
    simpl in Hf. apply Z.ltb_lt in Hf. apply IH.
    split; [time_lia | exact (proj2 H2)].
  - apply IH. exact (in_time_order_weaken s e.1 from H1 H2).
Qed.

Lemma in_time_order_focusDebounce (events : Most.Stream Dom.FocusEvent) :
  forall from, InTimeOrder from events -> InTimeOrder from (focusDebounce events).
Proof.
  induction events as [|e later IH]; intros from H; simpl; [exact I|].
  destruct H as [H1 H2]. case_decide.
  - simpl. split; [exact H1 | exact (IH _ H2)].
  - destruct (Most.firesBefore (e.1 + 700) later) eqn:Hf; simpl.
    + split; [time_lia|]. destruct later as [|e' later']; [exact I|].
      simpl in Hf. apply Z.ltb_lt in Hf. apply IH.
      split; [time_lia | exact (proj2 H2)].
    + apply IH. exact (in_time_order_weaken later e.1 from H1 H2).
Qed.

Lemma in_time_order_skipRepeatsFrom {A} `{EqDecision A} (s : Most.Stream A) :
  forall prev from, InTimeOrder from s -> InTimeOrder from (Most.skipRepeatsFrom prev s).
Proof.
  induction s as [|e s IH]; intros prev from H; simpl; [exact I|].
  case_bool_decide.
  - exact (IH _ _ (in_time_order_tail e s from H)).
  - split; [exact (proj1 H) | exact (IH _ _ (proj2 H))].
Qed.

Lemma in_time_order_snapshot {A B C} (f : Most.Time -> A -> B -> C)
    (values : Most.Stream A) (sampler : Most.Stream B) :
  forall from, InTimeOrder from sampler ->
               InTimeOrder from (Most.snapshot f values sampler).
Proof.
  unfold Most.snapshot. induction sampler as [|e s IH]; intros from H; simpl; [exact I|].
  destruct (Most.latest values e.1) as [v|]; simpl.
  - split; [exact (proj1 H) | exact (IH _ (proj2 H))].
  - exact (IH _ (in_time_order_tail e s from H)).
Qed.

Lemma in_time_order_join {A} (s : Most.Stream (Most.Stream A)) :
  (forall e, In e s -> InTimeOrder 0 e.2) ->
  forall from, InTimeOrder from s -> InTimeOrder from (Most.join s).
Proof.
  unfold Most.join. induction s as [|e s IH]; intros Hinner from H; simpl; [exact I|].
  destruct H as [H1 H2]. apply in_time_order_merge.
  - apply (in_time_order_weaken _ (0 + e.1)); [time_lia|].
    apply in_time_order_delay. apply Hinner. left. reflexivity.
  - apply IH; [intros e' He'; apply Hinner; right; exact He'|].
    exact (in_time_order_weaken s e.1 from H1 H2).
Qed.

Lemma in_time_order_scanFrom {A B} (f : B -> A -> B) (s : Most.Stream A) :
  forall acc from, InTimeOrder from s -> InTimeOrder from (Most.scanFrom f acc s).
Proof.
  induction s as [|e s IH]; intros acc from; simpl; [tauto|].
  intros [H1 H2]. split; [exact H1 | exact (IH _ _ H2)].
Qed.

Lemma in_time_order_skipAfter {A} (p : A -> bool) (s : Most.Stream A) :
  forall from, InTimeOrder from s -> InTimeOrder from (Most.skipAfter p s).
Proof.
  induction s as [|e s IH]; intros from; simpl; [tauto|].
  intros [H1 H2]. destruct (p e.2); simpl; [tauto|].
  split; [exact H1 | exact (IH _ H2)].
Qed.

Lemma in_time_order_until {A B} (endSignal : Most.Stream B) (s : Most.Stream A) :
  forall from, InTimeOrder from s -> InTimeOrder from (Most.until endSignal s).
Proof.
  intros from H. unfold Most.until. destruct endSignal; [exact H|].
  apply in_time_order_filter. exact H.
Qed.

Lemma in_time_order_rejectCapture {A} (valve : Most.Stream bool) (s : Most.Stream A) :
  forall from, InTimeOrder from s -> InTimeOrder from (Detector.rejectCapture valve s).
Proof.
  intros from H. unfold Detector.rejectCapture. apply in_time_order_join.
  - intros [t inner] Hin. apply in_snapshot in Hin as (x & v & _ & _ & ->).
    destruct v; simpl; auto. split; [time_lia | exact I].
  - apply in_time_order_snapshot. exact H.
Qed.

(** In a well-formed run the streams of the pipeline are in time order. *)
Lemma pipeline_in_time_order (tr : Detector.Trace) :
  WellFormed tr ->
  InTimeOrder 0 (Detector.documentVisibility tr) /\
  InTimeOrder 0 (Detector.isUnfocused tr) /\
  InTimeOrder 0 (Detector.layoutHeightCandidates tr) /\
  InTimeOrder 0 (Detector.layoutHeights tr) /\
  InTimeOrder 0 (Detector.layoutHeightOnVerticalResize tr) /\
  InTimeOrder 0 (Detector.oskBeforeSkipRepeats tr) /\
  InTimeOrder 0 (Detector.osk tr).
Proof.
  intros (Hfocus & Hvis & Hori & Hres).
  assert (HU : InTimeOrder 0 (Detector.isUnfocused tr)).
  { unfold Detector.isUnfocused. apply in_time_order_skipRepeatsFrom.
    unfold Detector.isUnfocusedBeforeSkipRepeats. rewrite focusSwitched_eq.
    simpl. split; [time_lia|]. apply in_time_order_focusDebounce. exact Hfocus. }
  assert (HC : InTimeOrder 0 (Detector.layoutHeightCandidates tr)).
  { unfold Detector.layoutHeightCandidates, Most.mergeArray. simpl.
    apply in_time_order_merge; [|apply in_time_order_merge; [|exact I]].
    - apply in_time_order_map. apply in_time_order_filter. exact HU.
    - apply in_time_order_map.
      apply in_time_order_debounce;
        [unfold Detector.SCREEN_ORIENTATION_TO_WINDOW_RESIZE_DELAY; time_lia|].
      apply in_time_order_snapshot. exact Hori. }
  assert (HV : InTimeOrder 0 (Detector.documentVisibility tr)).
  { unfold Detector.documentVisibility. simpl. split; [time_lia|].
    apply in_time_order_map. exact Hvis. }
  assert (HL : InTimeOrder 0 (Detector.layoutHeights tr)).
  { unfold Detector.layoutHeights, Detector.layoutHeightsBeforeSkipAfter.
    apply in_time_order_skipAfter. simpl. split; [time_lia|].
    apply in_time_order_scanFrom. unfold Detector.gatedLayoutHeightCandidates.
    apply in_time_order_rejectCapture.
    apply (in_time_order_weaken _ (0 + 1000)); [time_lia|].
    apply in_time_order_delay. exact HC. }
  assert (HR : InTimeOrder 0 (Detector.layoutHeightOnVerticalResize tr)).
  { unfold Detector.layoutHeightOnVerticalResize. apply in_time_order_filter.
    simpl. split; [time_lia|]. apply in_time_order_scanFrom. apply in_time_order_map.
    apply in_time_order_debounce; [unfold Detector.RESIZE_QUIET_PERIOD; time_lia | exact Hres]. }
  split; [exact HV|]. split; [exact HU|]. split; [exact HC|].
  split; [exact HL|]. split; [exact HR|].
  assert (HO : InTimeOrder 0 (Detector.oskBeforeSkipRepeats tr));
    [|split; [exact HO | unfold Detector.osk; apply in_time_order_skipRepeatsFrom; exact HO]].
  unfold Detector.oskBeforeSkipRepeats. apply in_time_order_until.
  apply in_time_order_merge.
  - unfold Detector.oskFromUnfocus. apply in_time_order_map.
    apply in_time_order_filter. exact HU.
  - unfold Detector.oskFromResize. apply in_time_order_join.
    + intros [t inner] Hin. apply in_snapshot in Hin as (x & m & _ & _ & ->).
      destruct (classify_cases (Detector.env tr t) m x) as [-> | [-> | ->]];
        simpl; auto; split; ((time_lia) || exact I).
    + apply in_time_order_snapshot.
      apply (in_time_order_weaken _ (0 + Detector.LAYOUT_RESIZE_TO_LAYOUT_HEIGHT_FIX_DELAY));
        [unfold Detector.LAYOUT_RESIZE_TO_LAYOUT_HEIGHT_FIX_DELAY,
           Detector.INPUT_ELEMENT_FOCUS_JUMP_DELAY,
           Detector.SCREEN_ORIENTATION_TO_WINDOW_RESIZE_DELAY,
           Detector.RESIZE_QUIET_PERIOD; time_lia|].
      apply in_time_order_delay. exact HR.
Qed.

(** ** Hidden on unfocus *)

(** [skipRepeats] over a concatenation: the second part continues from the
    last value delivered for the first. *)
Lemma skipRepeatsFrom_app {A} `{EqDecision A} (l1 l2 : Most.Stream A) :
  forall prev : option A,
    Most.skipRepeatsFrom prev (l1 ++ l2)
    = Most.skipRepeatsFrom prev l1
        ++ Most.skipRepeatsFrom
             (match last (Most.skipRepeatsFrom prev l1) with
              | Some e => Some e.2
              | None => prev
              end) l2.
Proof.
  induction l1 as [|e l1 IH]; intros prev; [reflexivity|].
  simpl. case_bool_decide as Hp.
  - apply IH.
  - simpl. rewrite IH. f_equal. f_equal.
    destruct (Most.skipRepeatsFrom (Some e.2) l1) as [|e' l'] eqn:E; [reflexivity|].
    rewrite last_cons_cons. destruct (last (e' :: l')) as [x|] eqn:El; [reflexivity|].
    apply last_None in El. discriminate.
Qed.

Lemma skipRepeatsFrom_snoc_state {A} `{EqDecision A} (l : Most.Stream A)
    (prev : option A) (x : Most.Time * A) :
  match last (Most.skipRepeatsFrom prev (l ++ [x])) with
  | Some e => Some e.2
  | None => prev
  end = Some x.2.
Proof.
  rewrite skipRepeatsFrom_app. simpl. case_bool_decide as Hp.
  - rewrite app_nil_r. exact Hp.
  - rewrite last_snoc. reflexivity.
Qed.

Lemma focusDebounce_app (l1 l2 : Most.Stream Dom.FocusEvent) (e : Most.Time * Dom.FocusEvent) :
  exists X : Most.Stream bool,
    focusDebounce (l1 ++ e :: l2) = X ++ focusDebounce (e :: l2).
Proof.
  induction l1 as [|e1 l1 [X IH]].
  - exists []. reflexivity.
  - cbn [app focusDebounce]. rewrite IH. eexists. rewrite app_assoc. reflexivity.
Qed.

(** A [focusout] that follows a [focusin] and is not followed by a focus
    event within 700 ms makes [isUnfocused] true, 700 ms after it. *)
Lemma focusout_after_focusin_is_confirmed (tr : Detector.Trace)
    (before after : Most.Stream Dom.FocusEvent) (t1 t0 : Most.Time)
    (focusin focusout : Dom.FocusEvent) :
  Detector.focus tr = before ++ (t1, focusin) :: (t0, focusout) :: after ->
  Dom.type focusin = "focusin" ->
  Dom.type focusout <> "focusin" ->
  (forall e, head after = Some e -> t0 + 700 < e.1) ->
  In (t0 + 700, true) (Detector.isUnfocused tr).
Proof.
  intros Hfocus Hin Hout Hquiet.
  unfold Detector.isUnfocused, Detector.isUnfocusedBeforeSkipRepeats.
  rewrite focusSwitched_eq, Hfocus.
  destruct (focusDebounce_app before ((t0, focusout) :: after) (t1, focusin)) as [X ->].
  cbn [focusDebounce fst snd].
  rewrite (decide_True (P := Dom.type focusin = "focusin")) by exact Hin.
  rewrite (decide_False (P := Dom.type focusout = "focusin")) by exact Hout.
  assert (Hf : Most.firesBefore (t0 + 700) after = true).
  { destruct after as [|e after]; [reflexivity|]. simpl. apply Z.ltb_lt.
    apply Hquiet. reflexivity. }
  rewrite Hf. unfold Most.skipRepeats, Most.startWith, Most.now, Most.at_.
  set (initial := (0, negb (Detector.isAnyElementActive (Detector.env tr 0)))).
  match goal with
  | |- In _ (Most.skipRepeatsFrom None ?l) =>
      replace l with (((initial :: X) ++ [(t1, false)])
                        ++ (t0 + 700, true) :: focusDebounce after)
        by (simpl; rewrite <- app_assoc; reflexivity)
  end.
  rewrite skipRepeatsFrom_app, skipRepeatsFrom_snoc_state.
  apply in_app_iff. right. simpl. left. reflexivity.
Qed.

(** C6 (as the code has it).  When [isUnfocused] becomes true at [t], before
    the subscription ends, ['hidden'] reaches the final duplicate filter at
    [t]: the callback is called with ['hidden'] at [t] unless its last call
    already was ['hidden'], in which case there is no call; either way the
    filter continues from ['hidden'], so the consumer's state after the
    confirmation is ['hidden'].  In a well-formed run what the filter saw
    before is not later than [t], and what it sees afterwards not earlier. *)
Theorem unfocus_forces_hidden (tr : Detector.Trace) (t : Most.Time) :
  In (t, true) (Detector.isUnfocused tr) ->
  (forall e, head (Detector.userUnsubscription tr) = Some e -> t < e.1) ->
  exists before after : Most.Stream string,
    Detector.oskBeforeSkipRepeats tr = before ++ (t, "hidden") :: after /\
    Detector.osk tr
    = Most.skipRepeats before
        ++ (if decide (snd <$> last (Most.skipRepeats before) = Some "hidden")
            then [] else [(t, "hidden")])
        ++ Most.skipRepeatsFrom (Some "hidden") after /\
    (WellFormed tr ->
     (forall e, In e before -> e.1 <= t) /\ (forall e, In e after -> t <= e.1)).
Proof.
  intros Hin Hend.
  assert (Hm : In (t, "hidden") (Detector.oskBeforeSkipRepeats tr)).
  { unfold Detector.oskBeforeSkipRepeats. apply in_until. split; [|exact Hend].
    apply in_merge. left. unfold Detector.oskFromUnfocus. apply in_map.
    exists true. split; [|reflexivity]. apply in_filter. split; [exact Hin | reflexivity]. }
  apply in_split in Hm as (before & after & E). exists before, after.
  split; [exact E|]. split.
  - unfold Detector.osk. rewrite E. unfold Most.skipRepeats.
    rewrite skipRepeatsFrom_app. f_equal.
    destruct (last (Most.skipRepeatsFrom None before)) as [[u x]|]; simpl.
    + case_bool_decide as Hx.
      * injection Hx as ->. rewrite decide_True by reflexivity. reflexivity.
      * rewrite decide_False by exact Hx. reflexivity.
    + reflexivity.
  - intros Hwf.
    destruct (pipeline_in_time_order tr Hwf) as (_ & _ & _ & _ & _ & HO & _).
    rewrite E in HO. exact (in_time_order_split before after (t, "hidden") 0 HO).
Qed.

Example losesFocusTwice_well_formed : WellFormed Scenario.losesFocusTwice.
Proof. unfold WellFormed. vm_compute. intuition discriminate. Qed.

(** [unfocus_forces_hidden] on the first confirmation of the run in which
    focus is lost twice; the run has a second confirmation at 4700. *)
Lemma unfocus_forces_hidden_witness :
  (exists before after : Most.Stream string,
      Detector.oskBeforeSkipRepeats Scenario.losesFocusTwice
      = before ++ (1700, "hidden") :: after /\
      Detector.osk Scenario.losesFocusTwice
      = Most.skipRepeats before
          ++ (if decide (snd <$> last (Most.skipRepeats before) = Some "hidden")
              then [] else [(1700, "hidden")])
          ++ Most.skipRepeatsFrom (Some "hidden") after /\
      (forall e, In e before -> e.1 <= 1700) /\
      (forall e, In e after -> 1700 <= e.1)) /\
  In (4700, true) (Detector.isUnfocused Scenario.losesFocusTwice).
Proof.
  assert (H1 : In (1700, true) (Detector.isUnfocused Scenario.losesFocusTwice))
    by (vm_compute; auto).
  split.
  - destruct (unfocus_forces_hidden Scenario.losesFocusTwice 1700 H1)
      as (before & after & E1 & E2 & Ht).
    + intros e He. discriminate.
    + exists before, after. split; [exact E1|]. split; [exact E2|].
      exact (Ht losesFocusTwice_well_formed).
  - vm_compute. auto 6.
Defined.

(** C6 as stated fails.  Focus is lost, regained and lost again; the second
    loss is confirmed at 4700 ms with no [focusin] in between.  The last call
    was ['hidden'] already, so the confirmation leads to no call, and the
    next call of the callback, at 6900 ms, is ['visible']. *)
Lemma focus_forced_hidden_counterexample :
  Detector.focus Scenario.losesFocusTwice
  = [(1000, Scenario.focusoutEvent); (3000, Scenario.focusinEvent);
     (4000, Scenario.focusoutEvent)] /\
  In (4700, true) (Detector.isUnfocused Scenario.losesFocusTwice) /\
  Detector.osk Scenario.losesFocusTwice = [(1700, "hidden"); (6900, "visible")].
Proof.
  split; [reflexivity|]. split; [vm_compute; auto 6 | vm_compute; reflexivity].
Qed.

(** ** Baselines and the visibility gate *)

(** C5 (as the code has it).  The gate stands between the baseline
    candidates and the baselines, 1000 ms after each candidate: a candidate
    passes exactly when the latest value of [documentVisibility] at that
    moment is not ['hidden'].  Every update of the baselines comes from a
    candidate that passed, and records that candidate's height for its
    orientation; if the document is hidden whenever a candidate reaches the
    gate, the baselines keep their initial value.  (The resize classifier
    has no such gate.) *)
Theorem visibility_gate (tr : Detector.Trace) :
  (forall (t : Most.Time) (c : Detector.Layout.t),
      In (t, c) (Detector.gatedLayoutHeightCandidates tr) <->
      In (t - 1000, c) (Detector.layoutHeightCandidates tr) /\
      exists v : string,
        Most.latest (Detector.documentVisibility tr) t = Some v /\ v <> "hidden") /\
  (forall (i : nat) (t : Most.Time) (m : gmap string Z),
      Detector.layoutHeights tr !! S i = Some (t, m) ->
      exists c : Detector.Layout.t,
        In (t - 1000, c) (Detector.layoutHeightCandidates tr) /\
        (exists v : string,
            Most.latest (Detector.documentVisibility tr) t = Some v /\ v <> "hidden") /\
        m !! Detector.Layout.screenOrientation c = Some (Detector.Layout.height c)) /\
  ((forall (t : Most.Time) (c : Detector.Layout.t),
       In (t, c) (Detector.layoutHeightCandidates tr) ->
       Most.latest (Detector.documentVisibility tr) (t + 1000) = Some "hidden") ->
   Detector.layoutHeights tr
   = [(0, {[ Detector.getScreenOrientationType (Detector.env tr 0)
               := Dom.innerHeight (Detector.env tr 0) ]})]).
Proof.
  split; [|split].
  - intros t c. apply in_gatedLayoutHeightCandidates.
  - intros i t m HSi.
    destruct (Detector.layoutHeights tr !! i) as [[t0 m0]|] eqn:Hi.
    + unfold Detector.layoutHeights, Detector.layoutHeightsBeforeSkipAfter, Most.scan,
        Most.now, Most.at_ in Hi, HSi.
      simpl in Hi, HSi.
      destruct (skipAfter_scanFrom_step _ _ _ 0 _ i t0 t m0 m Hi HSi)
        as (_ & c & Hc & ->).
      apply in_gatedLayoutHeightCandidates in Hc as [Hc Hv].
      exists c. split; [exact Hc|]. split; [exact Hv|].
      unfold Ramda.assoc. apply lookup_insert_eq.
    + exfalso. apply lookup_ge_None in Hi. apply lookup_lt_Some in HSi. lia.
  - intros Hhidden.
    assert (Hnil : Detector.gatedLayoutHeightCandidates tr = []).
    { destruct (Detector.gatedLayoutHeightCandidates tr) as [|[t c] l] eqn:E;
        [reflexivity|]. exfalso.
      assert (Hin : In (t, c) (Detector.gatedLayoutHeightCandidates tr))
        by (rewrite E; left; reflexivity).
      apply in_gatedLayoutHeightCandidates in Hin as (Hc & v & Hv & Hne).
      apply Hhidden in Hc. replace (t - 1000 + 1000) with t in Hc by lia.
      congruence. }
    unfold Detector.layoutHeights, Detector.layoutHeightsBeforeSkipAfter. rewrite Hnil.
    unfold Most.scan, Most.now, Most.at_. simpl.
    destruct (Ramda.isEmpty _); reflexivity.
Qed.

(** [visibility_gate] on the rotation in the background: the candidate of
    5700 ms reaches the gate at 6700 ms, when the document is visible again,
    and is recorded. *)
Lemma visibility_gate_witness :
  exists c : Detector.Layout.t,
    In (6700 - 1000, c) (Detector.layoutHeightCandidates Scenario.rotatesInBackground) /\
    (exists v : string,
        Most.latest (Detector.documentVisibility Scenario.rotatesInBackground) 6700
        = Some v /\ v <> "hidden") /\
    (<["landscape" := 320]> ({[ "portrait" := 700 ]} : gmap string Z))
      !! Detector.Layout.screenOrientation c = Some (Detector.Layout.height c).
Proof.
  apply (proj1 (proj2 (visibility_gate Scenario.rotatesInBackground)) 0%nat 6700).
  vm_compute. reflexivity.
Defined.

(** C5 as stated fails.  In the first run the document is hidden all the
    time, and the resize at 1000 ms is still classified: the callback is
    called with ['visible'] at 1900 ms.  In the second run the orientation
    changes at 5000 ms while the document is hidden; the document is visible
    again when the candidate reaches the gate, and the baseline for
    ['landscape'] is recorded at 6700 ms. *)
Lemma visibility_gate_counterexample :
  (Detector.documentVisibility Scenario.backgrounded = [(0, "hidden")] /\
   Dom.visibilityState (Detector.env Scenario.backgrounded 1000) = "hidden" /\
   Dom.visibilityState (Detector.env Scenario.backgrounded 1900) = "hidden" /\
   Detector.osk Scenario.backgrounded = [(1900, "visible")]) /\
  (Dom.visibilityState (Detector.env Scenario.rotatesInBackground 5000) = "hidden" /\
   Most.latest (Detector.documentVisibility Scenario.rotatesInBackground) 5000
   = Some "hidden" /\
   Detector.layoutHeights Scenario.rotatesInBackground
   = [(0, {[ "portrait" := 700 ]});
      (6700, <["landscape" := 320]> {[ "portrait" := 700 ]})]).
Proof.
  split; repeat split; vm_compute; reflexivity.
Qed.

(** [layoutHeights_grow_and_freeze] on the rotation with keyboard: the second
    value records both orientations, and it stays the latest one. *)
Lemma layoutHeights_grow_and_freeze_witness :
  Detector.layoutHeights Scenario.rotatesWithKeyboard !! 2%nat = None /\
  Most.latest (Detector.layoutHeights Scenario.rotatesWithKeyboard) 100000
  = Some (<["landscape" := 350]> {[ "portrait" := 700 ]}).
Proof.
  assert (H1 : Detector.layoutHeights Scenario.rotatesWithKeyboard !! 1%nat
               = Some (6700, <["landscape" := 350]> {[ "portrait" := 700 ]}))
    by (vm_compute; reflexivity).
  destruct (proj2 (layoutHeights_grow_and_freeze Scenario.rotatesWithKeyboard) _ _ _ H1)
    as (_ & _ & _ & Hfreeze).
  destruct Hfreeze as [Hnone Hlatest].
  - exists 700. vm_compute. reflexivity.
  - exists 350. vm_compute. reflexivity.
  - split; [exact Hnone | apply Hlatest; lia].
Defined.

(** An update may replace a recorded height: here the baseline for
    ['portrait'] goes from 700 to 650. *)
Example recorded_height_is_replaced :
  Detector.layoutHeights Scenario.toolbarShowsThenUnfocus
  = [(0, {[ "portrait" := 700 ]}); (3700, {[ "portrait" := 650 ]})].
Proof. vm_compute. reflexivity. Qed.

(** C3 as stated fails at its start: the baselines do not start empty.  At
    [subscribe] they already hold the window height for the current
    orientation. *)
Lemma layoutHeights_seed_counterexample :
  head (Detector.layoutHeights Scenario.keyboardShowsAndHides)
  = Some (0, {[ "portrait" := 700 ]}) /\
  ({[ "portrait" := 700 ]} : gmap string Z) <> ∅ /\
  size ({[ "portrait" := 700 ]} : gmap string Z) = 1%nat.
Proof.
  split; [vm_compute; reflexivity|]. split; [apply map_non_empty_singleton|].
  apply map_size_singleton.
Qed.

(** * Further properties

    What the three files do besides: the platform test, the whole of the iOS
    subscription, the emitter's events, and the heuristic detector between
    its DOM events and the calls it makes. *)

(** ** Platform detection *)

Lemma append_cons (a : Ascii.ascii) (p post : string) :
  (String a p ++ post)%string = String a (p ++ post)%string.
Proof. reflexivity. Qed.

Lemma prefix_occurs (p s : string) :
  String.prefix p s = true <-> exists post : string, s = (p ++ post)%string.
Proof.
  revert s. induction p as [|a p IH]; intros s.
  - split; [intros _; exists s; reflexivity | intros _; destruct s; reflexivity].
  - destruct s as [|b s]; [split; [discriminate | intros [post E]; discriminate]|].
    simpl. destruct (Ascii.ascii_dec a b) as [<- | Hne].
    + rewrite IH. split; intros [post E]; exists post; rewrite append_cons in *; congruence.
    + split; [discriminate|]. intros [post E]. rewrite append_cons in E. congruence.
Qed.

Lemma includes_occurs (sub s : string) :
  Dom.includes sub s = true <-> Occurs sub s.
Proof.
  unfold Occurs. induction s as [|b s IH].
  - change (Dom.includes sub "") with (String.prefix sub "" || false).
    rewrite orb_false_r, prefix_occurs. split.
    + intros [post E]. exists "", post. exact E.
    + intros (pre & post & E). destruct pre; [exists post; exact E | discriminate].
  - change (Dom.includes sub (String b s))
      with (String.prefix sub (String b s) || Dom.includes sub s).
    rewrite orb_true_iff, IH, prefix_occurs. split.
    + intros [[post E] | (pre & post & E)].
      * exists "", post. exact E.
      * exists (String b pre), post. rewrite append_cons. congruence.
    + intros (pre & post & E). destruct pre as [|c pre].
      * left. exists post. exact E.
      * right. exists pre, post. rewrite append_cons in E. congruence.
Qed.

(** X1.  The device counts as iOS exactly when it has touch events and its
    user agent contains [Macintosh], or [iPhone] and [Mobile].
    [isSupported()] is true exactly when the device has touch events and, if
    it counts as iOS, a visual viewport: without touch events nothing is
    supported, whatever the user agent says. *)
Theorem isSupported_needs_touch (w : Dom.Platform) :
  (Detector.isIOS w = true <->
     Dom.ontouchend w = true /\
     (Occurs "Macintosh" (Dom.userAgent w) \/
      Occurs "iPhone" (Dom.userAgent w) /\ Occurs "Mobile" (Dom.userAgent w))) /\
  (Detector.isSupported w = true <->
     Dom.ontouchend w = true /\
     (Detector.isIOS w = true -> Dom.visualViewport w = true)).
Proof.
  rewrite <- !includes_occurs.
  unfold Detector.isSupported, Detector.isIOS, Detector.isIPad, Detector.isIPhone,
    Detector.isTouchable, Ios.isSupported, Ios.isVisualViewportSupported.
  destruct (Dom.ontouchend w), (Dom.includes "Macintosh" _), (Dom.includes "iPhone" _),
    (Dom.includes "Mobile" _), (Dom.visualViewport w); simpl; intuition congruence.
Qed.

(** ** The iOS detector: calls and unsubscription *)

Lemma ios_run_snoc (st : Ios.State) (events : list (Dom.Platform * Dom.ViewportEvent))
    (x : Dom.Platform * Dom.ViewportEvent) :
  Ios.run st (events ++ [x]) = Ios.dispatch (Ios.run st events) x.
Proof. unfold Ios.run. rewrite fold_left_app. reflexivity. Qed.

Lemma onResizeState_not_initial (w : Dom.Platform) (evt : Dom.ViewportEvent) :
  Ios.onResizeState w evt <> Ios.initialPrevious.
Proof. unfold Ios.onResizeState. destruct (JsNum.gt _ _); discriminate. Qed.

(** While the listener is registered, [previous] is the state of the last
    event, whether or not that event led to a call. *)
Lemma ios_previous_is_last_state (events : list (Dom.Platform * Dom.ViewportEvent))
    (st : Ios.State) :
  Ios.listener st = Some Ios.initialPrevious ->
  Ios.listener (Ios.run st events)
  = Some (default Ios.initialPrevious
            (last ((fun e => Ios.onResizeState e.1 e.2) <$> events))).
Proof.
  intros Hst. induction events as [|x events IH] using rev_ind; [exact Hst|].
  rewrite ios_run_snoc, fmap_app. cbn [fmap list_fmap]. rewrite last_snoc. simpl.
  unfold Ios.dispatch. rewrite IH. simpl.
  unfold Ios.onResize, Ios.skipDuplicatesStep. case_bool_decide as Hd; simpl; [reflexivity|].
  f_equal. symmetry. exact Hd.
Qed.

(** X2.  After a successful [subscribe] on a platform with a visual viewport
    nothing is ever passed to [console.warn], and a [resize] event of the
    viewport leads to exactly one call of [callback], with the event's
    state, when that state differs from the state of the event before it.
    The first event always leads to a call; an event with the state of its
    predecessor leads to none. *)
Theorem ios_calls_on_change (w : Dom.Platform) (st : Ios.State) (u : Ios.Unsubscribe)
    (events : list (Dom.Platform * Dom.ViewportEvent))
    (x : Dom.Platform * Dom.ViewportEvent) :
  Dom.visualViewport w = true ->
  Ios.subscribe w = Ios.returned (st, u) ->
  Ios.warnings (Ios.run st events) = [] /\
  Ios.calls (Ios.run st (events ++ [x]))
  = Ios.calls (Ios.run st events)
      ++ (if decide (last ((fun e => Ios.onResizeState e.1 e.2) <$> events)
                     = Some (Ios.onResizeState x.1 x.2))
          then [] else [Ios.onResizeState x.1 x.2]).
Proof.
  intros Hvv Hs.
  unfold Ios.subscribe, Ios.isSupported, Ios.isVisualViewportSupported,
    Ios.addEventListener in Hs. rewrite Hvv in Hs. simpl in Hs. injection Hs as <- <-.
  split.
  - induction events as [|y events IH] using rev_ind; [reflexivity|].
    rewrite ios_run_snoc. unfold Ios.dispatch.
    destruct (Ios.listener _); simpl; exact IH.
  - rewrite ios_run_snoc. unfold Ios.dispatch.
    rewrite ios_previous_is_last_state by reflexivity. simpl.
    unfold Ios.onResize, Ios.skipDuplicatesStep.
    destruct (last _) as [s|] eqn:El; simpl.
    + case_bool_decide as Hd; case_decide as Hd'; simpl; try reflexivity.
      * exfalso. apply Hd. congruence.
      * exfalso. apply Hd'. f_equal. congruence.
    + rewrite bool_decide_true by apply onResizeState_not_initial.
      reflexivity.
Qed.

(** [ios_calls_on_change] on a window of 800 pixels: the viewport heights
    800, 790 and 600 give one call for the first and one for the third. *)
Lemma ios_calls_on_change_witness :
  let w := Scenario.iphone 800 in
  let st := {| Ios.warnings := []; Ios.listener := Some Ios.initialPrevious;
               Ios.calls := [] |} in
  Ios.calls (Ios.run st [(w, {| Dom.targetHeight := 800 |});
                         (w, {| Dom.targetHeight := 790 |})]) = ["hidden"] /\
  Ios.calls (Ios.run st [(w, {| Dom.targetHeight := 800 |});
                         (w, {| Dom.targetHeight := 790 |});
                         (w, {| Dom.targetHeight := 600 |})]) = ["hidden"; "visible"].
Proof.
  intros w st. split.
  - refine (eq_trans (proj2 (ios_calls_on_change w st Ios.removeResizeListener
                               [(w, {| Dom.targetHeight := 800 |})]
                               (w, {| Dom.targetHeight := 790 |}) eq_refl eq_refl)) _).
    vm_compute. reflexivity.
  - refine (eq_trans (proj2 (ios_calls_on_change w st Ios.removeResizeListener
                               [(w, {| Dom.targetHeight := 800 |});
                                (w, {| Dom.targetHeight := 790 |})]
                               (w, {| Dom.targetHeight := 600 |}) eq_refl eq_refl)) _).
    vm_compute. reflexivity.
Defined.

(** X3.  Once the function that [subscribe] returned has been called, no
    listener is registered, no later [resize] event leads to a call of
    [callback], and calling the function again changes nothing.  This holds
    for both functions [subscribe] can return. *)
Theorem ios_unsubscribe_stops_calls (w : Dom.Platform) (st : Ios.State)
    (u : Ios.Unsubscribe) (before after : list (Dom.Platform * Dom.ViewportEvent)) :
  Ios.subscribe w = Ios.returned (st, u) ->
  let unsubscribed := Ios.unsubscribe u (Ios.run st before) in
  Ios.listener unsubscribed = None /\
  Ios.calls (Ios.run unsubscribed after) = Ios.calls (Ios.run st before) /\
  Ios.unsubscribe u unsubscribed = unsubscribed.
Proof.
  intros Hs unsubscribed.
  assert (Hl : Ios.listener unsubscribed = None).
  { unfold Ios.subscribe, Ios.isSupported, Ios.isVisualViewportSupported,
      Ios.addEventListener in Hs.
    destruct (Dom.visualViewport w); simpl in Hs; injection Hs as <- <-.
    - reflexivity.
    - unfold unsubscribed. simpl. rewrite ios_run_without_listener; reflexivity. }
  split; [exact Hl|]. split.
  - rewrite (ios_run_without_listener _ _ Hl). unfold unsubscribed.
    destruct u; reflexivity.
  - destruct u; [reflexivity|]. unfold Ios.unsubscribe. destruct unsubscribed; simpl in *.
    rewrite Hl. reflexivity.
Qed.

(** [ios_unsubscribe_stops_calls]: one call before the listener is removed,
    none for the event that would have given ['visible'] after it. *)
Lemma ios_unsubscribe_stops_calls_witness :
  let w := Scenario.iphone 800 in
  let st := {| Ios.warnings := []; Ios.listener := Some Ios.initialPrevious;
               Ios.calls := [] |} in
  Ios.calls
    (Ios.run
       (Ios.unsubscribe Ios.removeResizeListener
          (Ios.run st [(w, {| Dom.targetHeight := 800 |})]))
       [(w, {| Dom.targetHeight := 600 |})])
  = ["hidden"].
Proof.
  intros w st.
  refine (eq_trans (proj1 (proj2 (ios_unsubscribe_stops_calls w st
                                    Ios.removeResizeListener
                                    [(w, {| Dom.targetHeight := 800 |})]
                                    [(w, {| Dom.targetHeight := 600 |})] eq_refl))) _).
  vm_compute. reflexivity.
Defined.

(** ** The iOS detector: the threshold as a height *)

Lemma ratio_above_tenth (H h : Q) :
  (0 < H)%Q -> ((1 # 10 < (H - h) / H)%Q <-> (h < (9 # 10) * H)%Q).
Proof.
  intros HH.
  assert (Hnz : ~ (H == 0)%Q) by (intros E; rewrite E in HH; exact (Qlt_irrefl 0 HH)).
  rewrite <- (Qmult_lt_r (1 # 10) ((H - h) / H) H HH).
  assert (E : ((H - h) / H * H == H - h)%Q) by (field; exact Hnz).
  rewrite E. split; intros L; lra.
Qed.

(** X4.  For a window that has a height the iOS detector finds the keyboard
    visible exactly when the visual viewport is lower than 90% of the
    window. *)
Theorem ios_visible_below_ninety_percent (w : Dom.Platform) (evt : Dom.ViewportEvent) :
  0 < Dom.innerHeight w ->
  (Ios.onResizeState w evt = "visible" <->
   (Dom.targetHeight evt < (9 # 10) * inject_Z (Dom.innerHeight w))%Q).
Proof.
  intros HH.
  assert (Hq : (0 < inject_Z (Dom.innerHeight w))%Q) by (unfold Qlt; simpl; lia).
  assert (Hnz : ~ (inject_Z (Dom.innerHeight w) == 0)%Q)
    by (intros E; rewrite E in Hq; exact (Qlt_irrefl 0 Hq)).
  rewrite <- (ratio_above_tenth _ _ Hq), <- gt_Fin, <- (div_nonzero _ _ Hnz).
  unfold Ios.onResizeState, Ios.relativeDifferenceBetweenInnerHeightAndViewportHeight,
    JsNum.sub.
  destruct (JsNum.gt _ _); split; intros; try reflexivity; discriminate.
Qed.

(** [ios_visible_below_ninety_percent] at a window of 800 pixels: 719 is
    below the threshold of 720, 720 is not. *)
Lemma ios_visible_below_ninety_percent_witness :
  Ios.onResizeState (Scenario.iphone 800) {| Dom.targetHeight := 719 |} = "visible" /\
  ~ Ios.onResizeState (Scenario.iphone 800) {| Dom.targetHeight := 720 |} = "visible".
Proof.
  assert (H : 0 < Dom.innerHeight (Scenario.iphone 800)) by (simpl; lia).
  split.
  - apply (ios_visible_below_ninety_percent _ _ H). vm_compute. reflexivity.
  - intros Hv. apply (ios_visible_below_ninety_percent _ _ H) in Hv.
    vm_compute in Hv. discriminate.
Defined.

(** X5.  When [window.innerHeight] is 0 the ratio is a division by zero:
    [NaN] for a viewport without height and [-Infinity] for one with a
    height, and neither is above 0.1.  The state is ['hidden'] unless the
    viewport's height is negative. *)
Theorem ios_window_without_height (w : Dom.Platform) (evt : Dom.ViewportEvent) :
  Dom.innerHeight w = 0 ->
  (Ios.onResizeState w evt = "visible" <-> (Dom.targetHeight evt < 0)%Q).
Proof.
  intros HH.
  unfold Ios.onResizeState, Ios.relativeDifferenceBetweenInnerHeightAndViewportHeight,
    JsNum.sub, JsNum.div. rewrite HH.
  change (inject_Z 0) with 0%Q. change (0 ?= 0)%Q with Eq.
  destruct (Qcompare_spec (0 - Dom.targetHeight evt) 0) as [E | L | G]; simpl.
  - split; [discriminate|]. intros L. lra.
  - split; [discriminate|]. intros L'. lra.
  - split; [intros _; lra | reflexivity].
Qed.

(** [ios_window_without_height] for viewports of 0 and of 300 pixels. *)
Lemma ios_window_without_height_witness :
  ~ Ios.onResizeState (Scenario.iphone 0) {| Dom.targetHeight := 0 |} = "visible" /\
  ~ Ios.onResizeState (Scenario.iphone 0) {| Dom.targetHeight := 300 |} = "visible".
Proof.
  split; intros Hv;
    apply (ios_window_without_height (Scenario.iphone 0) _ eq_refl) in Hv;
    vm_compute in Hv; discriminate.
Defined.

(** ** The focus emitter: its flags, its events and what listeners read *)

Lemma emitter_run_snoc (st : Emitter.State) (events : list Dom.FocusEvent)
    (event : Dom.FocusEvent) :
  Emitter.run st (events ++ [event]) = Emitter.dispatch (Emitter.run st events) event.
Proof. unfold Emitter.run. rewrite fold_left_app. reflexivity. Qed.

Lemma emitter_dispatch_unhandled (st : Emitter.State) (event : Dom.FocusEvent) :
  handledByEmitter event = false -> Emitter.dispatch st event = st.
Proof.
  unfold handledByEmitter, Emitter.dispatch, Emitter.onFocusin, Emitter.onFocusout.
  destruct (Emitter.isTextInput event); simpl; [|repeat case_bool_decide; reflexivity].
  repeat case_bool_decide; simpl; intros; try reflexivity; discriminate.
Qed.

(** X6.  The emitter reacts to the [focusin] and [focusout] events of text
    inputs and to nothing else.  After any sequence of events, [visible]
    tells whether the last of these was a [focusin], [hidden] whether it was
    a [focusout], and both are unset as long as there was none; and what has
    been emitted is ['change'] followed by ['show'] or ['hide'] for each of
    them, in order. *)
Theorem emitter_reflects_last_handled_event (events : list Dom.FocusEvent) :
  let handled := List.filter handledByEmitter events in
  let isFocusin (event : Dom.FocusEvent) := bool_decide (Dom.type event = "focusin") in
  let st := Emitter.run Emitter.eventEmitter events in
  Emitter.visible st = isFocusin <$> last handled /\
  Emitter.hidden st = (fun event => negb (isFocusin event)) <$> last handled /\
  Emitter.emitted st
  = flat_map (fun event => ["change"; if isFocusin event then "show" else "hide"]) handled.
Proof.
  intros handled isFocusin st. unfold handled, st. clear handled st.
  induction events as [|event events IH] using rev_ind; [auto|].
  rewrite emitter_run_snoc, List.filter_app. simpl.
  destruct (handledByEmitter event) eqn:Hh.
  - rewrite last_snoc, flat_map_app. simpl.
    destruct IH as (_ & _ & <-).
    unfold handledByEmitter in Hh. apply andb_true_iff in Hh as [Ht Hty].
    unfold Emitter.dispatch, Emitter.onFocusin, Emitter.onFocusout, isFocusin.
    rewrite Ht. case_bool_decide as H1; simpl; [auto|].
    case_bool_decide as H2; simpl; [auto|]. simpl in Hty. discriminate.
  - rewrite app_nil_r, (emitter_dispatch_unhandled _ _ Hh). exact IH.
Qed.

Lemma listenerCalls_app (events later : list Dom.FocusEvent) :
  forall st : Emitter.State,
    Emitter.listenerCalls st (events ++ later)
    = Emitter.listenerCalls st events
        ++ Emitter.listenerCalls (Emitter.run st events) later.
Proof.
  induction events as [|event events IH]; intros st; simpl; [reflexivity|].
  rewrite IH, app_assoc. reflexivity.
Qed.

(** X7.  Both handlers emit before they assign.  The listeners of
    ['change'] and of ['show'] or ['hide'] therefore read the [visible] and
    [hidden] that the events before left behind (unset for the first event
    handled); the values that belong to the event are there only once the
    handler is through. *)
Theorem listeners_see_flags_of_before (before after : list Dom.FocusEvent)
    (event : Dom.FocusEvent) :
  handledByEmitter event = true ->
  let st := Emitter.run Emitter.eventEmitter before in
  let eventName := if bool_decide (Dom.type event = "focusin") then "show" else "hide" in
  Emitter.listenerCalls Emitter.eventEmitter (before ++ event :: after)
  = Emitter.listenerCalls Emitter.eventEmitter before
      ++ [ {| Emitter.eventName := "change";
              Emitter.visibleThen := Emitter.visible st;
              Emitter.hiddenThen := Emitter.hidden st |};
           {| Emitter.eventName := eventName;
              Emitter.visibleThen := Emitter.visible st;
              Emitter.hiddenThen := Emitter.hidden st |} ]
      ++ Emitter.listenerCalls (Emitter.dispatch st event) after /\
  Emitter.visible (Emitter.dispatch st event)
  = Some (bool_decide (Dom.type event = "focusin")) /\
  Emitter.hidden (Emitter.dispatch st event)
  = Some (negb (bool_decide (Dom.type event = "focusin"))).
Proof.
  intros Hh st eventName. rewrite listenerCalls_app. fold st. simpl.
  unfold handledByEmitter in Hh. apply andb_true_iff in Hh as [Ht Hty].
  unfold Emitter.emissions, Emitter.dispatch, Emitter.onFocusin, Emitter.onFocusout,
    Emitter.emit, eventName.
  rewrite Ht. case_bool_decide as H1; simpl; [auto|].
  case_bool_decide as H2; simpl; [auto|]. simpl in Hty. discriminate.
Qed.

(** [listeners_see_flags_of_before] on a [focusin] followed by a [focusout]:
    the listeners of ['hide'] still read [visible = true]. *)
Lemma listeners_see_flags_of_before_witness :
  Emitter.listenerCalls Emitter.eventEmitter [Scenario.focusinEvent; Scenario.focusoutEvent]
  = [ {| Emitter.eventName := "change"; Emitter.visibleThen := None;
         Emitter.hiddenThen := None |};
      {| Emitter.eventName := "show"; Emitter.visibleThen := None;
         Emitter.hiddenThen := None |};
      {| Emitter.eventName := "change"; Emitter.visibleThen := Some true;
         Emitter.hiddenThen := Some false |};
      {| Emitter.eventName := "hide"; Emitter.visibleThen := Some true;
         Emitter.hiddenThen := Some false |} ].
Proof.
  refine (eq_trans (proj1 (listeners_see_flags_of_before [Scenario.focusinEvent] []
                             Scenario.focusoutEvent eq_refl)) _).
  vm_compute. reflexivity.
Defined.

(** ** Where the calls of the heuristic detector come from *)

Lemma in_skipRepeatsFrom {A} `{EqDecision A} (s : Most.Stream A) :
  forall (prev : option A) (x : Most.Time * A),
    In x (Most.skipRepeatsFrom prev s) -> In x s.
Proof.
  induction s as [|e s IH]; intros prev x; simpl; [tauto|].
  case_bool_decide; simpl; [|intros [-> | Hin]]; eauto.
Qed.

Lemma in_scanFrom_elim {A B} (f : B -> A -> B) (s : Most.Stream A) :
  forall (acc : B) (t : Most.Time) (b : B),
    In (t, b) (Most.scanFrom f acc s) -> exists (acc' : B) (a : A), In (t, a) s /\ b = f acc' a.
Proof.
  induction s as [|e s IH]; intros acc t b; simpl; [tauto|].
  intros [E | H].
  - injection E as <- <-. exists acc, e.2. split; [left; destruct e; reflexivity | reflexivity].
  - destruct (IH _ _ _ H) as (acc' & a & Ha & ->). exists acc', a. auto.
Qed.

(** A confirmed unfocus is the initial value or the timer of a focus event. *)
Lemma in_isUnfocused_true (tr : Detector.Trace) (t : Most.Time) :
  In (t, true) (Detector.isUnfocused tr) ->
  t = 0 /\ Detector.isAnyElementActive (Detector.env tr 0) = false \/
  exists evt : Dom.FocusEvent, In (t - 700, evt) (Detector.focus tr).
Proof.
  rewrite isUnfocused_initial. intros [E | H].
  - left. injection E as <- E. split; [reflexivity|].
    destruct (Detector.isAnyElementActive _); [discriminate | reflexivity].
  - right. apply in_skipRepeatsFrom in H. rewrite focusSwitched_eq in H.
    apply in_focusDebounce in H as (before & t0 & evt & after & E & Hc).
    exists evt. rewrite E. destruct Hc as [(_ & _ & ?) | (_ & -> & _)]; [discriminate|].
    replace (t0 + 700 - 700) with t0 by lia. apply in_elt.
Qed.

Lemma in_oskFromUnfocus (tr : Detector.Trace) (t : Most.Time) (v : string) :
  In (t, v) (Detector.oskFromUnfocus tr) <->
  v = "hidden" /\ In (t, true) (Detector.isUnfocused tr).
Proof.
  unfold Detector.oskFromUnfocus. rewrite in_map. split.
  - intros (b & Hb & ->). apply in_filter in Hb as [Hb Ht]. simpl in Ht.
    unfold Ramda.identical in Ht. apply bool_decide_eq_true in Ht. subst b. auto.
  - intros [-> H]. exists true. split; [|reflexivity]. apply in_filter. auto.
Qed.

(** A resize sample: the window as it is 500 ms after a resize event that no
    other followed in that time. *)
Lemma in_layoutHeightOnVerticalResize (tr : Detector.Trace) (t : Most.Time)
    (s : Detector.Sample.t) :
  In (t, s) (Detector.layoutHeightOnVerticalResize tr) ->
  Detector.Sample.width s = Dom.innerWidth (Detector.env tr t) /\
  Detector.Sample.height s = Dom.innerHeight (Detector.env tr t) /\
  Detector.Sample.isJustHeightResize s = true /\
  exists before after : Most.Stream unit,
    Detector.resize tr = before ++ (t - 500, ()) :: after /\
    forall e, head after = Some e -> t < e.1.
Proof.
  unfold Detector.layoutHeightOnVerticalResize. intros H.
  apply in_filter in H as [H Hj]. simpl in Hj.
  unfold Ramda.propEq in Hj. apply bool_decide_eq_true in Hj.
  unfold Most.scan in H. apply in_app_iff in H as [H | H].
  - destruct H as [E | []]. injection E as <- <-. discriminate.
  - apply in_scanFrom_elim in H as (acc & size & Hsize & ->).
    apply in_map in Hsize as ([] & Hd & ->). simpl in *.
    split; [reflexivity|]. split; [reflexivity|]. split; [exact Hj|].
    apply in_debounce in Hd as (before & after & E & Hf).
    exists before, after. split; [exact E|].
    intros e He. destruct after as [|e' after]; [discriminate|].
    injection He as <-. simpl in Hf. lia.
Qed.

Lemma in_osk (tr : Detector.Trace) (t : Most.Time) (v : string) :
  In (t, v) (Detector.osk tr) ->
  v = "hidden" /\ In (t, true) (Detector.isUnfocused tr) \/
  In (t, v) (Detector.oskFromResize tr).
Proof.
  unfold Detector.osk, Most.skipRepeats. intros H.
  apply in_skipRepeatsFrom in H. unfold Detector.oskBeforeSkipRepeats in H.
  apply in_until in H as [H _]. apply in_merge in H as [H | H]; [left | right; exact H].
  apply in_oskFromUnfocus. exact H.
Qed.

Lemma oskFromResize_sample (tr : Detector.Trace) (t : Most.Time) (v : string) :
  In (t, v) (Detector.oskFromResize tr) ->
  exists (s : Detector.Sample.t) (m : gmap string Z),
    In (t - 400, s) (Detector.layoutHeightOnVerticalResize tr) /\
    Most.latest (Detector.layoutHeights tr) t = Some m /\
    Detector.classify (Detector.env tr t) m s = Most.now v.
Proof. intros H. apply oskFromResize_classified in H. exact H. Qed.

(** X8.  The callback is only ever called with ['visible'] or ['hidden'], by
    the stream pipeline and by the iOS detector alike; in particular the
    initial text of [previous] never reaches it. *)
Theorem callback_values :
  (forall (tr : Detector.Trace) (v : string),
      In v (Detector.userCallbackCalls tr) -> v = "visible" \/ v = "hidden") /\
  (forall (w : Dom.Platform) (st : Ios.State) (u : Ios.Unsubscribe)
          (events : list (Dom.Platform * Dom.ViewportEvent)) (v : string),
      Ios.subscribe w = Ios.returned (st, u) ->
      In v (Ios.calls (Ios.run st events)) -> v = "visible" \/ v = "hidden").
Proof.
  split.
  - intros tr v H. unfold Detector.userCallbackCalls, Most.runEffects in H.
    apply list_elem_of_In, list_elem_of_fmap in H as ([t v'] & -> & H). simpl.
    apply list_elem_of_In, in_osk in H as [[-> _] | H]; [auto|].
    apply oskFromResize_sample in H as (s & m & _ & _ & Hc).
    destruct (classify_cases (Detector.env tr t) m s) as [E | [E | E]];
      rewrite E in Hc; [left | right|]; try (injection Hc; congruence). discriminate.
  - intros w st u events v Hs.
    assert (Hst : Ios.calls st = []).
    { unfold Ios.subscribe in Hs.
      destruct (negb _); [|destruct (Ios.addEventListener w)];
        try discriminate; injection Hs as <- _; reflexivity. }
    induction events as [|x events IH] using rev_ind.
    + simpl. rewrite Hst. intros [].
    + rewrite ios_run_snoc. unfold Ios.dispatch.
      destruct (Ios.listener (Ios.run st events)) as [previous|]; [|exact IH].
      simpl. rewrite in_app_iff. intros [H | H]; [exact (IH H)|].
      unfold Ios.onResize, Ios.skipDuplicatesStep in H.
      case_bool_decide; simpl in H; [|destruct H].
      destruct H as [<- | []]. apply onResizeState_cases.
Qed.

(** [callback_values] on the usual session. *)
Lemma callback_values_witness :
  Forall (fun v => v = "visible" \/ v = "hidden")
    (Detector.userCallbackCalls Scenario.typicalSession) /\
  Detector.userCallbackCalls Scenario.typicalSession <> [].
Proof.
  split; [|vm_compute; discriminate].
  apply Forall_forall. intros v Hv. apply list_elem_of_In in Hv.
  exact (proj1 callback_values Scenario.typicalSession v Hv).
Defined.

(** The classifier delivers nothing in the first 900 ms: 500 ms of quiet and
    a delay of 400 ms lie between a resize event and its classification. *)
Lemma oskFromResize_not_before (tr : Detector.Trace) (t : Most.Time) (v : string) :
  (forall e, In e (Detector.resize tr) -> 0 <= e.1) ->
  In (t, v) (Detector.oskFromResize tr) -> 900 <= t.
Proof.
  intros Hpos H. apply oskFromResize_sample in H as (s & m & Hs & _).
  apply in_layoutHeightOnVerticalResize in Hs as (_ & _ & _ & before & after & E & _).
  assert (L : 0 <= (t - 400 - 500, ()).1) by (apply Hpos; rewrite E; apply in_elt).
  simpl in L. lia.
Qed.

Lemma merge_first {A} (x : Most.Time * A) (l : Most.Stream A) :
  InTimeOrder x.1 l -> Most.merge [x] l = x :: l.
Proof.
  destruct l as [|y l]; [reflexivity|]. intros [H _].
  change (Most.merge [x] (y :: l))
    with (if x.1 <=? y.1 then x :: Most.merge [] (y :: l) else y :: Most.merge [x] l).
  rewrite (proj2 (Z.leb_le _ _) H). reflexivity.
Qed.

Lemma merge_nil_l {A} (l : Most.Stream A) : Most.merge [] l = l.
Proof. destruct l; reflexivity. Qed.

Lemma join_cons {A} (x : Most.Time * Most.Stream A) (l : Most.Stream (Most.Stream A)) :
  Most.join (x :: l) = Most.merge (Most.delay x.1 x.2) (Most.join l).
Proof. reflexivity. Qed.

(** X9.  When no element is focused at [subscribe], the first call of the
    callback is ['hidden'], at once (unless the subscription is ended in the
    same instant). *)
Theorem initial_hidden_call (tr : Detector.Trace) :
  Detector.isAnyElementActive (Detector.env tr 0) = false ->
  (forall e, In e (Detector.resize tr) -> 0 <= e.1) ->
  (forall e, head (Detector.userUnsubscription tr) = Some e -> 0 < e.1) ->
  head (Detector.osk tr) = Some (0, "hidden") /\
  head (Detector.userCallbackCalls tr) = Some "hidden".
Proof.
  intros Hact Hpos Hend.
  assert (H : head (Detector.osk tr) = Some (0, "hidden")).
  { unfold Detector.osk, Detector.oskBeforeSkipRepeats.
    assert (Hu : exists rest, Detector.oskFromUnfocus tr = (0, "hidden") :: rest).
    { unfold Detector.oskFromUnfocus. rewrite isUnfocused_initial, Hact. simpl. eauto. }
    destruct Hu as [rest ->].
    assert (Hm : exists rest', Most.merge ((0, "hidden") :: rest) (Detector.oskFromResize tr)
                               = (0, "hidden") :: rest').
    { destruct (Detector.oskFromResize tr) as [|[t v] r] eqn:E; [simpl; eauto|].
      assert (L : 900 <= t)
        by (apply (oskFromResize_not_before tr t v Hpos); rewrite E; left; reflexivity).
      change (Most.merge ((0, "hidden") :: rest) ((t, v) :: r))
        with (if 0 <=? t then (0, "hidden") :: Most.merge rest ((t, v) :: r)
              else (t, v) :: Most.merge ((0, "hidden") :: rest) r).
      rewrite (proj2 (Z.leb_le 0 t)) by lia. eauto. }
    destruct Hm as [rest' ->]. unfold Most.until.
    destruct (Detector.userUnsubscription tr) as [|e es]; [reflexivity|].
    pose proof (Hend e eq_refl) as L. cbn [List.filter fst].
    rewrite (proj2 (Z.ltb_lt 0 e.1) L). reflexivity. }
  split; [exact H|]. unfold Detector.userCallbackCalls, Most.runEffects.
  destruct (Detector.osk tr); [discriminate|]. injection H as ->. reflexivity.
Qed.

(** [initial_hidden_call] on the run in which the keyboard shows and
    hides. *)
Lemma initial_hidden_call_witness :
  head (Detector.userCallbackCalls Scenario.keyboardShowsAndHides) = Some "hidden".
Proof.
  apply (initial_hidden_call Scenario.keyboardShowsAndHides).
  - reflexivity.
  - intros e [<- | [<- | []]]; simpl; lia.
  - intros e He. discriminate.
Defined.

(** X10.  ['visible'] is never reported in the first 900 ms after
    [subscribe]; and when an element is focused at [subscribe], nothing at
    all is reported in the first 700 ms. *)
Theorem no_early_call (tr : Detector.Trace) (t : Most.Time) (v : string) :
  (forall e, In e (Detector.focus tr) -> 0 <= e.1) ->
  (forall e, In e (Detector.resize tr) -> 0 <= e.1) ->
  In (t, v) (Detector.osk tr) ->
  (v = "visible" -> 900 <= t) /\
  (Detector.isAnyElementActive (Detector.env tr 0) = true -> 700 <= t).
Proof.
  intros Hf Hr H. apply in_osk in H as [[-> H] | H].
  - split; [discriminate|]. intros Hact.
    apply in_isUnfocused_true in H as [[_ H] | [evt H]]; [congruence|].
    apply Hf in H. simpl in H. lia.
  - pose proof (oskFromResize_not_before tr t v Hr H). split; intros; lia.
Qed.

(** [no_early_call] on the run in which focus is lost twice: an input is
    focused at [subscribe] and the first call comes at 1700 ms. *)
Lemma no_early_call_witness :
  In (1700, "hidden") (Detector.osk Scenario.losesFocusTwice) /\
  Detector.isAnyElementActive (Detector.env Scenario.losesFocusTwice 0) = true /\
  700 <= 1700.
Proof.
  assert (Hf : forall e, In e (Detector.focus Scenario.losesFocusTwice) -> 0 <= e.1)
    by (intros e [<- | [<- | [<- | []]]]; simpl; lia).
  assert (Hr : forall e, In e (Detector.resize Scenario.losesFocusTwice) -> 0 <= e.1)
    by (intros e [<- | []]; simpl; lia).
  assert (Hin : In (1700, "hidden") (Detector.osk Scenario.losesFocusTwice))
    by (vm_compute; auto).
  split; [exact Hin|]. split; [reflexivity|].
  exact (proj2 (no_early_call Scenario.losesFocusTwice 1700 "hidden" Hf Hr Hin) eq_refl).
Defined.

(** ** Resize samples *)

(** X11.  A resize sample delivered at [t] stems from a resize event at
    [t - 500] that no other resize event followed by [t].  It is
    width-preserving, and its width and height are those the window has at
    [t], when the quiet period is over, not those at the event.  In a run
    whose resize events are in time order no sample comes before 500 ms, and
    no resize event lies in the 500 ms before a sample. *)
Theorem resize_sample_after_quiet_period (tr : Detector.Trace) (t : Most.Time)
    (s : Detector.Sample.t) :
  In (t, s) (Detector.layoutHeightOnVerticalResize tr) ->
  Detector.Sample.width s = Dom.innerWidth (Detector.env tr t) /\
  Detector.Sample.height s = Dom.innerHeight (Detector.env tr t) /\
  Detector.Sample.isJustHeightResize s = true /\
  (exists before after : Most.Stream unit,
      Detector.resize tr = before ++ (t - 500, ()) :: after /\
      forall e, head after = Some e -> t < e.1) /\
  (InTimeOrder 0 (Detector.resize tr) ->
   500 <= t /\ forall e, In e (Detector.resize tr) -> e.1 <= t - 500 \/ t < e.1).
Proof.
  intros H. destruct (in_layoutHeightOnVerticalResize tr t s H)
    as (Hw & Hh & Hj & before & after & E & Hnext).
  split; [exact Hw|]. split; [exact Hh|]. split; [exact Hj|].
  split; [exists before, after; auto|].
  intros Ho. rewrite E in Ho |- *. split.
  - pose proof (in_time_order_lower _ 0 (t - 500, ()) Ho (in_elt _ _ _)) as L.
    simpl in L. lia.
  - destruct (in_time_order_split before after (t - 500, ()) 0 Ho) as [Hb Ha].
    intros e He. apply in_app_iff in He as [He | [<- | He]].
    + left. exact (Hb e He).
    + left. simpl. lia.
    + right. destruct after as [|e' after]; [destruct He|].
      pose proof (Hnext e' eq_refl) as L.
      assert (Ho' : InTimeOrder e'.1 after).
      { clear -Ho. induction before as [|b before IH]; simpl in Ho.
        - exact (proj2 (proj2 Ho)).
        - apply IH. exact (in_time_order_weaken _ _ _ (proj1 Ho) (proj2 Ho)). }
      destruct He as [<- | He]; [exact L|].
      pose proof (in_time_order_lower _ _ e Ho' He). time_lia.
Qed.

(** [resize_sample_after_quiet_period] on the usual session: the sample of
    1800 ms stems from the resize event of 1300 ms. *)
Lemma resize_sample_after_quiet_period_witness :
  exists before after : Most.Stream unit,
    Detector.resize Scenario.typicalSession = before ++ (1800 - 500, ()) :: after /\
    forall e, head after = Some e -> 1800 < e.1.
Proof.
  assert (Hin : In (1800, {| Detector.Sample.width := 400; Detector.Sample.height := 400;
                             Detector.Sample.isJustHeightResize := true;
                             Detector.Sample.dH := -300 |})
                   (Detector.layoutHeightOnVerticalResize Scenario.typicalSession))
    by (vm_compute; auto).
  exact (proj1 (proj2 (proj2 (proj2
           (resize_sample_after_quiet_period Scenario.typicalSession 1800 _ Hin))))).
Defined.

Lemma scanFrom_samples (tr : Detector.Trace) (times : Most.Stream unit) :
  forall (tprev : Most.Time) (acc : Detector.Sample.t),
    Detector.Sample.width acc = Dom.innerWidth (Detector.env tr tprev) ->
    Detector.Sample.height acc = Dom.innerHeight (Detector.env tr tprev) ->
    Most.scanFrom
      (fun prev size =>
         {| Detector.Sample.width := Detector.Size.width size;
            Detector.Sample.height := Detector.Size.height size;
            Detector.Sample.isJustHeightResize :=
              Detector.Sample.width prev =? Detector.Size.width size;
            Detector.Sample.dH := Detector.Size.height size - Detector.Sample.height prev |})
      acc
      (Most.map
         (fun t _ =>
            {| Detector.Size.width := Dom.innerWidth (Detector.env tr t);
               Detector.Size.height := Dom.innerHeight (Detector.env tr t) |})
         times)
    = samplesFrom tr tprev times.*1.
Proof.
  induction times as [|[t []] times IH]; intros tprev acc Hw Hh; [reflexivity|].
  simpl. rewrite Hw, Hh. f_equal. apply IH; reflexivity.
Qed.

(** The resize samples in closed form: [scan] keeps of its past only the
    measurement before. *)
Lemma layoutHeightOnVerticalResize_samples (tr : Detector.Trace) :
  Detector.layoutHeightOnVerticalResize tr
  = Most.filter (fun s => Detector.Sample.isJustHeightResize s)
      (samplesFrom tr 0
         (Most.debounce Detector.RESIZE_QUIET_PERIOD (Detector.resize tr)).*1).
Proof.
  unfold Detector.layoutHeightOnVerticalResize, Most.scan.
  rewrite (scanFrom_samples tr _ 0) by reflexivity.
  unfold Most.filter, Ramda.propEq. simpl.
  apply List.filter_ext. intros [t s]. simpl.
  destruct (Detector.Sample.isJustHeightResize s); reflexivity.
Qed.

Lemma samplesFrom_app (tr : Detector.Trace) (l1 l2 : list Most.Time) :
  forall tp : Most.Time,
    samplesFrom tr tp (l1 ++ l2)
    = samplesFrom tr tp l1 ++ samplesFrom tr (default tp (last l1)) l2.
Proof.
  induction l1 as [|t l1 IH]; intros tp; [reflexivity|].
  simpl. rewrite IH, last_cons. do 2 f_equal. destruct (last l1); reflexivity.
Qed.

(** X12.  The measurements are taken 500 ms after each resize event that
    ends a burst.  Each one is compared with the measurement just before it,
    whether or not that one was delivered as a sample, and the first with
    the window at [subscribe]: a measurement is delivered exactly when the
    window is as wide as it was then, and its [dH] is the window height now
    minus the window height then. *)
Theorem resize_samples_compare_with_previous (tr : Detector.Trace) :
  let times :=
    (Most.debounce Detector.RESIZE_QUIET_PERIOD (Detector.resize tr)).*1 in
  Detector.layoutHeightOnVerticalResize tr
  = Most.filter (fun s => Detector.Sample.isJustHeightResize s) (samplesFrom tr 0 times) /\
  forall (before : list Most.Time) (t : Most.Time) (after : list Most.Time),
    times = before ++ t :: after ->
    let tprev := default 0 (last before) in
    let s :=
      {| Detector.Sample.width := Dom.innerWidth (Detector.env tr t);
         Detector.Sample.height := Dom.innerHeight (Detector.env tr t);
         Detector.Sample.isJustHeightResize := true;
         Detector.Sample.dH :=
           Dom.innerHeight (Detector.env tr t) - Dom.innerHeight (Detector.env tr tprev) |} in
    Dom.innerWidth (Detector.env tr tprev) = Dom.innerWidth (Detector.env tr t) ->
    In (t, s) (Detector.layoutHeightOnVerticalResize tr).
Proof.
  intros times. split; [exact (layoutHeightOnVerticalResize_samples tr)|].
  intros before t after E tprev s Hw.
  rewrite layoutHeightOnVerticalResize_samples. fold times. rewrite E.
  rewrite samplesFrom_app. subst tprev s. simpl.
  apply in_filter. split; [|reflexivity].
  apply in_app_iff. right. left. unfold sampleBetween.
  do 2 f_equal. apply Z.eqb_eq. exact Hw.
Qed.

(** [resize_samples_compare_with_previous] on the usual session: the second
    measurement, at 5800 ms, is compared with the first, of 1800 ms. *)
Lemma resize_samples_compare_with_previous_witness :
  In (5800, {| Detector.Sample.width := 400; Detector.Sample.height := 700;
               Detector.Sample.isJustHeightResize := true;
               Detector.Sample.dH := 700 - 400 |})
     (Detector.layoutHeightOnVerticalResize Scenario.typicalSession).
Proof.
  exact (proj2 (resize_samples_compare_with_previous Scenario.typicalSession)
           [1800] 5800 [] eq_refl eq_refl).
Defined.

Lemma in_samplesFrom (tr : Detector.Trace) (times : list Most.Time) :
  forall (tp t : Most.Time) (s : Detector.Sample.t),
    In (t, s) (samplesFrom tr tp times) ->
    exists tprev : Most.Time,
      (tprev = tp \/ In tprev times) /\ In t times /\ s = sampleBetween tr tprev t.
Proof.
  induction times as [|t0 times IH]; intros tp t s; simpl; [tauto|].
  intros [E | H].
  - injection E as <- <-. exists tp. auto.
  - destruct (IH _ _ _ H) as (tprev & Hp & Ht & ->). exists tprev.
    split; [right; destruct Hp; auto|]. auto.
Qed.

(** The sample of instant [t] compares the window then with the window at an
    earlier measurement: at [subscribe], or 500 ms after a resize event. *)
Lemma sample_compares (tr : Detector.Trace) (t : Most.Time) (s : Detector.Sample.t) :
  In (t, s) (Detector.layoutHeightOnVerticalResize tr) ->
  exists tprev : Most.Time,
    (tprev = 0 \/ In (tprev - 500, ()) (Detector.resize tr)) /\
    In (t - 500, ()) (Detector.resize tr) /\
    s = sampleBetween tr tprev t /\
    Dom.innerWidth (Detector.env tr tprev) = Dom.innerWidth (Detector.env tr t).
Proof.
  intros H.
  assert (Hd : forall u, In u (Most.debounce Detector.RESIZE_QUIET_PERIOD
                                 (Detector.resize tr)).*1 ->
                         In (u - 500, ()) (Detector.resize tr)).
  { intros u Hu. apply list_elem_of_In, list_elem_of_fmap in Hu as ([u' []] & -> & Hu).
    apply list_elem_of_In, in_debounce in Hu as (before & after & E & _).
    rewrite E. apply in_elt. }
  rewrite layoutHeightOnVerticalResize_samples in H.
  apply in_filter in H as [H Hj].
  apply in_samplesFrom in H as (tprev & Hp & Ht & ->).
  exists tprev. split; [destruct Hp; auto|]. split; [auto|]. split; [reflexivity|].
  simpl in Hj. apply Z.eqb_eq in Hj. exact Hj.
Qed.

(** X13.  Every call has a cause.  ['visible'] at [t] means: a resize event
    at [t - 900], and the window at [t - 400] is as wide as, and lower than,
    at an earlier measurement.  ['hidden'] at [t] means: [isUnfocused]
    became true at [t], or the same with a window that is higher than at the
    earlier measurement.  ([screen.availHeight] is taken not to be
    negative.) *)
Theorem calls_follow_height_changes (tr : Detector.Trace) (t : Most.Time) (v : string) :
  0 <= Dom.availHeight (Detector.env tr t) ->
  In (t, v) (Detector.osk tr) ->
  let heightChange (tprev : Most.Time) : Z :=
    Dom.innerHeight (Detector.env tr (t - 400)) - Dom.innerHeight (Detector.env tr tprev) in
  let measured (tprev : Most.Time) : Prop :=
    (tprev = 0 \/ In (tprev - 500, ()) (Detector.resize tr)) /\
    In (t - 900, ()) (Detector.resize tr) /\
    Dom.innerWidth (Detector.env tr tprev) = Dom.innerWidth (Detector.env tr (t - 400)) in
  (v = "visible" -> exists tprev, measured tprev /\ heightChange tprev < 0) /\
  (v = "hidden" ->
     In (t, true) (Detector.isUnfocused tr) \/
     exists tprev, measured tprev /\ 0 < heightChange tprev).
Proof.
  intros Havail H heightChange measured.
  apply in_osk in H as [[-> H] | H]; [split; [discriminate | auto]|].
  apply oskFromResize_sample in H as (s & m & Hs & _ & Hc).
  apply sample_compares in Hs as (tprev & Hp & Ht & -> & Hw).
  replace (t - 400 - 500) with (t - 900) in Ht by lia.
  assert (Hm : measured tprev) by (unfold measured; auto).
  rewrite classify_integers in Hc. simpl in Hc. fold (heightChange tprev) in Hc.
  assert (Hcases : v = "visible" /\ heightChange tprev < 0
                   \/ v = "hidden" /\ 0 < heightChange tprev).
  { repeat case_match; repeat case_decide; try discriminate; injection Hc as <-;
      first [left; split; [reflexivity | lia] | right; split; [reflexivity | lia]]. }
  destruct Hcases as [[-> L] | [-> L]]; split; intros; try discriminate; eauto.
Qed.

(** [calls_follow_height_changes] on the usual session: ['visible'] at
    2200 ms follows the resize event of 1300 ms. *)
Lemma calls_follow_height_changes_witness :
  exists tprev : Most.Time,
    (tprev = 0 \/ In (tprev - 500, ()) (Detector.resize Scenario.typicalSession)) /\
    In (2200 - 900, ()) (Detector.resize Scenario.typicalSession) /\
    Dom.innerHeight (Detector.env Scenario.typicalSession (2200 - 400))
    - Dom.innerHeight (Detector.env Scenario.typicalSession tprev) < 0.
Proof.
  assert (Hin : In (2200, "visible") (Detector.osk Scenario.typicalSession))
    by (vm_compute; auto).
  assert (Ha : 0 <= Dom.availHeight (Detector.env Scenario.typicalSession 2200))
    by (vm_compute; discriminate).
  destruct (proj1 (calls_follow_height_changes Scenario.typicalSession 2200 "visible"
                     Ha Hin) eq_refl) as (tprev & (Hp & Hr & _) & Hd).
  exists tprev. auto.
Defined.

(** ** Unsubscribing *)

Lemma filter_before_nil {A} (u : Most.Time) (l : Most.Stream A) :
  (forall x, In x l -> u <= x.1) -> List.filter (fun x => x.1 <? u) l = [].
Proof.
  unfold Most.Stream, Most.Time in *.
  induction l as [|e l IH]; intros Hl; [reflexivity|]. cbn [List.filter].
  rewrite (proj2 (Z.ltb_ge e.1 u)) by (apply Hl; left; reflexivity).
  apply IH. intros x Hx. apply Hl. right. exact Hx.
Qed.

(** On a stream in time order, cutting at [u] and dropping repetitions can
    be done in either order. *)
Lemma skipRepeatsFrom_before {A} `{EqDecision A} (u : Most.Time) (s : Most.Stream A) :
  forall (from : Most.Time) (prev : option A),
    InTimeOrder from s ->
    Most.skipRepeatsFrom prev (List.filter (fun x => x.1 <? u) s)
    = List.filter (fun x => x.1 <? u) (Most.skipRepeatsFrom prev s).
Proof.
  unfold Most.Stream, Most.Time in *.
  induction s as [|e s IH]; intros from prev Ho; [reflexivity|].
  destruct Ho as [H1 H2].
  destruct (e.1 <? u) eqn:Hlt.
  - cbn [List.filter Most.skipRepeatsFrom]. rewrite Hlt.
    cbn [Most.skipRepeatsFrom]. case_bool_decide.
    + exact (IH _ _ H2).
    + cbn [List.filter]. rewrite Hlt. f_equal. exact (IH _ _ H2).
  - apply Z.ltb_ge in Hlt.
    assert (Hall : forall x, In x (e :: s) -> u <= x.1).
    { intros x [<- | Hx]; [exact Hlt|].
      pose proof (in_time_order_lower _ _ _ H2 Hx). time_lia. }
    rewrite (filter_before_nil u (e :: s) Hall). symmetry.
    apply filter_before_nil. intros x Hx. apply Hall.
    exact (in_skipRepeatsFrom (e :: s) prev x Hx).
Qed.

(** X14.  Unsubscribing only cuts: in a well-formed run the calls made are
    exactly the calls that would have been made without unsubscribing, up to
    the instant of the first call of the function [subscribe] returned.  No
    call is made at or after that instant, and none at all when the function
    is called right away. *)
Theorem unsubscribe_truncates (tr : Detector.Trace) (u : Most.Time) :
  WellFormed tr ->
  head (Detector.userUnsubscription tr) = Some (u, ()) ->
  Detector.osk tr
  = List.filter (fun x => x.1 <? u) (Detector.osk (withoutUnsubscription tr)) /\
  (forall x, In x (Detector.osk tr) -> x.1 < u) /\
  (u <= 0 -> Detector.osk tr = []).
Proof.
  intros Hwf Hu.
  destruct (pipeline_in_time_order _ Hwf) as (_ & _ & _ & _ & _ & _ & Hosk).
  assert (Hwf' : WellFormed (withoutUnsubscription tr)) by exact Hwf.
  destruct (pipeline_in_time_order _ Hwf') as (_ & _ & _ & _ & _ & Ho & _).
  assert (E : Detector.oskBeforeSkipRepeats tr
              = List.filter (fun x => x.1 <? u)
                  (Detector.oskBeforeSkipRepeats (withoutUnsubscription tr))).
  { unfold Detector.oskBeforeSkipRepeats at 1, Most.until.
    destruct (Detector.userUnsubscription tr) as [|e rest]; [discriminate|].
    injection Hu as ->. reflexivity. }
  assert (E' : Detector.osk tr
               = List.filter (fun x => x.1 <? u) (Detector.osk (withoutUnsubscription tr))).
  { unfold Detector.osk, Most.skipRepeats. rewrite E.
    exact (skipRepeatsFrom_before u _ 0 None Ho). }
  assert (Hlt : forall x, In x (Detector.osk tr) -> x.1 < u).
  { intros x Hx. rewrite E' in Hx. apply filter_In in Hx as [_ Hx].
    apply Z.ltb_lt in Hx. exact Hx. }
  split; [exact E'|]. split; [exact Hlt|].
  intros Hu0. destruct (Detector.osk tr) as [|x l]; [reflexivity|]. exfalso.
  pose proof (Hlt x (or_introl eq_refl)) as L.
  pose proof (in_time_order_lower _ _ x Hosk (or_introl eq_refl)) as L'. time_lia.
Qed.

(** [unsubscribe_truncates] on the usual session, unsubscribed at 3000 ms:
    the ['hidden'] of 5700 ms is not delivered. *)
Lemma unsubscribe_truncates_witness :
  Detector.osk Scenario.unsubscribesEarly = [(0, "hidden"); (2200, "visible")] /\
  Detector.osk (withoutUnsubscription Scenario.unsubscribesEarly)
  = [(0, "hidden"); (2200, "visible"); (5700, "hidden")].
Proof.
  assert (Hwf : WellFormed Scenario.unsubscribesEarly)
    by (unfold WellFormed; vm_compute; intuition discriminate).
  split; [|vm_compute; reflexivity].
  refine (eq_trans (proj1 (unsubscribe_truncates Scenario.unsubscribesEarly 3000 Hwf
                             eq_refl)) _).
  vm_compute. reflexivity.
Defined.

(** ** The gate and the baselines *)

(** On a stream in time order [rejectCapture] is a filter: it keeps the
    events at which the valve's latest value is [false], in their order. *)
Lemma rejectCapture_filter {A} (valve : Most.Stream bool) (s : Most.Stream A)
    (from : Most.Time) :
  InTimeOrder from s ->
  Detector.rejectCapture valve s
  = List.filter (fun e => bool_decide (Most.latest valve e.1 = Some false)) s.
Proof.
  revert from. induction s as [|[t x] s IH]; intros from Ho; [reflexivity|].
  destruct Ho as [H1 H2]. set (e := (t, x)) in *.
  assert (Hrest : InTimeOrder e.1 (Detector.rejectCapture valve s))
    by (apply in_time_order_rejectCapture; exact H2).
  cbn [List.filter]. rewrite <- (IH _ H2). clear IH.
  unfold Detector.rejectCapture in *. unfold Most.snapshot in *.
  cbn [omap list_omap].
  destruct (Most.latest valve e.1) as [[|]|] eqn:El; cbn [mbind option_bind].
  - rewrite join_cons. apply merge_nil_l.
  - rewrite join_cons, bool_decide_true by reflexivity.
    cbn [Most.delay List.map Most.now Most.at_ fst snd].
    replace (0 + t) with t by lia. apply (merge_first e). exact Hrest.
  - reflexivity.
Qed.

Lemma latest_In {A} (s : Most.Stream A) (t : Most.Time) (a : A) :
  Most.latest s t = Some a -> exists u : Most.Time, In (u, a) s /\ u <= t.
Proof.
  unfold Most.latest. intros H.
  destruct (last _) as [[u a']|] eqn:El; [|discriminate]. injection H as ->.
  apply last_Some in El as [l El].
  assert (Hin : In (u, a) (l ++ [(u, a)])) by apply in_elt.
  rewrite <- El in Hin.
  apply filter_In in Hin as [Hin Hu]. exists u. split; [exact Hin|].
  apply Z.leb_le in Hu. exact Hu.
Qed.

Lemma documentVisibility_value (tr : Detector.Trace) (t : Most.Time) (v : string) :
  Most.latest (Detector.documentVisibility tr) t = Some v ->
  exists u : Most.Time,
    (u = 0 \/ In (u, ()) (Detector.visibilitychange tr)) /\
    v = Dom.visibilityState (Detector.env tr u).
Proof.
  intros H. apply latest_In in H as (u & Hin & _). exists u.
  unfold Detector.documentVisibility, Most.startWith, Most.now, Most.at_ in Hin.
  simpl in Hin. destruct Hin as [E | Hin].
  - injection E as <- <-. auto.
  - apply in_map in Hin as ([] & Hin & ->). auto.
Qed.

(** X15.  In a well-formed run the visibility gate keeps, of the baseline
    candidates delayed by 1000 ms, those at which the document's latest
    visibility is not ['hidden'], each once and in their order.  When the
    document is hidden neither at [subscribe] nor at any [visibilitychange]
    event, every candidate passes. *)
Theorem gate_keeps_order (tr : Detector.Trace) :
  WellFormed tr ->
  Detector.gatedLayoutHeightCandidates tr
  = List.filter
      (fun e =>
         match Most.latest (Detector.documentVisibility tr) e.1 with
         | Some v => negb (Ramda.equals "hidden" v)
         | None => false
         end)
      (Most.delay 1000 (Detector.layoutHeightCandidates tr)) /\
  (Dom.visibilityState (Detector.env tr 0) <> "hidden" ->
   (forall e, In e (Detector.visibilitychange tr) ->
      Dom.visibilityState (Detector.env tr e.1) <> "hidden") ->
   Detector.gatedLayoutHeightCandidates tr
   = Most.delay 1000 (Detector.layoutHeightCandidates tr)).
Proof.
  intros Hwf.
  destruct (pipeline_in_time_order tr Hwf) as (_ & _ & HC & _).
  assert (HD : InTimeOrder (0 + 1000) (Most.delay 1000 (Detector.layoutHeightCandidates tr)))
    by (apply in_time_order_delay; exact HC).
  assert (E : Detector.gatedLayoutHeightCandidates tr
              = List.filter
                  (fun e =>
                     match Most.latest (Detector.documentVisibility tr) e.1 with
                     | Some v => negb (Ramda.equals "hidden" v)
                     | None => false
                     end)
                  (Most.delay 1000 (Detector.layoutHeightCandidates tr))).
  { unfold Detector.gatedLayoutHeightCandidates.
    rewrite (rejectCapture_filter _ _ _ HD). apply List.filter_ext. intros e.
    rewrite latest_map.
    destruct (Most.latest (Detector.documentVisibility tr) e.1) as [v|]; simpl;
      [|reflexivity].
    destruct (Ramda.equals "hidden" v); reflexivity. }
  split; [exact E|]. intros H0 Hv. rewrite E.
  apply forallb_filter_id. apply forallb_forall. intros e He.
  assert (Ht : 0 <= e.1).
  { pose proof (in_time_order_lower _ _ _ HD He). time_lia. }
  destruct (latest_with_initial (Dom.visibilityState (Detector.env tr 0))
              (Most.map (fun t _ => Dom.visibilityState (Detector.env tr t))
                 (Detector.visibilitychange tr)) e.1 Ht) as [v Hl].
  change ((0, Dom.visibilityState (Detector.env tr 0))
            :: Most.map (fun t _ => Dom.visibilityState (Detector.env tr t))
                 (Detector.visibilitychange tr))
    with (Detector.documentVisibility tr) in Hl.
  rewrite Hl. apply negb_true_iff. unfold Ramda.equals. apply bool_decide_eq_false.
  apply documentVisibility_value in Hl as (u & [-> | Hu] & ->).
  - congruence.
  - intros Eh. apply (Hv (u, ()) Hu). simpl. congruence.
Qed.

(** [gate_keeps_order] on the run in which focus is lost twice: the document
    is visible throughout and both candidates pass. *)
Lemma gate_keeps_order_witness :
  Detector.gatedLayoutHeightCandidates Scenario.losesFocusTwice
  = Most.delay 1000 (Detector.layoutHeightCandidates Scenario.losesFocusTwice) /\
  length (Detector.gatedLayoutHeightCandidates Scenario.losesFocusTwice) = 2%nat.
Proof.
  split; [|vm_compute; reflexivity].
  apply (proj2 (gate_keeps_order Scenario.losesFocusTwice losesFocusTwice_well_formed)).
  - vm_compute. discriminate.
  - intros e [].
Defined.

Lemma layoutHeights_latest (tr : Detector.Trace) (t : Most.Time) :
  0 <= t ->
  exists (u : Most.Time) (m : gmap string Z),
    Most.latest (Detector.layoutHeights tr) t = Some m /\
    In (u, m) (Detector.layoutHeights tr).
Proof.
  intros Ht.
  assert (Hhead : exists seed rest, Detector.layoutHeights tr = (0, seed) :: rest).
  { unfold Detector.layoutHeights, Detector.layoutHeightsBeforeSkipAfter, Most.scan,
      Most.now, Most.at_. simpl. destruct (Ramda.isEmpty _); eauto. }
  destruct Hhead as (seed & rest & Hhead).
  destruct (latest_with_initial seed rest t Ht) as [m Hm]. rewrite <- Hhead in Hm.
  destruct (latest_In _ _ _ Hm) as (u & Hin & _). eauto.
Qed.

(** X16.  From [subscribe] on the baselines always have a latest value, so
    that the classifier never drops a sample for want of one; and that
    value always has an entry for the orientation the screen had at
    [subscribe]. *)
Theorem layoutHeights_always_available (tr : Detector.Trace) (t : Most.Time) :
  0 <= t ->
  exists m : gmap string Z,
    Most.latest (Detector.layoutHeights tr) t = Some m /\
    is_Some (m !! Detector.getScreenOrientationType (Detector.env tr 0)).
Proof.
  intros Ht.
  set (o := Detector.getScreenOrientationType (Detector.env tr 0)).
  set (seed := ({[ o := Dom.innerHeight (Detector.env tr 0) ]} : gmap string Z)).
  assert (Hhead : exists rest, Detector.layoutHeights tr = (0, seed) :: rest).
  { unfold Detector.layoutHeights, Detector.layoutHeightsBeforeSkipAfter, Most.scan,
      Most.now, Most.at_. simpl. fold o seed. destruct (Ramda.isEmpty _); eauto. }
  destruct Hhead as [rest Hhead].
  destruct (latest_with_initial seed rest t Ht) as [m Hm]. rewrite <- Hhead in Hm.
  exists m. split; [exact Hm|].
  apply latest_In in Hm as (u & Hin & _).
  unfold Detector.layoutHeights in Hin. apply in_skipAfter in Hin.
  unfold Detector.layoutHeightsBeforeSkipAfter, Most.scan, Most.now, Most.at_ in Hin.
  simpl in Hin. fold o seed in Hin. destruct Hin as [E | Hin].
  - injection E as <- <-. unfold seed. rewrite lookup_singleton_eq. eauto.
  - change m with (u, m).2.
    refine (scanFrom_invariant (fun m => is_Some (m !! o)) _ _ _ seed _ (u, m) Hin).
    + intros b e [h Hb] _. unfold Ramda.assoc.
      destruct (decide (Detector.Layout.screenOrientation e.2 = o)) as [-> | Hne].
      * rewrite lookup_insert_eq. eauto.
      * rewrite lookup_insert_ne by exact Hne. eauto.
    + unfold seed. rewrite lookup_singleton_eq. eauto.
Qed.

(** [layoutHeights_always_available] on the rotation with keyboard, 10 s
    after [subscribe]. *)
Lemma layoutHeights_always_available_witness :
  exists m : gmap string Z,
    Most.latest (Detector.layoutHeights Scenario.rotatesWithKeyboard) 10000 = Some m /\
    is_Some (m !! "portrait").
Proof.
  apply (layoutHeights_always_available Scenario.rotatesWithKeyboard 10000). lia.
Defined.

(** A candidate that passes the gate is written into the baselines. *)
Lemma gated_candidate_recorded (tr : Detector.Trace) (t : Most.Time)
    (c : Detector.Layout.t) :
  In (t, c) (Detector.gatedLayoutHeightCandidates tr) ->
  exists (earlier : Most.Stream (gmap string Z)) (m : gmap string Z)
         (later : Most.Stream (gmap string Z)),
    Detector.layoutHeightsBeforeSkipAfter tr = earlier ++ (t, m) :: later /\
    m !! Detector.Layout.screenOrientation c = Some (Detector.Layout.height c) /\
    ((forall y, In y earlier ->
        ~ (is_Some (y.2 !! "portrait") /\ is_Some (y.2 !! "landscape"))) ->
     In (t, m) (Detector.layoutHeights tr)).
Proof.
  intros Hg.
  destruct (in_scanFrom_intro
              (fun accHeights c =>
                 Ramda.assoc (Detector.Layout.screenOrientation c)
                   (Detector.Layout.height c) accHeights)
              _ {[ Detector.getScreenOrientationType (Detector.env tr 0)
                     := Dom.innerHeight (Detector.env tr 0) ]} _ _ Hg)
    as [acc' Hs].
  assert (Hscan : In (t, Ramda.assoc (Detector.Layout.screenOrientation c)
                           (Detector.Layout.height c) acc')
                     (Detector.layoutHeightsBeforeSkipAfter tr)).
  { unfold Detector.layoutHeightsBeforeSkipAfter, Most.scan. apply in_app_iff.
    right. exact Hs. }
  apply in_split in Hscan as (earlier & later & E).
  exists earlier, (Ramda.assoc (Detector.Layout.screenOrientation c)
                     (Detector.Layout.height c) acc'), later.
  split; [exact E|]. split; [apply lookup_insert_eq|].
  intros Hnot. unfold Detector.layoutHeights. rewrite E.
  apply in_skipAfter_intro. intros y Hy.
  destruct (Ramda.isEmpty _) eqn:Hp; [|reflexivity].
  exfalso. apply (Hnot y Hy). apply both_recorded. exact Hp.
Qed.

(** X17.  When [isUnfocused] becomes true at [t] and the document is not
    hidden 1000 ms later, the window height of [t] is written, at
    [t + 1000], into the baselines as the height of the orientation of [t];
    the baselines deliver the result unless they had both orientations
    before. *)
Theorem unfocus_records_baseline (tr : Detector.Trace) (t : Most.Time) :
  In (t, true) (Detector.isUnfocused tr) ->
  (exists v : string,
      Most.latest (Detector.documentVisibility tr) (t + 1000) = Some v /\ v <> "hidden") ->
  exists (earlier : Most.Stream (gmap string Z)) (m : gmap string Z)
         (later : Most.Stream (gmap string Z)),
    Detector.layoutHeightsBeforeSkipAfter tr = earlier ++ (t + 1000, m) :: later /\
    m !! Detector.getScreenOrientationType (Detector.env tr t)
    = Some (Dom.innerHeight (Detector.env tr t)) /\
    ((forall y, In y earlier ->
        ~ (is_Some (y.2 !! "portrait") /\ is_Some (y.2 !! "landscape"))) ->
     In (t + 1000, m) (Detector.layoutHeights tr)).
Proof.
  intros Hin Hvis.
  set (c := {| Detector.Layout.screenOrientation :=
                 Detector.getScreenOrientationType (Detector.env tr t);
               Detector.Layout.height := Dom.innerHeight (Detector.env tr t) |}).
  assert (Hg : In (t + 1000, c) (Detector.gatedLayoutHeightCandidates tr)).
  { apply in_gatedLayoutHeightCandidates. split; [|exact Hvis].
    replace (t + 1000 - 1000) with t by lia.
    unfold Detector.layoutHeightCandidates, Most.mergeArray. simpl.
    rewrite !in_merge. left. unfold Detector.layoutHeightOnUnfocus.
    apply in_map. exists true. split; [|reflexivity].
    apply in_filter. split; [exact Hin | reflexivity]. }
  exact (gated_candidate_recorded tr (t + 1000) c Hg).
Qed.

(** [unfocus_records_baseline] on the run in which the toolbar shows before
    focus is lost: the height of 2700 ms, 650, is recorded at 3700 ms. *)
Lemma unfocus_records_baseline_witness :
  exists (earlier : Most.Stream (gmap string Z)) (m : gmap string Z)
         (later : Most.Stream (gmap string Z)),
    Detector.layoutHeightsBeforeSkipAfter Scenario.toolbarShowsThenUnfocus
    = earlier ++ (2700 + 1000, m) :: later /\
    m !! "portrait" = Some 650.
Proof.
  assert (Hin : In (2700, true) (Detector.isUnfocused Scenario.toolbarShowsThenUnfocus))
    by (vm_compute; auto).
  destruct (unfocus_records_baseline Scenario.toolbarShowsThenUnfocus 2700 Hin)
    as (earlier & m & later & E & Hm & _).
  - exists "visible". split; [vm_compute; reflexivity | discriminate].
  - exists earlier, m, later. split; [exact E | exact Hm].
Defined.

(** ** A keyboard that shows and hides *)

(** Without focus events and orientation changes the baselines keep their
    initial value. *)
Lemma layoutHeights_constant (tr : Detector.Trace) (t : Most.Time) :
  Detector.focus tr = [] ->
  Detector.orientationchange tr = [] ->
  0 <= t ->
  Most.latest (Detector.layoutHeights tr) t
  = Some {[ Detector.getScreenOrientationType (Detector.env tr 0)
              := Dom.innerHeight (Detector.env tr 0) ]}.
Proof.
  intros Hf Ho Ht.
  set (o := Detector.getScreenOrientationType (Detector.env tr 0)).
  set (h0 := Dom.innerHeight (Detector.env tr 0)).
  set (seed := ({[ o := h0 ]} : gmap string Z)).
  assert (HU : Detector.isUnfocused tr
               = [(0, negb (Detector.isAnyElementActive (Detector.env tr 0)))]).
  { rewrite isUnfocused_initial. unfold Detector.focusSwitched. rewrite Hf. reflexivity. }
  assert (HL : forall x, In x (Detector.layoutHeights tr) -> x.2 = seed).
  { intros x Hx. unfold Detector.layoutHeights in Hx. apply in_skipAfter in Hx.
    unfold Detector.layoutHeightsBeforeSkipAfter, Most.scan, Most.now, Most.at_ in Hx.
    simpl in Hx. fold o h0 seed in Hx. destruct Hx as [<- | Hx]; [reflexivity|].
    revert x Hx. apply (scanFrom_invariant (fun m => m = seed)); [|reflexivity].
    intros b e -> He. destruct e as [u c].
    apply in_gatedLayoutHeightCandidates in He as [He _].
    unfold Detector.layoutHeightCandidates, Most.mergeArray in He. simpl in He.
    rewrite !in_merge in He. destruct He as [He | [He | []]].
    - unfold Detector.layoutHeightOnUnfocus in He. rewrite HU in He.
      destruct (negb _); simpl in He; [|destruct He].
      destruct He as [E | []]. injection E as E1 <-. simpl.
      replace (u - 1000) with 0 by lia. apply insert_singleton_eq.
    - unfold Detector.layoutHeightOnOSKFreeOrientationChange in He.
      rewrite Ho in He. destruct He. }
  destruct (layoutHeights_latest tr t Ht) as (u & m & Hm & Hin).
  rewrite Hm. f_equal. exact (HL (u, m) Hin).
Qed.

(** The classifier's result for one sample. *)
Lemma oskFromResize_cons (tr : Detector.Trace) (t : Most.Time) (s : Detector.Sample.t)
    (m : gmap string Z) (v : string) (samples : Most.Stream Detector.Sample.t)
    (later : Most.Stream string) :
  Most.latest (Detector.layoutHeights tr) (t + 400) = Some m ->
  Detector.classify (Detector.env tr (t + 400)) m s = Most.now v ->
  Most.join
    (Most.snapshot
       (fun t layoutHeightByOrientation s =>
          Detector.classify (Detector.env tr t) layoutHeightByOrientation s)
       (Detector.layoutHeights tr)
       (Most.delay Detector.LAYOUT_RESIZE_TO_LAYOUT_HEIGHT_FIX_DELAY samples)) = later ->
  InTimeOrder (t + 400) later ->
  Most.join
    (Most.snapshot
       (fun t layoutHeightByOrientation s =>
          Detector.classify (Detector.env tr t) layoutHeightByOrientation s)
       (Detector.layoutHeights tr)
       (Most.delay Detector.LAYOUT_RESIZE_TO_LAYOUT_HEIGHT_FIX_DELAY ((t, s) :: samples)))
  = (t + 400, v) :: later.
Proof.
  intros Hm Hc <- Ho.
  set (later := Most.join _) in *.
  change (Most.delay Detector.LAYOUT_RESIZE_TO_LAYOUT_HEIGHT_FIX_DELAY ((t, s) :: samples))
    with ((t + 400, s)
            :: Most.delay Detector.LAYOUT_RESIZE_TO_LAYOUT_HEIGHT_FIX_DELAY samples).
  unfold Most.snapshot in *. cbn [omap list_omap fst snd]. rewrite Hm.
  cbn [mbind option_bind]. rewrite Hc, join_cons. fold later.
  unfold Most.now, Most.at_. cbn [Most.delay List.map fst snd].
  replace (0 + (t + 400)) with (t + 400) by lia.
  apply (merge_first (t + 400, v)). exact Ho.
Qed.

(** X18.  A keyboard that shows.  In a run without focus events and
    orientation changes, with one resize event at [r], in which the window
    keeps its width and, 500 ms after the event, is lower than 90% of its
    height at [subscribe], the callback is called with ['visible'] 900 ms
    after the event; before that it is called with ['hidden'] at
    [subscribe] if no element is focused then, and there is no other
    call. *)
Theorem keyboard_shows_on_single_resize (tr : Detector.Trace) (r : Most.Time) :
  Detector.focus tr = [] ->
  Detector.orientationchange tr = [] ->
  Detector.resize tr = [(r, ())] ->
  Detector.userUnsubscription tr = [] ->
  0 <= r ->
  let h0 := Dom.innerHeight (Detector.env tr 0) in
  let h1 := Dom.innerHeight (Detector.env tr (r + 500)) in
  0 < h0 ->
  10 * h1 < 9 * h0 ->
  Dom.innerWidth (Detector.env tr (r + 500)) = Dom.innerWidth (Detector.env tr 0) ->
  Detector.getScreenOrientationType (Detector.env tr (r + 900))
  = Detector.getScreenOrientationType (Detector.env tr 0) ->
  Detector.osk tr
  = (if Detector.isAnyElementActive (Detector.env tr 0) then [] else [(0, "hidden")])
      ++ [(r + 900, "visible")].
Proof.
  intros Hf Ho Hr Hu Hr0 h0 h1 Hh0 Hh1 Hw Hor.
  set (o := Detector.getScreenOrientationType (Detector.env tr 0)) in *.
  set (seed := ({[ o := h0 ]} : gmap string Z)).
  assert (HS : Detector.layoutHeightOnVerticalResize tr
               = [(r + 500, sampleBetween tr 0 (r + 500))]).
  { rewrite layoutHeightOnVerticalResize_samples, Hr.
    unfold Detector.RESIZE_QUIET_PERIOD. cbn [Most.debounce Most.firesBefore fst snd].
    cbn [fmap list_fmap samplesFrom fst]. unfold Most.filter. cbn [List.filter snd].
    unfold sampleBetween at 1. cbn [Detector.Sample.isJustHeightResize].
    rewrite <- Hw, Z.eqb_refl. reflexivity. }
  assert (HC : Detector.classify (Detector.env tr (r + 500 + 400)) seed
                 (sampleBetween tr 0 (r + 500)) = Most.now "visible").
  { replace (r + 500 + 400) with (r + 900) by lia.
    rewrite classify_integers. cbn zeta. rewrite Hor. unfold seed.
    rewrite lookup_singleton_eq. rewrite decide_False by lia.
    unfold sampleBetween. cbn [Detector.Sample.height Detector.Sample.dH].
    fold h0 h1. rewrite decide_True by lia. reflexivity. }
  assert (HR : Detector.oskFromResize tr = [(r + 900, "visible")]).
  { unfold Detector.oskFromResize. rewrite HS.
    replace (r + 900) with (r + 500 + 400) by lia.
    apply (oskFromResize_cons tr (r + 500) _ seed "visible" [] []);
      [apply layoutHeights_constant; [exact Hf | exact Ho | lia] | exact HC
      | reflexivity | exact I]. }
  assert (HH : Detector.oskFromUnfocus tr
               = if Detector.isAnyElementActive (Detector.env tr 0) then []
                 else [(0, "hidden")]).
  { unfold Detector.oskFromUnfocus. rewrite isUnfocused_initial.
    unfold Detector.focusSwitched. rewrite Hf.
    destruct (Detector.isAnyElementActive _); reflexivity. }
  unfold Detector.osk, Detector.oskBeforeSkipRepeats. rewrite Hu, HR, HH.
  unfold Most.until.
  destruct (Detector.isAnyElementActive (Detector.env tr 0)); [reflexivity|].
  rewrite (merge_first (0, "hidden")) by (simpl; split; [lia | exact I]).
  reflexivity.
Qed.

(** [keyboard_shows_on_single_resize] on the run in the background: the
    window shrinks from 700 to 600 pixels at 1000 ms. *)
Lemma keyboard_shows_on_single_resize_witness :
  Detector.osk Scenario.backgrounded = [(1900, "visible")].
Proof.
  apply (keyboard_shows_on_single_resize Scenario.backgrounded 1000);
    try reflexivity; simpl; lia.
Defined.

(** X19.  A keyboard that shows and hides.  As before, with a second resize
    event at [r2], more than 500 ms after the first, after which the window
    is back at its height of [subscribe]: the callback is called with
    ['visible'] 900 ms after the first event and with ['hidden'] 900 ms
    after the second. *)
Theorem keyboard_shows_and_hides (tr : Detector.Trace) (r1 r2 : Most.Time) :
  Detector.focus tr = [] ->
  Detector.orientationchange tr = [] ->
  Detector.resize tr = [(r1, ()); (r2, ())] ->
  Detector.userUnsubscription tr = [] ->
  0 <= r1 -> r1 + 500 < r2 ->
  let h0 := Dom.innerHeight (Detector.env tr 0) in
  let h1 := Dom.innerHeight (Detector.env tr (r1 + 500)) in
  let h2 := Dom.innerHeight (Detector.env tr (r2 + 500)) in
  0 < h0 ->
  10 * h1 < 9 * h0 ->
  h2 = h0 ->
  Dom.innerWidth (Detector.env tr (r1 + 500)) = Dom.innerWidth (Detector.env tr 0) ->
  Dom.innerWidth (Detector.env tr (r2 + 500)) = Dom.innerWidth (Detector.env tr 0) ->
  Detector.getScreenOrientationType (Detector.env tr (r1 + 900))
  = Detector.getScreenOrientationType (Detector.env tr 0) ->
  Detector.getScreenOrientationType (Detector.env tr (r2 + 900))
  = Detector.getScreenOrientationType (Detector.env tr 0) ->
  Detector.osk tr
  = (if Detector.isAnyElementActive (Detector.env tr 0) then [] else [(0, "hidden")])
      ++ [(r1 + 900, "visible"); (r2 + 900, "hidden")].
Proof.
  intros Hf Ho Hr Hu Hr1 Hr2 h0 h1 h2 Hh0 Hh1 Hh2 Hw1 Hw2 Hor1 Hor2.
  set (o := Detector.getScreenOrientationType (Detector.env tr 0)) in *.
  set (seed := ({[ o := h0 ]} : gmap string Z)).
  assert (HS : Detector.layoutHeightOnVerticalResize tr
               = [(r1 + 500, sampleBetween tr 0 (r1 + 500));
                  (r2 + 500, sampleBetween tr (r1 + 500) (r2 + 500))]).
  { rewrite layoutHeightOnVerticalResize_samples, Hr.
    unfold Detector.RESIZE_QUIET_PERIOD. cbn [Most.debounce Most.firesBefore fst snd].
    rewrite (proj2 (Z.ltb_lt (r1 + 500) r2) Hr2).
    cbn [fmap list_fmap samplesFrom fst]. unfold Most.filter. cbn [List.filter snd].
    unfold sampleBetween at 1 3. cbn [Detector.Sample.isJustHeightResize].
    rewrite Hw1, Hw2, !Z.eqb_refl. reflexivity. }
  assert (HC1 : Detector.classify (Detector.env tr (r1 + 500 + 400)) seed
                  (sampleBetween tr 0 (r1 + 500)) = Most.now "visible").
  { replace (r1 + 500 + 400) with (r1 + 900) by lia.
    rewrite classify_integers. cbn zeta. rewrite Hor1. unfold seed.
    rewrite lookup_singleton_eq. rewrite decide_False by lia.
    unfold sampleBetween. cbn [Detector.Sample.height Detector.Sample.dH].
    fold h0 h1. rewrite decide_True by lia. reflexivity. }
  assert (HC2 : Detector.classify (Detector.env tr (r2 + 500 + 400)) seed
                  (sampleBetween tr (r1 + 500) (r2 + 500)) = Most.now "hidden").
  { replace (r2 + 500 + 400) with (r2 + 900) by lia.
    rewrite classify_integers. cbn zeta. rewrite Hor2. unfold seed.
    rewrite lookup_singleton_eq. rewrite decide_False by lia.
    unfold sampleBetween. cbn [Detector.Sample.height Detector.Sample.dH].
    fold h0 h1 h2. rewrite decide_False by lia. rewrite decide_True by lia.
    reflexivity. }
  assert (HR : Detector.oskFromResize tr = [(r1 + 900, "visible"); (r2 + 900, "hidden")]).
  { unfold Detector.oskFromResize. rewrite HS.
    replace (r1 + 900) with (r1 + 500 + 400) by lia.
    replace (r2 + 900) with (r2 + 500 + 400) by lia.
    apply (oskFromResize_cons tr (r1 + 500) _ seed "visible");
      [apply layoutHeights_constant; [exact Hf | exact Ho | lia] | exact HC1
      | | simpl; split; [lia | exact I]].
    apply (oskFromResize_cons tr (r2 + 500) _ seed "hidden" [] []);
      [apply layoutHeights_constant; [exact Hf | exact Ho | lia] | exact HC2
      | reflexivity | exact I]. }
  assert (HH : Detector.oskFromUnfocus tr
               = if Detector.isAnyElementActive (Detector.env tr 0) then []
                 else [(0, "hidden")]).
  { unfold Detector.oskFromUnfocus. rewrite isUnfocused_initial.
    unfold Detector.focusSwitched. rewrite Hf.
    destruct (Detector.isAnyElementActive _); reflexivity. }
  unfold Detector.osk, Detector.oskBeforeSkipRepeats. rewrite Hu, HR, HH.
  unfold Most.until.
  destruct (Detector.isAnyElementActive (Detector.env tr 0)); [reflexivity|].
  rewrite (merge_first (0, "hidden")) by (simpl; split; [lia | split; [lia | exact I]]).
  reflexivity.
Qed.

(** [keyboard_shows_and_hides] on the run of that name: resize events at
    1000 and 5000 ms, heights 700, 600 and 700. *)
Lemma keyboard_shows_and_hides_witness :
  Detector.osk Scenario.keyboardShowsAndHides
  = [(0, "hidden"); (1900, "visible"); (5900, "hidden")].
Proof.
  apply (keyboard_shows_and_hides Scenario.keyboardShowsAndHides 1000 5000);
    try reflexivity; simpl; lia.
Defined.

(** A sample the classifier finds nothing in. *)
Lemma oskFromResize_skip (tr : Detector.Trace) (t : Most.Time) (s : Detector.Sample.t)
    (m : gmap string Z) (samples : Most.Stream Detector.Sample.t) :
  Most.latest (Detector.layoutHeights tr) (t + 400) = Some m ->
  Detector.classify (Detector.env tr (t + 400)) m s = Most.empty ->
  Most.join
    (Most.snapshot
       (fun t layoutHeightByOrientation s =>
          Detector.classify (Detector.env tr t) layoutHeightByOrientation s)
       (Detector.layoutHeights tr)
       (Most.delay Detector.LAYOUT_RESIZE_TO_LAYOUT_HEIGHT_FIX_DELAY ((t, s) :: samples)))
  = Most.join
      (Most.snapshot
         (fun t layoutHeightByOrientation s =>
            Detector.classify (Detector.env tr t) layoutHeightByOrientation s)
         (Detector.layoutHeights tr)
         (Most.delay Detector.LAYOUT_RESIZE_TO_LAYOUT_HEIGHT_FIX_DELAY samples)).
Proof.
  intros Hm Hc.
  change (Most.delay Detector.LAYOUT_RESIZE_TO_LAYOUT_HEIGHT_FIX_DELAY ((t, s) :: samples))
    with ((t + 400, s)
            :: Most.delay Detector.LAYOUT_RESIZE_TO_LAYOUT_HEIGHT_FIX_DELAY samples).
  unfold Most.snapshot. cbn [omap list_omap fst snd]. rewrite Hm.
  cbn [mbind option_bind]. rewrite Hc, join_cons. apply merge_nil_l.
Qed.

(** X20.  A resize that is not a keyboard.  In a run without focus events
    and orientation changes, with one resize event at [r], the classifier
    reports nothing when the window has changed its width, or when it has
    kept its orientation and 500 ms after the event still has 90% or more of
    its height at [subscribe] (a toolbar that shows or hides): the only call
    is the ['hidden'] at [subscribe], made if no element is focused then. *)
Theorem small_resize_is_ignored (tr : Detector.Trace) (r : Most.Time) :
  Detector.focus tr = [] ->
  Detector.orientationchange tr = [] ->
  Detector.resize tr = [(r, ())] ->
  Detector.userUnsubscription tr = [] ->
  0 <= r ->
  let h0 := Dom.innerHeight (Detector.env tr 0) in
  let h1 := Dom.innerHeight (Detector.env tr (r + 500)) in
  0 < h0 ->
  Dom.innerWidth (Detector.env tr (r + 500)) <> Dom.innerWidth (Detector.env tr 0) \/
  Detector.getScreenOrientationType (Detector.env tr (r + 900))
  = Detector.getScreenOrientationType (Detector.env tr 0) /\ 9 * h0 <= 10 * h1 ->
  Detector.osk tr
  = if Detector.isAnyElementActive (Detector.env tr 0) then [] else [(0, "hidden")].
Proof.
  intros Hf Ho Hr Hu Hr0 h0 h1 Hh0 Hcase.
  set (o := Detector.getScreenOrientationType (Detector.env tr 0)) in *.
  set (seed := ({[ o := h0 ]} : gmap string Z)).
  assert (HR : Detector.oskFromResize tr = []).
  { unfold Detector.oskFromResize.
    rewrite layoutHeightOnVerticalResize_samples, Hr.
    unfold Detector.RESIZE_QUIET_PERIOD. cbn [Most.debounce Most.firesBefore fst snd].
    cbn [fmap list_fmap samplesFrom fst]. unfold Most.filter. cbn [List.filter snd].
    destruct (Detector.Sample.isJustHeightResize (sampleBetween tr 0 (r + 500))) eqn:Hj;
      [|reflexivity].
    rewrite (oskFromResize_skip tr (r + 500) _ seed);
      [reflexivity | apply layoutHeights_constant; [exact Hf | exact Ho | lia] |].
    destruct Hcase as [Hw | [Hor L]].
    - exfalso. apply Hw. simpl in Hj. apply Z.eqb_eq in Hj. symmetry. exact Hj.
    - replace (r + 500 + 400) with (r + 900) by lia.
      rewrite classify_integers. cbn zeta. rewrite Hor. unfold seed.
      rewrite lookup_singleton_eq. rewrite decide_False by lia.
      unfold sampleBetween. cbn [Detector.Sample.height Detector.Sample.dH].
      fold h0 h1. rewrite !decide_False by lia. reflexivity. }
  assert (HH : Detector.oskFromUnfocus tr
               = if Detector.isAnyElementActive (Detector.env tr 0) then []
                 else [(0, "hidden")]).
  { unfold Detector.oskFromUnfocus. rewrite isUnfocused_initial.
    unfold Detector.focusSwitched. rewrite Hf.
    destruct (Detector.isAnyElementActive _); reflexivity. }
  unfold Detector.osk, Detector.oskBeforeSkipRepeats. rewrite Hu, HR, HH.
  unfold Most.until.
  destruct (Detector.isAnyElementActive (Detector.env tr 0)); reflexivity.
Qed.

(** [small_resize_is_ignored] on the run in which the toolbar shows: the
    window shrinks from 700 to 650 pixels, and an input is focused. *)
Lemma small_resize_is_ignored_witness :
  Detector.osk Scenario.toolbarShows = [].
Proof.
  apply (small_resize_is_ignored Scenario.toolbarShows 1000);
    try reflexivity; simpl; try lia.
  right. split; [reflexivity | lia].
Defined.
